(** * The MongoDB Atlas cluster resource: a shallow embedding

    This development embeds [mongodbatlas/resource_mongodbatlas_cluster.go]
    and states the properties of its create, read, update, delete and import
    operations as theorems.

    Layout:
    - [gostrings], [fmt], [strconv], [float64], [reflect]: the few Go
      library functions and types the resource relies on;
    - [matlas]: the Atlas client's data transfer objects;
    - [schema]: the configuration store ([ResourceData]);
    - [resource]: the status poll loop ([StateChangeConf], [WaitForState]);
    - the resource's own functions, under the names of the source;
    - the vocabulary of the statements and concrete inputs;
    - the properties, and the properties on concrete inputs. *)

From Stdlib Require Import ZArith Lia Ascii.
From stdpp Require Import sorting countable base option list strings gmap fin_maps.

Local Open Scope Z_scope.

(* ===================================================================== *)
(** * Go library functions used by the resource *)
(* ===================================================================== *)

(** ** package strings *)
Module gostrings.

(** [HasPrefix s p]: [s] begins with [p]. *)
Fixpoint HasPrefix (s p : string) {struct p} : bool :=
  match p, s with
  | EmptyString, _ => true
  | String _ _, EmptyString => false
  | String b p', String a s' => if decide (a = b) then HasPrefix s' p' else false
  end.

(** [Contains s substr]: [substr] occurs within [s]. *)
Fixpoint Contains (s substr : string) : bool :=
  HasPrefix s substr ||
  match s with
  | EmptyString => false
  | String _ s' => Contains s' substr
  end.

(** [s[n:]]. *)
Fixpoint drop (n : nat) (s : string) : string :=
  match n, s with
  | O, _ => s
  | S n', String _ s' => drop n' s'
  | S _, EmptyString => EmptyString
  end.

(** [Cut s sep] is the text before and after the first occurrence of
    [sep] in [s] (what [Index] and the two slices [s[:m]],
    [s[m+len(sep):]] give in [genSplit]); [None] when [sep] does not
    occur ([Index] returns -1). *)
Fixpoint Cut (s sep : string) : option (string * string) :=
  if HasPrefix s sep then Some (EmptyString, drop (String.length sep) s)
  else match s with
       | EmptyString => None
       | String a s' =>
           match Cut s' sep with
           | Some (before, after) => Some (String a before, after)
           | None => None
           end
       end.

(** [SplitN s sep n] for [n > 0] and a non-empty [sep]: at most [n]
    substrings, the last one being the unsplit remainder. [n = 0] gives
    the nil slice. *)
Fixpoint SplitN (s sep : string) (n : nat) : list string :=
  match n with
  | O => []
  | S O => [s]
  | S n' =>
      match Cut s sep with
      | Some (before, after) => before :: SplitN after sep n'
      | None => [s]
      end
  end.

End gostrings.

(** ** package fmt: [%s] substitution, as used by the error formats *)
Module fmt.

Fixpoint Sprintf (format : string) (args : list string) : string :=
  match format with
  | String "%" (String "s" rest) =>
      match args with
      | a :: args' => a +:+ Sprintf rest args'
      | [] => "%!s(MISSING)" +:+ Sprintf rest []
      end
  | String c rest => String c (Sprintf rest args)
  | EmptyString => EmptyString
  end.

End fmt.

(** ** package strconv *)
Module strconv.

Definition FormatBool (b : bool) : string := if b then "true" else "false".

(** [ParseBool] accepts 1, t, T, TRUE, true, True, 0, f, F, FALSE, false,
    False; any other text is an error. *)
Definition ParseBool (str : string) : option bool :=
  if decide (str ∈ ["1"; "t"; "T"; "TRUE"; "true"; "True"]) then Some true
  else if decide (str ∈ ["0"; "f"; "F"; "FALSE"; "false"; "False"]) then Some false
  else None.

End strconv.

(** ** float64 values

    A [float64] is kept as its IEEE-754 bit pattern. The resource only
    stores, copies and compares such values; [eqb] is Go's [==] on floats
    (a NaN differs from everything, the two zeros are equal). *)
Module float64.

Definition t := Z.

Definition zero : t := 0.

Definition isNaN (x : t) : bool :=
  (Z.land (Z.shiftr x 52) 2047 =? 2047) && negb (Z.land x (2 ^ 52 - 1) =? 0).

Definition isZero (x : t) : bool := Z.land x (2 ^ 63 - 1) =? 0.

Definition eqb (x y : t) : bool :=
  if isNaN x || isNaN y then false
  else (x =? y) || (isZero x && isZero y).

End float64.

(* ===================================================================== *)
(** * The Atlas client's data transfer objects (package matlas) *)
(* ===================================================================== *)

(** Pointer fields ([*bool], [*int64], [*float64], [*ProviderSettings]) are
    [option]s, [None] being the nil pointer. Only the fields the resource
    touches are kept. A field whose Go name is also the name of a struct
    carries the struct's name as a prefix. *)
Module matlas.

Record AutoScaling := { DiskGBEnabled : option bool }.

Record BiConnector := {
  Enabled : option bool;
  ReadPreference : string }.

Record ProviderSettings := {
  BackingProviderName : string;
  DiskIOPS : option Z;
  DiskTypeName : string;
  EncryptEBSVolume : option bool;
  InstanceSizeName : string;
  ProviderName : string;
  RegionName : string;
  VolumeType : string }.

Record RegionsConfig := {
  AnalyticsNodes : option Z;
  ElectableNodes : option Z;
  Priority : option Z;
  ReadOnlyNodes : option Z }.

Record ReplicationSpec := {
  ReplicationSpec_ID : string;
  ReplicationSpec_NumShards : option Z;
  ZoneName : string;
  ReplicationSpec_RegionsConfig : gmap string RegionsConfig }.

Record Cluster := {
  Cluster_AutoScaling : AutoScaling;
  BackupEnabled : option bool;
  Cluster_BiConnector : BiConnector;
  ClusterType : string;
  DiskSizeGB : option float64.t;
  EncryptionAtRestProvider : string;
  GroupID : string;
  ID : string;
  MongoDBVersion : string;
  MongoDBMajorVersion : string;
  MongoURI : string;
  MongoURIUpdated : string;
  MongoURIWithOptions : string;
  Name : string;
  NumShards : option Z;
  Paused : option bool;
  ProviderBackupEnabled : option bool;
  Cluster_ProviderSettings : option ProviderSettings;
  ReplicationFactor : option Z;
  ReplicationSpecs : list ReplicationSpec;
  SrvAddress : string;
  StateName : string }.

(** The zero values [matlas.BiConnector{}], [matlas.ProviderSettings{}]
    and [matlas.Cluster{}]. *)
Definition BiConnector_zero : BiConnector :=
  {| Enabled := None; ReadPreference := "" |}.

Definition ProviderSettings_zero : ProviderSettings :=
  {| BackingProviderName := ""; DiskIOPS := None; DiskTypeName := "";
     EncryptEBSVolume := None; InstanceSizeName := ""; ProviderName := "";
     RegionName := ""; VolumeType := "" |}.

Definition Cluster_zero : Cluster :=
  {| Cluster_AutoScaling := {| DiskGBEnabled := None |};
     BackupEnabled := None;
     Cluster_BiConnector := BiConnector_zero;
     ClusterType := "";
     DiskSizeGB := None;
     EncryptionAtRestProvider := "";
     GroupID := "";
     ID := "";
     MongoDBVersion := "";
     MongoDBMajorVersion := "";
     MongoURI := "";
     MongoURIUpdated := "";
     MongoURIWithOptions := "";
     Name := "";
     NumShards := None;
     Paused := None;
     ProviderBackupEnabled := None;
     Cluster_ProviderSettings := None;
     ReplicationFactor := None;
     ReplicationSpecs := [];
     SrvAddress := "";
     StateName := "" |}.

#[global] Instance AutoScaling_eq_dec : EqDecision AutoScaling.
Proof. solve_decision. Defined.
#[global] Instance BiConnector_eq_dec : EqDecision BiConnector.
Proof. solve_decision. Defined.
#[global] Instance ProviderSettings_eq_dec : EqDecision ProviderSettings.
Proof. solve_decision. Defined.
#[global] Instance RegionsConfig_eq_dec : EqDecision RegionsConfig.
Proof. solve_decision. Defined.
#[global] Instance ReplicationSpec_eq_dec : EqDecision ReplicationSpec.
Proof. solve_decision. Defined.
#[global] Instance Cluster_eq_dec : EqDecision Cluster.
Proof. solve_decision. Defined.

(** The HTTP response handle; only its status code is read. *)
Record Response := { StatusCode : Z }.

End matlas.

(** ** interface values and package reflect *)

(** The values the resource passes as [interface{}]: the poll loop's result
    (nil, the integer 42 or a [*Cluster]) and the two operands of
    [reflect.DeepEqual]. Each constructor is one dynamic type. *)
Inductive any :=
| AnyNil
| AnyInt (n : Z)
| AnyClusterPtr (c : matlas.Cluster)
| AnyCluster (c : matlas.Cluster)
| AnyProviderSettings (p : matlas.ProviderSettings).

Module reflect.

(** [DeepEqual x y]: "values of distinct types are never deeply equal";
    values of one type are compared field by field, pointers by what
    they point to. *)
Definition DeepEqual (x y : any) : bool :=
  match x, y with
  | AnyNil, AnyNil => true
  | AnyInt a, AnyInt b => bool_decide (a = b)
  | AnyClusterPtr a, AnyClusterPtr b => bool_decide (a = b)
  | AnyCluster a, AnyCluster b => bool_decide (a = b)
  | AnyProviderSettings a, AnyProviderSettings b => bool_decide (a = b)
  | _, _ => false
  end.

End reflect.


(* ===================================================================== *)
(** * The configuration store (package schema) *)
(* ===================================================================== *)

Module schema.

Inductive ValueType := TypeBool | TypeInt | TypeFloat | TypeString | TypeList | TypeMap.

(** One element of the [regions_config] set of a replication spec. *)
Record RegionCfg := {
  region_name : string;
  electable_nodes : Z;
  priority : Z;
  read_only_nodes : Z;
  analytics_nodes : Z }.

(** One element of the [replication_specs] list. The set [regions_config]
    is kept as the list its [List()] method returns: one element per hash
    code, in the order of the codes. *)
Record ReplicationSpecCfg := {
  spec_id : string;
  spec_num_shards : Z;
  spec_regions_config : list RegionCfg;
  spec_zone_name : string }.

(** The values an attribute of this resource can hold: the four primitive
    types, the string map of [bi_connector] and the list of
    [replication_specs]. *)
Inductive value :=
| VBool (b : bool)
| VInt (n : Z)
| VFloat (f : float64.t)
| VString (s : string)
| VMap (m : gmap string string)
| VList (l : list ReplicationSpecCfg).

#[global] Instance RegionCfg_eq_dec : EqDecision RegionCfg.
Proof. solve_decision. Defined.
#[global] Instance ReplicationSpecCfg_eq_dec : EqDecision ReplicationSpecCfg.
Proof. solve_decision. Defined.
#[global] Instance value_eq_dec : EqDecision value.
Proof. solve_decision. Defined.

Definition type_of (v : value) : ValueType :=
  match v with
  | VBool _ => TypeBool
  | VInt _ => TypeInt
  | VFloat _ => TypeFloat
  | VString _ => TypeString
  | VMap _ => TypeMap
  | VList _ => TypeList
  end.

#[global] Instance ValueType_eq_dec : EqDecision ValueType.
Proof. solve_decision. Defined.

(** [Type.Zero()]. *)
Definition Zero (t : ValueType) : value :=
  match t with
  | TypeBool => VBool false
  | TypeInt => VInt 0
  | TypeFloat => VFloat float64.zero
  | TypeString => VString ""
  | TypeMap => VMap ∅
  | TypeList => VList []
  end.

(** Two values of one attribute are deeply equal ([reflect.DeepEqual] on
    the two sides of [d.GetChange]): floats by [==]; booleans, integers,
    texts and string maps structurally. An element of [replication_specs]
    holds its [regions_config] as a [*schema.Set], a struct that has its
    hash function among its fields, and "Func values are deeply equal if
    both are nil; otherwise they are not deeply equal": two lists of
    replication specs are deeply equal only when both are empty. *)
Definition value_eqb (v w : value) : bool :=
  match v, w with
  | VFloat f, VFloat g => float64.eqb f g
  | VList l, VList k => bool_decide (l = []) && bool_decide (k = [])
  | _, _ => bool_decide (v = w)
  end.

(** One attribute of a resource schema: its type and its [Default]. *)
Record Schema := {
  Type_ : ValueType;
  Default : option value }.

(** The [Schema] map of a [schema.Resource], in source order. *)
Definition Resource := list (string * Schema).

Fixpoint lookup_schema (r : Resource) (key : string) : option Schema :=
  match r with
  | [] => None
  | (k, s) :: r' => if decide (k = key) then Some s else lookup_schema r' key
  end.

(** The readers return a value of the attribute's type: the stored one, or
    the zero value of the type when nothing (or something of another type)
    is stored. A key outside the schema reads as the nil interface. *)
Definition typed (r : Resource) (key : string) (o : option value) : option value :=
  match lookup_schema r key with
  | Some s =>
      match o with
      | Some v => if decide (type_of v = Type_ s) then Some v else Some (Zero (Type_ s))
      | None => Some (Zero (Type_ s))
      end
  | None => None
  end.

Definition is_zero (v : value) : bool :=
  match v with
  | VFloat f => float64.eqb f float64.zero
  | _ => bool_decide (v = Zero (type_of v))
  end.

End schema.

(* ===================================================================== *)
(** * The cluster resource: schema and store *)
(* ===================================================================== *)

Import schema.

Definition attr (t : ValueType) : Schema := {| Type_ := t; Default := None |}.
Definition attr_default (t : ValueType) (v : value) : Schema :=
  {| Type_ := t; Default := Some v |}.

(** The [Schema] of [resourceMongoDBAtlasCluster()]. The elements of
    [replication_specs] and of their [regions_config] are typed by
    [ReplicationSpecCfg] and [RegionCfg]. *)
Definition resourceMongoDBAtlasCluster : Resource :=
  [ ("project_id", attr TypeString);
    ("cluster_id", attr TypeString);
    ("auto_scaling_disk_gb_enabled", attr_default TypeBool (VBool true));
    ("backup_enabled", attr_default TypeBool (VBool false));
    ("bi_connector", attr TypeMap);
    ("cluster_type", attr TypeString);
    ("disk_size_gb", attr TypeFloat);
    ("encryption_at_rest_provider", attr TypeString);
    ("name", attr TypeString);
    ("mongo_db_major_version", attr TypeString);
    ("num_shards", attr_default TypeInt (VInt 1));
    ("provider_backup_enabled", attr_default TypeBool (VBool false));
    ("provider_instance_size_name", attr TypeString);
    ("provider_name", attr TypeString);
    ("backing_provider_name", attr TypeString);
    ("provider_disk_iops", attr TypeInt);
    ("provider_disk_type_name", attr TypeString);
    ("provider_encrypt_ebs_volume", attr TypeBool);
    ("provider_region_name", attr TypeString);
    ("provider_volume_type", attr TypeString);
    ("replication_factor", attr TypeInt);
    ("replication_specs", attr TypeList);
    ("mongo_db_version", attr TypeString);
    ("mongo_uri", attr TypeString);
    ("mongo_uri_updated", attr TypeString);
    ("mongo_uri_with_options", attr TypeString);
    ("paused", attr TypeBool);
    ("srv_address", attr TypeString);
    ("state_name", attr TypeString) ].

(** [schema.ResourceData] for this resource: the store a resource function
    receives.
    - [state]: the attributes as last recorded (the old side of a change);
    - [planned]: the attributes of the configuration being applied, merged
      over the state, defaults included (the new side of a change);
    - [written]: what the function has [Set] so far, [None] standing for a
      nil value;
    - [id]: the resource identity, the empty string when unset;
    - [timeout_create]: the create timeout of the configuration, in
      seconds, if it has one. *)
Record ResourceData := {
  state : gmap string value;
  planned : gmap string value;
  written : gmap string (option value);
  id : string;
  timeout_create : option Z }.

(** [d.Get(key)]. *)
Definition Get (d : ResourceData) (key : string) : option value :=
  match written d !! key with
  | Some o => typed resourceMongoDBAtlasCluster key o
  | None => typed resourceMongoDBAtlasCluster key (planned d !! key)
  end.

(** [d.GetOk(key)]: the value, and whether it is set to a non-zero value. *)
Definition GetOk (d : ResourceData) (key : string) : option value * bool :=
  match Get d key with
  | Some v => (Some v, negb (is_zero v))
  | None => (None, false)
  end.

(** [d.HasChange(key)]: old and new value of [d.GetChange(key)] differ. *)
Definition HasChange (d : ResourceData) (key : string) : bool :=
  match typed resourceMongoDBAtlasCluster key (state d !! key),
        typed resourceMongoDBAtlasCluster key (planned d !! key) with
  | Some o, Some n => negb (value_eqb o n)
  | _, _ => false
  end.

(** [d.Id()] and [d.SetId(v)]. *)
Definition Id (d : ResourceData) : string := id d.

Definition SetId (d : ResourceData) (v : string) : ResourceData :=
  {| state := state d; planned := planned d;
     written := written d; id := v; timeout_create := timeout_create d |}.

(** [d.Timeout(schema.TimeoutCreate)], in seconds: the configured create
    timeout, or the default of 20 minutes. *)
Definition Timeout_Create (d : ResourceData) : Z :=
  default (20 * 60) (timeout_create d).

(** Typed reads: [d.Get(key).(string)], [cast.ToString(d.Get(key))] and
    their like. [Get] returns a value of the attribute's type, so for a key
    of the matching type the first branch is the one taken; the [cast]
    functions give the zero value on anything else. *)
Definition get_string (d : ResourceData) (key : string) : string :=
  match Get d key with Some (VString s) => s | _ => "" end.

Definition get_bool (d : ResourceData) (key : string) : bool :=
  match Get d key with Some (VBool b) => b | _ => false end.

Definition get_int (d : ResourceData) (key : string) : Z :=
  match Get d key with Some (VInt n) => n | _ => 0 end.

Definition get_float (d : ResourceData) (key : string) : float64.t :=
  match Get d key with Some (VFloat f) => f | _ => float64.zero end.

(* ===================================================================== *)
(** * The status poll loop (package resource) *)
(* ===================================================================== *)

Module resource.

(** [StateChangeConf], durations in seconds. The [Refresh] function is
    passed to [WaitForState] next to the configuration. *)
Record StateChangeConf := {
  Delay : Z;
  Pending : list string;
  Target : list string;
  Timeout : Z;
  MinTimeout : Z;
  NotFoundChecks : nat;
  ContinuousTargetOccurence : nat }.

(** The errors [WaitForState] raises itself. *)
Inductive failure :=
| NotFoundError (Retries : nat)
| UnexpectedStateError (State : string) (ExpectedState : list string)
| TimeoutError (LastState : string) (Timeout : Z) (ExpectedState : list string).

(** The scan of [conf.Target] for the current state: whether the loop is
    done, whether the state was found, and the occurrence counter. *)
Fixpoint scanTarget (target : list string) (currentState : string)
    (continuous : nat) (found : bool) (targetOccurence : nat) : bool * bool * nat :=
  match target with
  | [] => (false, found, targetOccurence)
  | allowed :: rest =>
      if decide (currentState = allowed) then
        if decide (continuous = S targetOccurence) then (true, true, S targetOccurence)
        else scanTarget rest currentState continuous true (S targetOccurence)
      else scanTarget rest currentState continuous found targetOccurence
  end.

End resource.

(** Go [error] values: a text ([errors.New], [fmt.Errorf], the errors of
    the Atlas client) or one of the poll loop's own errors. *)
Inductive error :=
| errorString (s : string)
| resourceError (f : resource.failure).

(** What the resource takes from outside this file:
    - [encodeStateID] and [decodeStateID], the provider's composite
      identifier scheme;
    - [reads_within conf], the number of status reads that fit into the
      timeout of a poll loop (after its initial delay, with its waits
      between reads);
    - [failure_text], the [Error()] text of the poll loop's errors;
    - [rangeOrder m], the order in which a [for ... range] statement visits
      the entries of the map [m]. Go leaves that order unspecified: all
      that is known of it is that every entry is visited once;
    - [hashcode region], the hash code under which a [schema.Set] keeps an
      element of [regions_config] and by which it orders its elements
      ([schema.HashResource] of the element's schema). Distinct regions
      are taken to have distinct codes: the collision of two checksums is
      left out of the model. *)
Class Platform := {
  encodeStateID : gmap string string → string;
  decodeStateID : string → gmap string string;
  reads_within : resource.StateChangeConf → nat;
  failure_text : resource.failure → string;
  rangeOrder : gmap string matlas.RegionsConfig → list (string * matlas.RegionsConfig);
  rangeOrder_Permutation : ∀ m, rangeOrder m ≡ₚ map_to_list m;
  hashcode : RegionCfg → Z;
  hashcode_inj : ∀ region region', hashcode region = hashcode region' → region = region' }.

(** [err.Error()]. *)
Definition Error `{Platform} (e : error) : string :=
  match e with
  | errorString s => s
  | resourceError f => failure_text f
  end.

(** [fmt.Errorf(format, args...)], the arguments already as text. *)
Definition Errorf (format : string) (args : list string) : error :=
  errorString (fmt.Sprintf format args).

(** [ids[key]] on a Go map: the empty string for a missing key. *)
Definition index (m : gmap string string) (key : string) : string :=
  default "" (m !! key).

(** [List()] of the [schema.Set] built from [items]: one element per hash
    code, in the order of the codes. *)
Definition byCode `{Platform} (region region' : RegionCfg) : Prop :=
  hashcode region ≤ hashcode region'.

#[global] Instance byCode_dec `{Platform} : RelDecision byCode.
Proof. intros region region'. unfold byCode. apply _. Defined.

Definition Set_List `{Platform} (items : list RegionCfg) : list RegionCfg :=
  merge_sort byCode (remove_dups items).

(** The form in which the store keeps a value that is written to it: the
    [regions_config] of each replication spec becomes a set. *)
Definition storedSpec `{Platform} (spec : ReplicationSpecCfg) : ReplicationSpecCfg :=
  {| spec_id := spec_id spec;
     spec_num_shards := spec_num_shards spec;
     spec_regions_config := Set_List (spec_regions_config spec);
     spec_zone_name := spec_zone_name spec |}.

Definition stored `{Platform} (v : value) : value :=
  match v with
  | VList l => VList (storedSpec <$> l)
  | _ => v
  end.

(** [d.Set(key, value)]: [None] is a nil pointer, which clears the
    attribute; a value of the wrong type, or a key outside the schema, is
    refused with an error text and leaves the store as it was. *)
Definition Set' `{Platform} (d : ResourceData) (key : string) (v : option value)
  : ResourceData * option string :=
  match lookup_schema resourceMongoDBAtlasCluster key with
  | None => (d, Some ("Invalid address to set: " +:+ key))
  | Some s =>
      match v with
      | Some x =>
          if decide (type_of x = Type_ s)
          then ({| state := state d; planned := planned d;
                   written := <[key := Some (stored x)]> (written d);
                   id := id d; timeout_create := timeout_create d |}, None)
          else (d, Some (key +:+ ": value of the wrong type"))
      | None =>
          ({| state := state d; planned := planned d;
              written := <[key := None]> (written d);
              id := id d; timeout_create := timeout_create d |}, None)
      end
  end.

(* ===================================================================== *)
(** * The remote cluster API and the effects of a resource function *)
(* ===================================================================== *)

(** The calls a resource function issues on [conn.Clusters]. *)
Inductive Call :=
| CallCreate (groupID : string) (cluster : matlas.Cluster)
| CallGet (groupID clusterName : string)
| CallUpdate (groupID clusterName : string) (cluster : matlas.Cluster)
| CallDelete (groupID clusterName : string).

(** The client handle [*matlas.Client]: what each call answers, given the
    calls issued before it. *)
Record Client := {
  Clusters_Create : list Call → string → matlas.Cluster →
                    option matlas.Cluster * option matlas.Response * option error;
  Clusters_Get : list Call → string → string →
                 option matlas.Cluster * option matlas.Response * option error;
  Clusters_Update : list Call → string → string → matlas.Cluster →
                    option matlas.Cluster * option matlas.Response * option error;
  Clusters_Delete : list Call → string → string →
                    option matlas.Response * option error }.

(** What a resource function acts on: the store [d] it was handed and the
    calls issued so far. *)
Record World := {
  data : ResourceData;
  calls : list Call }.

(** How a function ends: it returns a value, returns a non-nil [error], or
    panics (a nil pointer dereference). *)
Inductive outcome (A : Type) :=
| Return (a : A)
| Fail (e : error)
| Panic.
Arguments Return {A} a.
Arguments Fail {A} e.
Arguments Panic {A}.

Definition M (A : Type) : Type := World → outcome A * World.

Definition ret {A} (a : A) : M A := λ w, (Return a, w).
Definition fail {A} (e : error) : M A := λ w, (Fail e, w).
Definition panic {A} : M A := λ w, (Panic, w).

Definition bind {A B} (m : M A) (k : A → M B) : M B :=
  λ w, match m w with
       | (Return a, w') => k a w'
       | (Fail e, w') => (Fail e, w')
       | (Panic, w') => (Panic, w')
       end.

Declare Scope go_scope.
Delimit Scope go_scope with go.
Notation "x <- m ;; k" := (bind m (λ x, k))
  (at level 100, m at next level, right associativity) : go_scope.
Notation "m ;;; k" := (bind m (λ _, k))
  (at level 100, right associativity) : go_scope.

Definition get_data : M ResourceData := λ w, (Return (data w), w).

Definition put_data (d : ResourceData) : M unit :=
  λ w, (Return tt, {| data := d; calls := calls w |}).

(** Issue a call: the client answers from the calls so far, and the call
    joins them. *)
Definition call {A} (c : Call) (answer : list Call → A) : M A :=
  λ w, (Return (answer (calls w)), {| data := data w; calls := calls w ++ [c] |}).

(** [if err := d.Set(key, v); err != nil { return wrap(err) }]. *)
Definition set_or_return `{Platform} (key : string) (v : option value)
    (wrap : string → error) : M unit :=
  λ w, match Set' (data w) key v with
       | (d', None) => (Return tt, {| data := d'; calls := calls w |})
       | (_, Some err) => (Fail (wrap err), w)
       end.

(** [if err := d.Set(key, v); err != nil { log.Printf(...) }]. *)
Definition set_or_log `{Platform} (key : string) (v : option value) : M unit :=
  λ w, (Return tt, {| data := (Set' (data w) key v).1; calls := calls w |}).

Section WithPlatform.
Context `{Platform}.
Local Open Scope go_scope.

(** ** [StateChangeConf.WaitForState]

    The poll loop the resource calls after each mutation is
    [WaitForState] of the Terraform plugin SDK (package
    [helper/resource], imported by the source). It is embedded here pass
    by pass, with time taken out: what is left of the timeout is the
    number of status reads it still affords. *)

(** How one pass of the refresh loop ends: the loop goes on with its two
    counters and the state it has just published, or it is done with a
    result, or it stops with an error, or the refresh function panics. *)
Inductive pass :=
| Continue (notfoundTick targetOccurence : nat) (lastState : string)
| Done (res : any)
| Stop (e : error)
| Crash.

(** One pass of the loop: a refresh, then the checks on its result. *)
Definition refreshPass (conf : resource.StateChangeConf)
    (Refresh : M (any * string * option error))
    (notfoundTick targetOccurence : nat) (w : World) : pass * World :=
  match Refresh w with
  | (Panic, w') => (Crash, w')
  | (Fail e, w') => (Stop e, w')
  | (Return (res, currentState, err), w') =>
      match err with
      | Some e => (Stop e, w')
      | None =>
          match res with
          | AnyNil =>
              if bool_decide (resource.Target conf = []) then
                (* If we're waiting for the absence of a thing, then return *)
                if decide (resource.ContinuousTargetOccurence conf = S targetOccurence)
                then (Done res, w')
                else (Continue notfoundTick (S targetOccurence) currentState, w')
              else
                (* If we didn't find the resource, check if we have been
                   not finding it for awhile, and if so, report an error. *)
                if decide (resource.NotFoundChecks conf < S notfoundTick)%nat
                then (Stop (resourceError (resource.NotFoundError (S notfoundTick))), w')
                else (Continue (S notfoundTick) targetOccurence currentState, w')
          | _ =>
              (* Reset the counter for when a resource isn't found *)
              let '(done, found, occ) :=
                resource.scanTarget (resource.Target conf) currentState
                  (resource.ContinuousTargetOccurence conf) false targetOccurence in
              if done then (Done res, w')
              else
                let '(found, occ) :=
                  if decide (currentState ∈ resource.Pending conf) then (true, O)
                  else (found, occ) in
                if negb found && negb (bool_decide (resource.Pending conf = []))
                then (Stop (resourceError (resource.UnexpectedStateError currentState
                                             (resource.Target conf))), w')
                else (Continue O occ currentState, w')
          end
      end
  end.

(** The loop: passes until one ends it, or until the timeout fires, which
    reports the last published state. *)
Fixpoint refreshLoop (conf : resource.StateChangeConf)
    (Refresh : M (any * string * option error)) (reads : nat)
    (notfoundTick targetOccurence : nat) (lastState : string) : M any :=
  match reads with
  | O => fail (resourceError (resource.TimeoutError lastState
                                (resource.Timeout conf) (resource.Target conf)))
  | S reads' =>
      λ w, match refreshPass conf Refresh notfoundTick targetOccurence w with
           | (Continue notfoundTick' targetOccurence' lastState', w') =>
               refreshLoop conf Refresh reads' notfoundTick' targetOccurence' lastState' w'
           | (Done res, w') => (Return res, w')
           | (Stop e, w') => (Fail e, w')
           | (Crash, w') => (Panic, w')
           end
  end.

(** The defaults [WaitForState] sets: 20 checks for not found, 1
    occurrence of the target. *)
Definition withDefaults (conf : resource.StateChangeConf) : resource.StateChangeConf :=
  {| resource.Delay := resource.Delay conf;
     resource.Pending := resource.Pending conf;
     resource.Target := resource.Target conf;
     resource.Timeout := resource.Timeout conf;
     resource.MinTimeout := resource.MinTimeout conf;
     resource.NotFoundChecks :=
       if decide (resource.NotFoundChecks conf = O) then 20%nat
       else resource.NotFoundChecks conf;
     resource.ContinuousTargetOccurence :=
       if decide (resource.ContinuousTargetOccurence conf = O) then 1%nat
       else resource.ContinuousTargetOccurence conf |}.

(** [conf.WaitForState()]. *)
Definition WaitForState (conf : resource.StateChangeConf)
    (Refresh : M (any * string * option error)) : M any :=
  refreshLoop (withDefaults conf) Refresh (reads_within conf) O O "".

(** The counters of the loop after [k] passes none of which has ended it;
    [None] when the loop has ended before. *)
Fixpoint afterPasses (conf : resource.StateChangeConf)
    (Refresh : M (any * string * option error)) (k : nat)
    (notfoundTick targetOccurence : nat) (lastState : string) (w : World)
  : option (nat * nat * string * World) :=
  match k with
  | O => Some (notfoundTick, targetOccurence, lastState, w)
  | S k' =>
      match refreshPass conf Refresh notfoundTick targetOccurence w with
      | (Continue notfoundTick' targetOccurence' lastState', w') =>
          afterPasses conf Refresh k' notfoundTick' targetOccurence' lastState' w'
      | _ => None
      end
  end.

(* ===================================================================== *)
(** * resource_mongodbatlas_cluster.go *)
(* ===================================================================== *)

Definition errorCreate : string := "error creating MongoDB Cluster: %s".
Definition errorRead : string := "error reading MongoDB Cluster (%s): %s".
Definition errorDelete : string := "error deleting MongoDB Cluster (%s): %s".
Definition errorUpdate : string := "error updating MongoDB Cluster (%s): %s".

Definition StatusNotFound : Z := 404.

(** [cast.ToBool] and [cast.ToString] on an entry of a string map (nil
    when the key is missing). *)
Definition cast_ToBool (o : option string) : bool :=
  match o with
  | Some s => default false (strconv.ParseBool s)
  | None => false
  end.

Definition cast_ToString (o : option string) : string := default "" o.

Definition expandBiConnector (d : ResourceData) : matlas.BiConnector * option error :=
  match GetOk d "bi_connector" with
  | (Some (VMap biConnMap), true) =>
      let enabled := cast_ToBool (biConnMap !! "enabled") in
      ({| matlas.Enabled := Some enabled;
          matlas.ReadPreference := cast_ToString (biConnMap !! "read_preference") |}, None)
  | _ => (matlas.BiConnector_zero, None)
  end.

Definition flattenBiConnector (biConnector : matlas.BiConnector) : gmap string string :=
  let biConnectorMap : gmap string string := ∅ in
  let biConnectorMap :=
    match matlas.Enabled biConnector with
    | Some enabled => <["enabled" := strconv.FormatBool enabled]> biConnectorMap
    | None => biConnectorMap
    end in
  if decide (matlas.ReadPreference biConnector ≠ "")
  then <["read_preference" := matlas.ReadPreference biConnector]> biConnectorMap
  else biConnectorMap.

Definition expandProviderSetting (d : ResourceData) : matlas.ProviderSettings :=
  let diskIOPS := get_int d "provider_disk_iops" in
  let encryptEBSVolume := get_bool d "provider_encrypt_ebs_volume" in
  {| matlas.DiskIOPS := Some diskIOPS;
     matlas.EncryptEBSVolume := Some encryptEBSVolume;
     matlas.BackingProviderName := get_string d "backing_provider_name";
     matlas.DiskTypeName := get_string d "provider_disk_type_name";
     matlas.InstanceSizeName := get_string d "provider_instance_size_name";
     matlas.ProviderName := get_string d "provider_name";
     matlas.RegionName := get_string d "provider_region_name";
     matlas.VolumeType := get_string d "provider_volume_type" |}.

Definition flattenProviderSettings (settings : matlas.ProviderSettings) : M unit :=
  set_or_log "backing_provider_name" (Some (VString (matlas.BackingProviderName settings)));;;
  set_or_log "provider_disk_iops" (VInt <$> matlas.DiskIOPS settings);;;
  set_or_log "provider_disk_type_name" (Some (VString (matlas.DiskTypeName settings)));;;
  set_or_log "provider_encrypt_ebs_volume" (VBool <$> matlas.EncryptEBSVolume settings);;;
  set_or_log "provider_instance_size_name" (Some (VString (matlas.InstanceSizeName settings)));;;
  set_or_log "provider_name" (Some (VString (matlas.ProviderName settings)));;;
  set_or_log "provider_region_name" (Some (VString (matlas.RegionName settings)));;;
  set_or_log "provider_volume_type" (Some (VString (matlas.VolumeType settings))).

(** [cast.ToStringE] cannot fail on the string a region name is, so the
    error of [expandRegionsConfig] is always nil. *)
Definition expandRegionsConfig (regions : list RegionCfg)
  : gmap string matlas.RegionsConfig * option error :=
  (foldl (λ regionsConfig region,
            <[region_name region :=
                {| matlas.AnalyticsNodes := Some (analytics_nodes region);
                   matlas.ElectableNodes := Some (electable_nodes region);
                   matlas.Priority := Some (priority region);
                   matlas.ReadOnlyNodes := Some (read_only_nodes region) |}]> regionsConfig)
         ∅ regions, None).

Fixpoint expandReplicationSpecs_loop (v : list ReplicationSpecCfg)
    (rSpecs : list matlas.ReplicationSpec) : list matlas.ReplicationSpec * option error :=
  match v with
  | [] => (rSpecs, None)
  | spec :: v' =>
      match expandRegionsConfig (spec_regions_config spec) with
      | (_, Some err) => (rSpecs, Some err)
      | (regionsConfig, None) =>
          let rSpec :=
            {| matlas.ReplicationSpec_ID := spec_id spec;
               matlas.ReplicationSpec_NumShards := Some (spec_num_shards spec);
               matlas.ZoneName := spec_zone_name spec;
               matlas.ReplicationSpec_RegionsConfig := regionsConfig |} in
          expandReplicationSpecs_loop v' (rSpecs ++ [rSpec])
      end
  end.

Definition expandReplicationSpecs (d : ResourceData)
  : list matlas.ReplicationSpec * option error :=
  match GetOk d "replication_specs" with
  | (Some (VList v), true) => expandReplicationSpecs_loop v []
  | _ => ([], None)
  end.

(** The loop ranges over a Go map: the regions come in the order of
    [rangeOrder]. A nil counter is stored as 0. *)
Definition flattenRegionsConfig (regionsConfig : gmap string matlas.RegionsConfig)
  : list RegionCfg :=
  (λ '(regionName, regionConfig),
     {| region_name := regionName;
        priority := default 0 (matlas.Priority regionConfig);
        analytics_nodes := default 0 (matlas.AnalyticsNodes regionConfig);
        electable_nodes := default 0 (matlas.ElectableNodes regionConfig);
        read_only_nodes := default 0 (matlas.ReadOnlyNodes regionConfig) |})
  <$> rangeOrder regionsConfig.

Definition flattenReplicationSpecs (rSpecs : list matlas.ReplicationSpec)
  : list ReplicationSpecCfg :=
  (λ rSpec,
     {| spec_id := matlas.ReplicationSpec_ID rSpec;
        spec_num_shards := default 0 (matlas.ReplicationSpec_NumShards rSpec);
        spec_zone_name := matlas.ZoneName rSpec;
        spec_regions_config :=
          flattenRegionsConfig (matlas.ReplicationSpec_RegionsConfig rSpec) |})
  <$> rSpecs.

Definition resourceClusterRefreshFunc (name projectID : string) (client : Client)
  : M (any * string * option error) :=
  r <- call (CallGet projectID name) (λ h, Clusters_Get client h projectID name);;
  let '(c, resp, err) := r in
  match err with
  | Some e =>
      if gostrings.Contains (Error e) "reset by peer" then ret (AnyNil, "REPEATING", None)
      else
        match c, resp with
        | None, None => ret (AnyNil, "", Some e)
        | _, Some resp =>
            if decide (matlas.StatusCode resp = 404) then ret (AnyInt 42, "DELETED", None)
            else ret (AnyNil, "", Some e)
        | Some _, None => panic (* resp.StatusCode on a nil response *)
        end
  | None =>
      match c with
      | Some c => ret (AnyClusterPtr c, matlas.StateName c, None)
      | None => panic (* c.StateName on a nil cluster *)
      end
  end.

(** The writes of [resourceMongoDBAtlasClusterRead], once it holds the
    cluster the remote API returned: the mapping from the remote
    representation back into the store. *)
Definition setCluster (clusterName : string) (cluster : matlas.Cluster) : M unit :=
  let wrap := λ err : string, Errorf errorRead [clusterName; err] in
  set_or_return "cluster_id" (Some (VString (matlas.ID cluster))) wrap;;;
  set_or_return "auto_scaling_disk_gb_enabled"
    (VBool <$> matlas.DiskGBEnabled (matlas.Cluster_AutoScaling cluster)) wrap;;;
  set_or_return "backup_enabled" (VBool <$> matlas.BackupEnabled cluster) wrap;;;
  set_or_return "provider_backup_enabled"
    (VBool <$> matlas.ProviderBackupEnabled cluster) wrap;;;
  set_or_return "cluster_type" (Some (VString (matlas.ClusterType cluster))) wrap;;;
  set_or_return "disk_size_gb" (VFloat <$> matlas.DiskSizeGB cluster) wrap;;;
  set_or_return "encryption_at_rest_provider"
    (Some (VString (matlas.EncryptionAtRestProvider cluster))) wrap;;;
  set_or_return "mongo_db_major_version"
    (Some (VString (matlas.MongoDBVersion cluster))) wrap;;;
  (* Avoid Global Cluster issues. (NumShards is not present in Global Clusters) *)
  (match matlas.NumShards cluster with
   | Some n => set_or_return "num_shards" (Some (VInt n)) wrap
   | None => ret tt
   end);;;
  set_or_return "mongo_db_version" (Some (VString (matlas.MongoDBVersion cluster))) wrap;;;
  set_or_return "mongo_uri" (Some (VString (matlas.MongoURI cluster))) wrap;;;
  set_or_return "mongo_uri_updated"
    (Some (VString (matlas.MongoURIUpdated cluster))) wrap;;;
  set_or_return "mongo_uri_with_options"
    (Some (VString (matlas.MongoURIWithOptions cluster))) wrap;;;
  set_or_return "paused" (VBool <$> matlas.Paused cluster) wrap;;;
  set_or_return "srv_address" (Some (VString (matlas.SrvAddress cluster))) wrap;;;
  set_or_return "state_name" (Some (VString (matlas.StateName cluster))) wrap;;;
  set_or_return "bi_connector"
    (Some (VMap (flattenBiConnector (matlas.Cluster_BiConnector cluster)))) wrap;;;
  (match matlas.Cluster_ProviderSettings cluster with
   | Some settings => flattenProviderSettings settings
   | None => ret tt
   end);;;
  set_or_return "replication_specs"
    (Some (VList (flattenReplicationSpecs (matlas.ReplicationSpecs cluster)))) wrap;;;
  set_or_return "replication_factor" (VInt <$> matlas.ReplicationFactor cluster) wrap.

Definition resourceMongoDBAtlasClusterRead (conn : Client) : M unit :=
  d <- get_data;;
  let ids := decodeStateID (Id d) in
  let projectID := index ids "project_id" in
  let clusterName := index ids "cluster_name" in
  r <- call (CallGet projectID clusterName)
            (λ h, Clusters_Get conn h projectID clusterName);;
  let '(cluster, resp, err) := r in
  match err with
  | Some e =>
      match resp with
      | Some rp =>
          if decide (matlas.StatusCode rp = StatusNotFound) then ret tt
          else fail (Errorf errorRead [clusterName; Error e])
      | None => fail (Errorf errorRead [clusterName; Error e])
      end
  | None =>
      match cluster with
      | None => panic (* cluster.ID on a nil cluster *)
      | Some cluster => setCluster clusterName cluster
      end
  end.

(** The request [resourceMongoDBAtlasClusterCreate] builds from the store:
    the struct literal, then the two optional counters. *)
Definition clusterRequest (d : ResourceData) (biConnector : matlas.BiConnector)
    (providerSettings : matlas.ProviderSettings)
    (replicationSpecs : list matlas.ReplicationSpec) : matlas.Cluster :=
  {| matlas.Name := get_string d "name";
     matlas.EncryptionAtRestProvider := get_string d "encryption_at_rest_provider";
     matlas.MongoDBMajorVersion := get_string d "mongo_db_major_version";
     matlas.ClusterType := get_string d "cluster_type";
     matlas.BackupEnabled := Some (get_bool d "backup_enabled");
     matlas.DiskSizeGB := Some (get_float d "disk_size_gb");
     matlas.ProviderBackupEnabled := Some (get_bool d "provider_backup_enabled");
     matlas.Cluster_AutoScaling :=
       {| matlas.DiskGBEnabled := Some (get_bool d "auto_scaling_disk_gb_enabled") |};
     matlas.Cluster_BiConnector := biConnector;
     matlas.Cluster_ProviderSettings := Some providerSettings;
     matlas.ReplicationSpecs := replicationSpecs;
     matlas.ReplicationFactor :=
       if (GetOk d "replication_factor").2 then Some (get_int d "replication_factor")
       else None;
     matlas.NumShards :=
       if (GetOk d "num_shards").2 then Some (get_int d "num_shards") else None;
     matlas.GroupID := "";
     matlas.ID := "";
     matlas.MongoDBVersion := "";
     matlas.MongoURI := "";
     matlas.MongoURIUpdated := "";
     matlas.MongoURIWithOptions := "";
     matlas.Paused := None;
     matlas.SrvAddress := "";
     matlas.StateName := "" |}.

Definition createStateConf (d : ResourceData) : resource.StateChangeConf :=
  {| resource.Pending := ["CREATING"; "UPDATING"; "REPAIRING"; "REPEATING"];
     resource.Target := ["IDLE"];
     resource.Timeout := Timeout_Create d;
     resource.MinTimeout := 30;
     resource.Delay := 60;
     resource.NotFoundChecks := 0;
     resource.ContinuousTargetOccurence := 0 |}.

Definition resourceMongoDBAtlasClusterCreate (conn : Client) : M unit :=
  d <- get_data;;
  let projectID := get_string d "project_id" in
  (* validate cluster_type conditional *)
  if (GetOk d "replication_specs").2 && negb (GetOk d "cluster_type").2 then
    fail (Errorf "`cluster_type` should be set when `replication_specs` is set" [])
  else if (GetOk d "replication_specs").2 && negb (GetOk d "num_shards").2 then
    fail (Errorf "`num_shards` should be set when `replication_specs` is set" [])
  else
    match expandBiConnector d with
    | (_, Some err) => fail (Errorf errorCreate [Error err])
    | (biConnector, None) =>
        let providerSettings := expandProviderSetting d in
        match expandReplicationSpecs d with
        | (_, Some err) => fail (Errorf errorCreate [Error err])
        | (replicationSpecs, None) =>
            let clusterRequest :=
              clusterRequest d biConnector providerSettings replicationSpecs in
            r <- call (CallCreate projectID clusterRequest)
                      (λ h, Clusters_Create conn h projectID clusterRequest);;
            let '(cluster, _, err) := r in
            match err with
            | Some err => fail (Errorf errorCreate [Error err])
            | None =>
                let stateConf := createStateConf d in
                (* Wait, catching any errors *)
                λ w, match WaitForState stateConf
                             (resourceClusterRefreshFunc (get_string d "name") projectID conn) w with
                     | (Fail err, w') => (Fail (Errorf errorCreate [Error err]), w')
                     | (Panic, w') => (Panic, w')
                     | (Return _, w') =>
                         match cluster with
                         | None => (Panic, w') (* cluster.ID on a nil cluster *)
                         | Some cluster =>
                             (put_data (SetId d (encodeStateID
                                {[ "cluster_id" := matlas.ID cluster;
                                   "project_id" := projectID;
                                   "cluster_name" := matlas.Name cluster ]}));;;
                              resourceMongoDBAtlasClusterRead conn) w'
                         end
                     end
            end
        end
    end.

Definition updateStateConf (d : ResourceData) : resource.StateChangeConf :=
  {| resource.Pending := ["CREATING"; "UPDATING"; "REPAIRING"];
     resource.Target := ["IDLE"];
     resource.Timeout := Timeout_Create d;
     resource.MinTimeout := 30;
     resource.Delay := 60;
     resource.NotFoundChecks := 0;
     resource.ContinuousTargetOccurence := 0 |}.

(** The request [resourceMongoDBAtlasClusterUpdate] builds: a zero
    [Cluster] in which each field is assigned only under its [HasChange]
    test. The assignments touch distinct fields and read a store that does
    not change meanwhile, so they are written as one struct. *)
Definition updateRequest (d : ResourceData)
    (replicationSpecs : list matlas.ReplicationSpec) : matlas.Cluster :=
  let providerSettings :=
    (* If at least one of the provider settings argument has changed,
       expand all provider settings *)
    if HasChange d "provider_disk_iops" || HasChange d "provider_encrypt_ebs_volume" ||
       HasChange d "backing_provider_name" || HasChange d "provider_disk_type_name" ||
       HasChange d "provider_instance_size_name" || HasChange d "provider_instance_size_name" ||
       HasChange d "provider_instance_size_name" || HasChange d "provider_name" ||
       HasChange d "provider_region_name" || HasChange d "provider_volume_type"
    then expandProviderSetting d
    else matlas.ProviderSettings_zero in
  {| matlas.Cluster_BiConnector :=
       if HasChange d "bi_connector" then (expandBiConnector d).1
       else matlas.BiConnector_zero;
     (* Check if Provider setting was changed. *)
     matlas.Cluster_ProviderSettings :=
       if negb (reflect.DeepEqual (AnyProviderSettings providerSettings)
                                  (AnyProviderSettings matlas.ProviderSettings_zero))
       then Some providerSettings else None;
     matlas.ReplicationSpecs := replicationSpecs;
     matlas.Cluster_AutoScaling :=
       {| matlas.DiskGBEnabled :=
            if HasChange d "auto_scaling_disk_gb_enabled"
            then Some (get_bool d "auto_scaling_disk_gb_enabled") else None |};
     matlas.EncryptionAtRestProvider :=
       if HasChange d "encryption_at_rest_provider"
       then get_string d "encryption_at_rest_provider" else "";
     matlas.MongoDBMajorVersion :=
       if HasChange d "mongo_db_major_version"
       then get_string d "mongo_db_major_version" else "";
     matlas.ClusterType :=
       if HasChange d "cluster_type" then get_string d "cluster_type" else "";
     matlas.BackupEnabled :=
       if HasChange d "backup_enabled" then Some (get_bool d "backup_enabled") else None;
     matlas.DiskSizeGB :=
       if HasChange d "disk_size_gb" then Some (get_float d "disk_size_gb") else None;
     matlas.ProviderBackupEnabled :=
       if HasChange d "provider_backup_enabled"
       then Some (get_bool d "provider_backup_enabled") else None;
     matlas.ReplicationFactor :=
       if HasChange d "replication_factor"
       then Some (get_int d "replication_factor") else None;
     matlas.NumShards :=
       if HasChange d "num_shards" then Some (get_int d "num_shards") else None;
     matlas.Name := "";
     matlas.GroupID := "";
     matlas.ID := "";
     matlas.MongoDBVersion := "";
     matlas.MongoURI := "";
     matlas.MongoURIUpdated := "";
     matlas.MongoURIWithOptions := "";
     matlas.Paused := None;
     matlas.SrvAddress := "";
     matlas.StateName := "" |}.

Definition resourceMongoDBAtlasClusterUpdate (conn : Client) : M unit :=
  d <- get_data;;
  let ids := decodeStateID (Id d) in
  let projectID := index ids "project_id" in
  let clusterName := index ids "cluster_name" in
  match (if HasChange d "replication_specs" then expandReplicationSpecs d
         else ([], None)) with
  | (_, Some err) => fail (Errorf errorUpdate [clusterName; Error err])
  | (replicationSpecs, None) =>
      (* cluster := new(matlas.Cluster), then the assignments *)
      let cluster := updateRequest d replicationSpecs in
      (* Has changes *)
      (if negb (reflect.DeepEqual (AnyClusterPtr cluster) (AnyCluster matlas.Cluster_zero))
       then
         r <- call (CallUpdate projectID clusterName cluster)
                   (λ h, Clusters_Update conn h projectID clusterName cluster);;
         match r.2 with
         | Some err => fail (Errorf errorUpdate [clusterName; Error err])
         | None => ret tt
         end
       else ret tt);;;
      let stateConf := updateStateConf d in
      (* Wait, catching any errors *)
      λ w, match WaitForState stateConf
                   (resourceClusterRefreshFunc clusterName projectID conn) w with
           | (Fail err, w') => (Fail (Errorf errorCreate [Error err]), w')
           | (Panic, w') => (Panic, w')
           | (Return _, w') => resourceMongoDBAtlasClusterRead conn w'
           end
  end.

Definition deleteStateConf : resource.StateChangeConf :=
  {| resource.Pending := ["IDLE"; "CREATING"; "UPDATING"; "REPAIRING"; "DELETING"];
     resource.Target := ["DELETED"];
     resource.Timeout := 1 * 3600;
     resource.MinTimeout := 30;
     resource.Delay := 60;
     resource.NotFoundChecks := 0;
     resource.ContinuousTargetOccurence := 0 |}.

Definition resourceMongoDBAtlasClusterDelete (conn : Client) : M unit :=
  d <- get_data;;
  let ids := decodeStateID (Id d) in
  let projectID := index ids "project_id" in
  let clusterName := index ids "cluster_name" in
  r <- call (CallDelete projectID clusterName)
            (λ h, Clusters_Delete conn h projectID clusterName);;
  match r.2 with
  | Some err => fail (Errorf errorDelete [clusterName; Error err])
  | None =>
      let stateConf := deleteStateConf in
      (* Wait, catching any errors *)
      λ w, match WaitForState stateConf
                   (resourceClusterRefreshFunc clusterName projectID conn) w with
           | (Fail err, w') => (Fail (Errorf errorDelete [clusterName; Error err]), w')
           | (Panic, w') => (Panic, w')
           | (Return _, w') => (Return tt, w')
           end
  end.

Definition resourceMongoDBAtlasClusterImportState (conn : Client) : M (list ResourceData) :=
  d <- get_data;;
  let parts := gostrings.SplitN (Id d) "-" 2 in
  match parts with
  | [projectID; name] =>
      r <- call (CallGet projectID name) (λ h, Clusters_Get conn h projectID name);;
      let '(u, _, err) := r in
      match err with
      | Some err =>
          fail (Errorf "couldn't import cluster %s in project %s, error: %s"
                       [name; projectID; Error err])
      | None =>
          match u with
          | None => panic (* u.ID on a nil cluster *)
          | Some u =>
              put_data (SetId d (encodeStateID
                {[ "cluster_id" := matlas.ID u;
                   "project_id" := projectID;
                   "cluster_name" := matlas.Name u ]}));;;
              set_or_log "project_id" (Some (VString (matlas.GroupID u)));;;
              set_or_log "name" (Some (VString (matlas.Name u)));;;
              d' <- get_data;;
              ret [d']
          end
      end
  | _ =>
      fail (errorString
        "import format error: to import a cluster, use the format {project_id}-{name}")
  end.

End WithPlatform.

(* ===================================================================== *)
(** * Vocabulary of the statements *)
(* ===================================================================== *)

Section Vocabulary.
Context `{Platform}.

(** The world after one more Get. *)
Definition afterGet (w : World) (projectID name : string) : World :=
  {| data := data w; calls := calls w ++ [CallGet projectID name] |}.

(** The three poll configurations of the source: after create, after
    update, after delete. *)
Definition sourceConfs (d : ResourceData) : list resource.StateChangeConf :=
  [createStateConf d; updateStateConf d; deleteStateConf].

(** Project and cluster name as read, update and delete recover them from
    the identity. *)
Definition projectID_of (d : ResourceData) : string :=
  index (decodeStateID (Id d)) "project_id".

Definition clusterName_of (d : ResourceData) : string :=
  index (decodeStateID (Id d)) "cluster_name".

(** The request of a create: the translation of the specification into the
    remote create payload. *)
Definition createRequest (d : ResourceData) : matlas.Cluster :=
  clusterRequest d (expandBiConnector d).1 (expandProviderSetting d)
    (expandReplicationSpecs d).1.

(** Whether the validation at the head of create lets the store pass. *)
Definition createValid (d : ResourceData) : bool :=
  negb ((GetOk d "replication_specs").2 && negb (GetOk d "cluster_type").2) &&
  negb ((GetOk d "replication_specs").2 && negb (GetOk d "num_shards").2).

(** The replication specs of an update request. *)
Definition updateSpecs (d : ResourceData) : list matlas.ReplicationSpec :=
  (if HasChange d "replication_specs" then expandReplicationSpecs d else ([], None)).1.

Definition importFormatError : error :=
  errorString "import format error: to import a cluster, use the format {project_id}-{name}".

(** The text of an error names each of the given parts. *)
Definition names (e : error) (parts : list string) : Prop :=
  Forall (λ part, gostrings.Contains (Error e) part = true) parts.

(** Whether [d.Set(key, v)] accepts the value. *)
Definition accepts (key : string) (v : option value) : bool :=
  match lookup_schema resourceMongoDBAtlasCluster key, v with
  | Some s, Some x => bool_decide (type_of x = Type_ s)
  | Some _, None => true
  | None, _ => false
  end.

(** [m] issues no call. *)
Definition silent {A} (m : M A) : Prop :=
  ∀ w r w', m w = (r, w') → calls w' = calls w.

(** [m] always returns normally. *)
Definition succeeds (m : M unit) : Prop := ∀ w, ∃ w', m w = (Return tt, w').

(** The scalar attributes of a cluster specification, but for
    [mongo_db_major_version]. *)
Definition scalarAttributes : list string :=
  [ "project_id"; "name"; "auto_scaling_disk_gb_enabled"; "backup_enabled";
    "cluster_type"; "disk_size_gb"; "encryption_at_rest_provider"; "num_shards";
    "provider_backup_enabled"; "provider_instance_size_name"; "provider_name";
    "backing_provider_name"; "provider_disk_iops"; "provider_disk_type_name";
    "provider_encrypt_ebs_volume"; "provider_region_name"; "provider_volume_type";
    "replication_factor" ].

(** The entry of the regions map that [expandRegionsConfig] makes of a
    region. *)
Definition expandRegion (region : RegionCfg) : string * matlas.RegionsConfig :=
  (region_name region,
   {| matlas.AnalyticsNodes := Some (analytics_nodes region);
      matlas.ElectableNodes := Some (electable_nodes region);
      matlas.Priority := Some (priority region);
      matlas.ReadOnlyNodes := Some (read_only_nodes region) |}).

(** Two zone entries agree: same id, shard count and zone name, and, when
    the regions of the first carry distinct names, the same regions up to
    their order. *)
Definition sameZone (spec spec' : ReplicationSpecCfg) : Prop :=
  spec_id spec' = spec_id spec ∧
  spec_num_shards spec' = spec_num_shards spec ∧
  spec_zone_name spec' = spec_zone_name spec ∧
  (NoDup (region_name <$> spec_regions_config spec) →
   spec_regions_config spec' ≡ₚ spec_regions_config spec).

(** Two stores differ in what was written only: identity, state, plan and
    timeout are the same. *)
Definition sameBut_written (d d' : ResourceData) : Prop :=
  id d' = id d ∧ state d' = state d ∧ planned d' = planned d ∧
  timeout_create d' = timeout_create d.

(** [m] writes attributes and does nothing else to the store. *)
Definition writesOnly {A} (m : M A) : Prop :=
  ∀ w r w', m w = (r, w') → sameBut_written (data w) (data w').

(** Every call of the list is a Get. *)
Definition onlyGets (cs : list Call) : Prop :=
  Forall (λ c, ∃ projectID name, c = CallGet projectID name) cs.

(** A region entry, or a replication spec, of the remote API that carries
    all its counters. *)
Definition regionComplete (regionConfig : matlas.RegionsConfig) : Prop :=
  matlas.AnalyticsNodes regionConfig ≠ None ∧ matlas.ElectableNodes regionConfig ≠ None ∧
  matlas.Priority regionConfig ≠ None ∧ matlas.ReadOnlyNodes regionConfig ≠ None.

Definition specComplete (rSpec : matlas.ReplicationSpec) : Prop :=
  matlas.ReplicationSpec_NumShards rSpec ≠ None ∧
  map_Forall (λ _ regionConfig, regionComplete regionConfig)
    (matlas.ReplicationSpec_RegionsConfig rSpec).

(** The replication specs that the attributes of a state or of a plan
    hold. *)
Definition specsOf (attrs : gmap string value) : list ReplicationSpecCfg :=
  match attrs !! "replication_specs" with
  | Some (VList l) => l
  | _ => []
  end.

(** The request that carries the given replication specs and nothing
    else. *)
Definition specsOnly (replicationSpecs : list matlas.ReplicationSpec) : matlas.Cluster :=
  {| matlas.Cluster_AutoScaling := {| matlas.DiskGBEnabled := None |};
     matlas.BackupEnabled := None;
     matlas.Cluster_BiConnector := matlas.BiConnector_zero;
     matlas.ClusterType := "";
     matlas.DiskSizeGB := None;
     matlas.EncryptionAtRestProvider := "";
     matlas.GroupID := "";
     matlas.ID := "";
     matlas.MongoDBVersion := "";
     matlas.MongoDBMajorVersion := "";
     matlas.MongoURI := "";
     matlas.MongoURIUpdated := "";
     matlas.MongoURIWithOptions := "";
     matlas.Name := "";
     matlas.NumShards := None;
     matlas.Paused := None;
     matlas.ProviderBackupEnabled := None;
     matlas.Cluster_ProviderSettings := None;
     matlas.ReplicationFactor := None;
     matlas.ReplicationSpecs := replicationSpecs;
     matlas.SrvAddress := "";
     matlas.StateName := "" |}.

(** The plan of a configuration: an attribute that the configuration
    leaves out takes the [Default] of its schema, if it has one. *)
Definition schemaDefaults (config : gmap string value) : gmap string value :=
  foldr (λ '(key, s) attrs,
           match Default s, config !! key with
           | Some v, None => <[key := v]> attrs
           | _, _ => attrs
           end) config resourceMongoDBAtlasCluster.

(** The store that a create receives for a configuration: no state, no
    identity, and the plan of the configuration. *)
Definition created (config : gmap string value) : ResourceData :=
  {| state := ∅; planned := schemaDefaults config; written := ∅; id := "";
     timeout_create := None |}.

(** The region that [flattenRegionsConfig] makes of an entry of the
    regions map. *)
Definition flattenRegion (entry : string * matlas.RegionsConfig) : RegionCfg :=
  {| region_name := entry.1;
     priority := default 0 (matlas.Priority entry.2);
     analytics_nodes := default 0 (matlas.AnalyticsNodes entry.2);
     electable_nodes := default 0 (matlas.ElectableNodes entry.2);
     read_only_nodes := default 0 (matlas.ReadOnlyNodes entry.2) |}.

(** A zone of the store holds a zone of the remote API: its id, its shard
    count (0 for a nil one) and its name, and its flattened regions, in
    whatever order the store lists them. *)
Definition holdsZone (spec : ReplicationSpecCfg) (rSpec : matlas.ReplicationSpec) : Prop :=
  spec_id spec = matlas.ReplicationSpec_ID rSpec ∧
  spec_num_shards spec = default 0 (matlas.ReplicationSpec_NumShards rSpec) ∧
  spec_zone_name spec = matlas.ZoneName rSpec ∧
  spec_regions_config spec
  ≡ₚ flattenRegionsConfig (matlas.ReplicationSpec_RegionsConfig rSpec).

(** The attributes whose change makes an update send the provider
    settings. *)
Definition providerAttributes : list string :=
  [ "provider_disk_iops"; "provider_encrypt_ebs_volume"; "backing_provider_name";
    "provider_disk_type_name"; "provider_instance_size_name"; "provider_name";
    "provider_region_name"; "provider_volume_type" ].

End Vocabulary.

(* ===================================================================== *)
(** * Concrete inputs *)
(* ===================================================================== *)

(** A platform, stores and clients on which the model runs; the examples
    below evaluate the resource functions on them. *)
Module demo.

#[local] Instance RegionCfg_countable : Countable RegionCfg.
Proof.
  refine (inj_countable'
            (λ region, (region_name region, electable_nodes region, priority region,
                        read_only_nodes region, analytics_nodes region))
            (λ '(name, electable, prio, read_only, analytics),
               {| region_name := name; electable_nodes := electable; priority := prio;
                  read_only_nodes := read_only; analytics_nodes := analytics |}) _).
  by intros [].
Defined.

(** Identifiers as [project/name/id]; a read every 20 seconds once the
    initial delay has passed (the loop alternates waits of 30 and 10
    seconds); short error texts; maps ranged over in the order of
    [map_to_list]; regions hashed to their code as a countable type. *)
Definition platform : Platform :=
  {| encodeStateID m :=
       index m "project_id" +:+ "/" +:+ index m "cluster_name" +:+ "/" +:+ index m "cluster_id";
     decodeStateID s :=
       match gostrings.SplitN s "/" 3 with
       | [p; n; i] => {[ "project_id" := p; "cluster_name" := n; "cluster_id" := i ]}
       | _ => ∅
       end;
     reads_within conf := Z.to_nat ((resource.Timeout conf - resource.Delay conf) / 20);
     failure_text f :=
       match f with
       | resource.NotFoundError _ => "couldn't find resource"
       | resource.UnexpectedStateError s _ => "unexpected state '" +:+ s +:+ "'"
       | resource.TimeoutError s _ _ => "timeout (last state: '" +:+ s +:+ "')"
       end;
     rangeOrder := map_to_list;
     rangeOrder_Permutation m := Permutation_refl (map_to_list m);
     hashcode region := Z.pos (encode region);
     hashcode_inj region region' Heq :=
       encode_inj region region' (Pos2Z.inj _ _ Heq) |}.

(** A cluster named [my-cluster] in the given state, as the remote API
    reports it. *)
Definition clusterIn (stateName : string) : matlas.Cluster :=
  {| matlas.Cluster_AutoScaling := {| matlas.DiskGBEnabled := Some true |};
     matlas.BackupEnabled := Some false;
     matlas.Cluster_BiConnector := matlas.BiConnector_zero;
     matlas.ClusterType := "REPLICASET";
     matlas.DiskSizeGB := None;
     matlas.EncryptionAtRestProvider := "NONE";
     matlas.GroupID := "abc123";
     matlas.ID := "5d1b";
     matlas.MongoDBVersion := "4.0.12";
     matlas.MongoDBMajorVersion := "4.0";
     matlas.MongoURI := "";
     matlas.MongoURIUpdated := "";
     matlas.MongoURIWithOptions := "";
     matlas.Name := "my-cluster";
     matlas.NumShards := Some 1;
     matlas.Paused := Some false;
     matlas.ProviderBackupEnabled := Some false;
     matlas.Cluster_ProviderSettings := None;
     matlas.ReplicationFactor := Some 3;
     matlas.ReplicationSpecs := [];
     matlas.SrvAddress := "";
     matlas.StateName := stateName |}.

Definition answer : Type :=
  option matlas.Cluster * option matlas.Response * option error.

Definition ok (c : matlas.Cluster) : answer :=
  (Some c, Some {| matlas.StatusCode := 200 |}, None).

Definition notFound : answer :=
  (None, Some {| matlas.StatusCode := 404 |}, Some (errorString "404 CLUSTER_NOT_FOUND")).

Definition reset : answer :=
  (None, None, Some (errorString "read tcp 10.0.0.1:443: connection reset by peer")).

Definition refused (msg : string) : answer :=
  (None, Some {| matlas.StatusCode := 400 |}, Some (errorString msg)).

Definition isGet (c : Call) : bool :=
  match c with CallGet _ _ => true | _ => false end.

(** A client that answers its n-th Get with the n-th entry of [gets], and
    with [rest] once the list is used up. *)
Definition client (create : answer) (gets : list answer) (rest : answer)
    (update : answer) (delete : option error) : Client :=
  {| Clusters_Create _ _ _ := create;
     Clusters_Get h _ _ := default rest (gets !! length (List.filter isGet h));
     Clusters_Update _ _ _ _ := update;
     Clusters_Delete _ _ _ := (Some {| matlas.StatusCode := 202 |}, delete) |}.

(** A store with the given configuration and nothing recorded yet. *)
Definition fresh (config : gmap string value) : ResourceData :=
  {| state := ∅; planned := config; written := ∅; id := ""; timeout_create := None |}.

(** A store of an existing cluster whose configuration did not change. *)
Definition recorded (attrs : gmap string value) (ident : string) : ResourceData :=
  {| state := attrs; planned := attrs; written := ∅; id := ident;
     timeout_create := None |}.

Definition config : gmap string value :=
  {[ "project_id" := VString "abc123";
     "name" := VString "my-cluster";
     "provider_name" := VString "AWS";
     "provider_instance_size_name" := VString "M10";
     "provider_region_name" := VString "EU_WEST_1";
     "mongo_db_major_version" := VString "4.0";
     "auto_scaling_disk_gb_enabled" := VBool true;
     "num_shards" := VInt 1;
     "replication_factor" := VInt 3;
     "disk_size_gb" := VFloat 4636737291354636288 ]}.

Definition world (d : ResourceData) : World := {| data := d; calls := [] |}.

(** The store of a create, and the store of the same cluster once it is
    recorded. *)
Definition planned_cluster : ResourceData := fresh config.

Definition recorded_cluster : ResourceData := recorded config "abc123/my-cluster/5d1b".

(** A configuration with a replication topology and no cluster type. *)
Definition zoned_config : gmap string value :=
  <["replication_specs" :=
      VList [ {| spec_id := "";
                 spec_num_shards := 1;
                 spec_regions_config :=
                   [ {| region_name := "EU_WEST_1"; electable_nodes := 3;
                        priority := 7; read_only_nodes := 0; analytics_nodes := 0 |} ];
                 spec_zone_name := "Zone 1" |} ]]> config.

(** A configuration whose [bi_connector] sets a read preference only. *)
Definition bi_config : gmap string value :=
  <["bi_connector" := VMap {[ "read_preference" := "secondary" ]}]> config.

(** The store an import starts from: nothing but the identifier typed by
    the user. *)
Definition imported (ident : string) : ResourceData :=
  {| state := ∅; planned := ∅; written := ∅; id := ident; timeout_create := None |}.

(** Clients: one that refuses every mutation, one whose cluster is gone,
    one whose connection is reset at every read, one that reports
    CREATING twice and IDLE from then on, one that reports DELETING once
    and then no cluster, and one that returns the given cluster. *)
Definition refusing : Client :=
  client (refused "quota exceeded") [] (ok (clusterIn "IDLE"))
    (refused "quota exceeded") (Some (errorString "quota exceeded")).

Definition gone : Client :=
  client (ok (clusterIn "CREATING")) [] notFound (ok (clusterIn "UPDATING")) None.

Definition resetting : Client :=
  client (ok (clusterIn "CREATING")) [] reset (ok (clusterIn "UPDATING")) None.

Definition creating : Client :=
  client (ok (clusterIn "CREATING"))
    [ok (clusterIn "CREATING"); ok (clusterIn "CREATING")] (ok (clusterIn "IDLE"))
    (ok (clusterIn "UPDATING")) None.

Definition deleting : Client :=
  client (ok (clusterIn "CREATING")) [ok (clusterIn "DELETING")] notFound
    (ok (clusterIn "UPDATING")) None.

Definition returning (c : matlas.Cluster) : Client :=
  client (ok c) [] (ok c) (ok c) None.

(** A client whose reads the remote API refuses. *)
Definition unreadable : Client :=
  client (ok (clusterIn "CREATING")) [] (refused "internal error")
    (ok (clusterIn "UPDATING")) None.

(** A BI connector as the remote API reports it, and a recorded cluster
    that holds it flattened. *)
Definition connector : matlas.BiConnector :=
  {| matlas.Enabled := Some true; matlas.ReadPreference := "secondary" |}.

(** The zone of the multi-region example of the documentation, a remote
    cluster that reports it, and a recorded cluster whose store lists the
    three regions in an order of its own. *)
Definition wide_zone : matlas.ReplicationSpec :=
  {| matlas.ReplicationSpec_ID := "5d1d";
     matlas.ReplicationSpec_NumShards := Some 1;
     matlas.ZoneName := "ZoneName managed by Terraform";
     matlas.ReplicationSpec_RegionsConfig :=
       {[ "US_EAST_1" := {| matlas.AnalyticsNodes := Some 0;
                            matlas.ElectableNodes := Some 3;
                            matlas.Priority := Some 7;
                            matlas.ReadOnlyNodes := Some 0 |};
          "US_EAST_2" := {| matlas.AnalyticsNodes := Some 0;
                            matlas.ElectableNodes := Some 2;
                            matlas.Priority := Some 6;
                            matlas.ReadOnlyNodes := Some 0 |};
          "US_WEST_1" := {| matlas.AnalyticsNodes := Some 0;
                            matlas.ElectableNodes := Some 2;
                            matlas.Priority := Some 5;
                            matlas.ReadOnlyNodes := Some 2 |} ]} |}.


Definition wide_specs : list ReplicationSpecCfg :=
  [ {| spec_id := "5d1d";
       spec_num_shards := 1;
       spec_regions_config :=
         [ {| region_name := "US_EAST_1"; electable_nodes := 3;
              priority := 7; read_only_nodes := 0; analytics_nodes := 0 |};
           {| region_name := "US_EAST_2"; electable_nodes := 2;
              priority := 6; read_only_nodes := 0; analytics_nodes := 0 |};
           {| region_name := "US_WEST_1"; electable_nodes := 2;
              priority := 5; read_only_nodes := 2; analytics_nodes := 0 |} ];
       spec_zone_name := "ZoneName managed by Terraform" |} ].

Definition wide_cluster : ResourceData :=
  recorded (<["replication_specs" := VList wide_specs]>
              (<["cluster_type" := VString "REPLICASET"]> config))
    "abc123/my-cluster/5d1b".

(** The configuration of a create that sets a replication topology and a
    cluster type and leaves [num_shards] out. *)
Definition unsharded_config : gmap string value :=
  delete "num_shards"
    (<["replication_specs" := VList wide_specs]>
       (<["cluster_type" := VString "REPLICASET"]> config)).

Definition connected_cluster : ResourceData :=
  recorded (<["bi_connector" :=
                VMap {[ "enabled" := "true"; "read_preference" := "secondary" ]}]> config)
    "abc123/my-cluster/5d1b".

End demo.

(* ===================================================================== *)
(** * Properties *)
(* ===================================================================== *)

(** ** Strings *)

Lemma HasPrefix_app p s : gostrings.HasPrefix (p +:+ s) p = true.
Proof.
  induction p as [|a p IH]; simpl; [by destruct s|].
  rewrite decide_True by done. exact IH.
Qed.

Lemma Contains_unfold s substr :
  gostrings.Contains s substr
  = gostrings.HasPrefix s substr ||
    match s with
    | EmptyString => false
    | String _ s' => gostrings.Contains s' substr
    end.
Proof. destruct s; reflexivity. Qed.

Lemma Contains_app pre part post : gostrings.Contains (pre +:+ part +:+ post) part = true.
Proof.
  induction pre as [|a pre IH].
  - change ("" +:+ part +:+ post) with (part +:+ post).
    rewrite Contains_unfold, HasPrefix_app. reflexivity.
  - change (String a pre +:+ part +:+ post) with (String a (pre +:+ part +:+ post)).
    rewrite Contains_unfold, IH. apply orb_true_r.
Qed.

(** The first hyphen: what [Cut] returns on a text whose head is free of
    hyphens, and on a text without any. *)
Lemma Contains_cons a s sep :
  gostrings.Contains (String a s) sep = false →
  gostrings.HasPrefix (String a s) sep = false ∧ gostrings.Contains s sep = false.
Proof. simpl gostrings.Contains. intros Hc. apply orb_false_iff in Hc. exact Hc. Qed.

Lemma Cut_first p : ∀ n,
  gostrings.Contains p "-" = false →
  gostrings.Cut (p +:+ "-" +:+ n) "-" = Some (p, n).
Proof.
  induction p as [|a p IH]; intros n Hc.
  - reflexivity.
  - apply Contains_cons in Hc as [Hp Hc].
    change (String a p +:+ "-" +:+ n) with (String a (p +:+ "-" +:+ n)).
    cbn [gostrings.Cut].
    change (gostrings.HasPrefix (String a (p +:+ "-" +:+ n)) "-")
      with (gostrings.HasPrefix (String a p) "-").
    rewrite Hp, (IH n Hc). reflexivity.
Qed.

Lemma Cut_none s : gostrings.Contains s "-" = false → gostrings.Cut s "-" = None.
Proof.
  induction s as [|a s IH]; intros Hc.
  - reflexivity.
  - apply Contains_cons in Hc as [Hp Hc]. cbn [gostrings.Cut].
    rewrite Hp, (IH Hc). reflexivity.
Qed.


(** Appending keeps what a text holds. *)
Lemma HasPrefix_app_l p : ∀ s t,
  gostrings.HasPrefix s p = true → gostrings.HasPrefix (s +:+ t) p = true.
Proof.
  induction p as [|b p IH]; intros s t; [reflexivity|].
  destruct s as [|a s]; [discriminate|].
  change (String a s +:+ t) with (String a (s +:+ t)). simpl.
  destruct (decide (a = b)); [apply IH | discriminate].
Qed.

Lemma Contains_app_l s t part :
  gostrings.Contains s part = true → gostrings.Contains (s +:+ t) part = true.
Proof.
  induction s as [|a s IH]; rewrite Contains_unfold; intros Hs.
  - rewrite orb_false_r in Hs. rewrite Contains_unfold.
    rewrite (HasPrefix_app_l part "" t Hs). reflexivity.
  - change (String a s +:+ t) with (String a (s +:+ t)). rewrite Contains_unfold.
    apply orb_true_iff in Hs as [Hp | Hc].
    + apply (HasPrefix_app_l part (String a s) t) in Hp.
      change (String a s +:+ t) with (String a (s +:+ t)) in Hp.
      rewrite Hp. reflexivity.
    + rewrite (IH Hc). apply orb_true_r.
Qed.

Lemma Contains_app_r pre t part :
  gostrings.Contains t part = true → gostrings.Contains (pre +:+ t) part = true.
Proof.
  intros Ht. induction pre as [|a pre IH]; [exact Ht|].
  change (String a pre +:+ t) with (String a (pre +:+ t)).
  rewrite Contains_unfold, IH. apply orb_true_r.
Qed.


Section Properties.
Context `{Platform}.

(** ** The status poll loop *)

Lemma refresh_reset conn name projectID w c resp e :
  Clusters_Get conn (calls w) projectID name = (c, resp, Some e) →
  gostrings.Contains (Error e) "reset by peer" = true →
  resourceClusterRefreshFunc name projectID conn w
  = (Return (AnyNil, "REPEATING", None), afterGet w projectID name).
Proof.
  intros Hget Hreset. unfold resourceClusterRefreshFunc, bind, call. simpl.
  rewrite Hget. simpl. rewrite Hreset. reflexivity.
Qed.

Lemma refresh_not_found conn name projectID w c resp e :
  Clusters_Get conn (calls w) projectID name = (c, Some resp, Some e) →
  gostrings.Contains (Error e) "reset by peer" = false →
  matlas.StatusCode resp = 404 →
  resourceClusterRefreshFunc name projectID conn w
  = (Return (AnyInt 42, "DELETED", None), afterGet w projectID name).
Proof.
  intros Hget Hreset Hcode. unfold resourceClusterRefreshFunc, bind, call. simpl.
  rewrite Hget. simpl. rewrite Hreset.
  destruct c; rewrite decide_True by done; reflexivity.
Qed.

Lemma refresh_found conn name projectID w c resp :
  Clusters_Get conn (calls w) projectID name = (Some c, resp, None) →
  resourceClusterRefreshFunc name projectID conn w
  = (Return (AnyClusterPtr c, matlas.StateName c, None), afterGet w projectID name).
Proof.
  intros Hget. unfold resourceClusterRefreshFunc, bind, call. simpl.
  rewrite Hget. reflexivity.
Qed.

(** The shape the three configurations share: one target, the default
    counters, some pending states. *)
Lemma scanTarget_single target s found :
  resource.scanTarget [target] s 1 found 0
  = if decide (s = target) then (true, true, 1%nat) else (false, found, 0%nat).
Proof. simpl. destruct (decide (s = target)); reflexivity. Qed.

Lemma sourceConfs_shape d conf :
  conf ∈ sourceConfs d →
  ∃ target, resource.Target conf = [target] ∧
    resource.NotFoundChecks (withDefaults conf) = 20%nat ∧
    resource.ContinuousTargetOccurence (withDefaults conf) = 1%nat ∧
    resource.Pending conf ≠ [].
Proof.
  unfold sourceConfs. rewrite !elem_of_cons, elem_of_nil.
  intros [-> | [-> | [-> | []]]]; eexists; repeat split; done.
Qed.

(** A reset read lets the loop go on, as long as fewer than 20 results
    in a row were not found before it. *)
Lemma refreshPass_reset conn name projectID d conf nf occ w c resp e :
  conf ∈ sourceConfs d →
  Clusters_Get conn (calls w) projectID name = (c, resp, Some e) →
  gostrings.Contains (Error e) "reset by peer" = true →
  (nf < 20)%nat →
  refreshPass (withDefaults conf) (resourceClusterRefreshFunc name projectID conn) nf occ w
  = (Continue (S nf) occ "REPEATING", afterGet w projectID name).
Proof.
  intros Hconf Hget Hreset Hnf.
  destruct (sourceConfs_shape d conf Hconf) as (target & Ht & Hn & Hc & Hp).
  unfold refreshPass. rewrite (refresh_reset _ _ _ _ _ _ _ Hget Hreset), Hn.
  cbn [resource.Target withDefaults]. rewrite Ht.
  rewrite bool_decide_eq_false_2 by done. rewrite decide_False by lia. reflexivity.
Qed.

(** Entered with a zero occurrence counter, a pass that lets the loop go
    on leaves that counter at zero. *)
Lemma refreshPass_occurrence d conf R nf w nf' occ' last' w' :
  conf ∈ sourceConfs d →
  refreshPass (withDefaults conf) R nf 0 w = (Continue nf' occ' last', w') →
  occ' = 0%nat.
Proof.
  intros Hconf. destruct (sourceConfs_shape d conf Hconf) as (target & Ht & Hn & Hc & Hp).
  unfold refreshPass. rewrite Hn, Hc. simpl resource.Target. simpl resource.Pending.
  rewrite Ht.
  destruct (R w) as [[[[res st] err]| e |] w1]; [|discriminate..].
  destruct err; [discriminate|].
  destruct res;
    [ rewrite bool_decide_eq_false_2 by done;
      destruct (decide (20 < S nf)%nat); [discriminate | congruence]
    | rewrite scanTarget_single; destruct (decide (st = target)); [discriminate|];
      destruct (decide (st ∈ resource.Pending conf)); simpl;
      [ congruence | rewrite bool_decide_eq_false_2 by done; discriminate ] .. ].
Qed.

Lemma afterPasses_occurrence d conf R k : ∀ nf last w nf' occ' last' w',
  conf ∈ sourceConfs d →
  afterPasses (withDefaults conf) R k nf 0 last w = Some (nf', occ', last', w') →
  occ' = 0%nat.
Proof.
  induction k as [|k IH]; intros nf last w nf' occ' last' w' Hconf; simpl.
  - congruence.
  - destruct (refreshPass _ R nf 0 w) as [[nf1 occ1 last1| | |] w1] eqn:Hpass;
      [|discriminate..].
    assert (occ1 = 0%nat) as -> by eauto using refreshPass_occurrence.
    eauto.
Qed.

(** The loop after [k] passes that did not end it is the loop entered with
    the counters those passes left. *)
Lemma refreshLoop_afterPasses conf R k : ∀ m nf occ last w nf' occ' last' w',
  afterPasses conf R k nf occ last w = Some (nf', occ', last', w') →
  refreshLoop conf R (k + m) nf occ last w = refreshLoop conf R m nf' occ' last' w'.
Proof.
  induction k as [|k IH]; intros m nf occ last w nf' occ' last' w'; simpl.
  - congruence.
  - destruct (refreshPass conf R nf occ w) as [[nf1 occ1 last1| | |] w1];
      [|discriminate..].
    apply IH.
Qed.


Lemma sourceConfs_target d conf :
  conf ∈ sourceConfs d →
  (conf = deleteStateConf ∧ resource.Target conf = ["DELETED"]) ∨
  ((conf = createStateConf d ∨ conf = updateStateConf d) ∧ resource.Target conf = ["IDLE"]).
Proof.
  unfold sourceConfs. rewrite !elem_of_cons, elem_of_nil.
  intros [-> | [-> | [-> | []]]]; auto.
Qed.

(** C4. Let the poll loop, under one of the three configurations of the
    source, have made [k] passes without ending, with reads left before the
    timeout, and let its next read be a not-found answer (an error that is
    not a connection reset, with HTTP status 404). If the target is
    DELETED the loop returns normally at that read; if the target is IDLE
    it stops at that read with the error of an unexpected state. The
    target is one or the other. *)
Theorem not_found_succeeds_iff_deleting conn name projectID d conf w k
    nf occ last wk c resp e :
  conf ∈ sourceConfs d →
  afterPasses (withDefaults conf) (resourceClusterRefreshFunc name projectID conn)
    k 0 0 "" w = Some (nf, occ, last, wk) →
  (k < reads_within conf)%nat →
  Clusters_Get conn (calls wk) projectID name = (c, Some resp, Some e) →
  gostrings.Contains (Error e) "reset by peer" = false →
  matlas.StatusCode resp = 404 →
  (resource.Target conf = ["DELETED"] →
     WaitForState conf (resourceClusterRefreshFunc name projectID conn) w
     = (Return (AnyInt 42), afterGet wk projectID name)) ∧
  (resource.Target conf = ["IDLE"] →
     WaitForState conf (resourceClusterRefreshFunc name projectID conn) w
     = (Fail (resourceError (resource.UnexpectedStateError "DELETED" ["IDLE"])),
        afterGet wk projectID name)) ∧
  (resource.Target conf = ["DELETED"] ∨ resource.Target conf = ["IDLE"]).
Proof.
  intros Hconf Hafter Hk Hget Hreset Hcode.
  assert (occ = 0%nat) as -> by eauto using afterPasses_occurrence.
  unfold WaitForState.
  replace (reads_within conf) with (k + S (reads_within conf - S k))%nat by lia.
  rewrite (refreshLoop_afterPasses _ _ _ _ _ _ _ _ _ _ _ _ Hafter).
  cbn [refreshLoop]. unfold refreshPass.
  rewrite (refresh_not_found _ _ _ _ _ _ _ Hget Hreset Hcode).
  destruct (sourceConfs_target d conf Hconf) as [[-> Ht] | [[-> | ->] Ht]];
    (split; [|split]); try (intros; discriminate); auto.
Qed.

(** Against a connection that is reset at every read, the loop runs out of
    not-found checks. *)
Lemma refreshLoop_always_reset conn name projectID conf n : ∀ reads nf occ last w,
  (∀ h, ∃ c resp e, Clusters_Get conn h projectID name = (c, resp, Some e) ∧
                     gostrings.Contains (Error e) "reset by peer" = true) →
  resource.Target conf ≠ [] →
  (nf + n = resource.NotFoundChecks conf)%nat →
  (n < reads)%nat →
  refreshLoop conf (resourceClusterRefreshFunc name projectID conn) reads nf occ last w
  = (Fail (resourceError (resource.NotFoundError (S (resource.NotFoundChecks conf)))),
     {| data := data w; calls := calls w ++ replicate (S n) (CallGet projectID name) |}).
Proof.
  induction n as [|n IH]; intros reads nf occ last w Hreset Htarget Hnf Hreads;
    (destruct reads as [|reads]; [lia|]);
    destruct (Hreset (calls w)) as (c & resp & e & Hget & Hc);
    cbn [refreshLoop]; unfold refreshPass;
    rewrite (refresh_reset _ _ _ _ _ _ _ Hget Hc);
    rewrite bool_decide_eq_false_2 by done.
  - rewrite decide_True by lia.
    replace (S nf) with (S (resource.NotFoundChecks conf)) by lia. reflexivity.
  - rewrite decide_False by lia.
    rewrite (IH reads (S nf) occ "REPEATING") by (auto; lia).
    unfold afterGet; simpl. rewrite <- app_assoc. reflexivity.
Qed.

(** C2, as the code behaves. Under each of the three configurations of the
    source, when every status read fails with a connection reset and the
    timeout leaves room for more than 21 reads, the poll loop ends at the
    21st read with a not-found error: a reset read counts as a result
    that was not found, and 20 of them in a row are the most the loop
    accepts. *)
Theorem reset_reads_end_the_poll conn name projectID d conf w :
  conf ∈ sourceConfs d →
  (∀ h, ∃ c resp e, Clusters_Get conn h projectID name = (c, resp, Some e) ∧
                     gostrings.Contains (Error e) "reset by peer" = true) →
  (21 < reads_within conf)%nat →
  WaitForState conf (resourceClusterRefreshFunc name projectID conn) w
  = (Fail (resourceError (resource.NotFoundError 21)),
     {| data := data w; calls := calls w ++ replicate 21 (CallGet projectID name) |}).
Proof.
  intros Hconf Hreset Hreads.
  destruct (sourceConfs_shape d conf Hconf) as (target & Ht & Hn & Hc & Hp).
  unfold WaitForState.
  rewrite (refreshLoop_always_reset conn name projectID (withDefaults conf) 20);
    rewrite ?Hn; auto; try lia.
  simpl. rewrite Ht. discriminate.
Qed.

(** One pass on a cluster whose state is pending, and on one whose state
    is the target. *)
Lemma refreshLoop_S conf R reads nf occ last w :
  refreshLoop conf R (S reads) nf occ last w
  = match refreshPass conf R nf occ w with
    | (Continue nf' occ' last', w') => refreshLoop conf R reads nf' occ' last' w'
    | (Done res, w') => (Return res, w')
    | (Stop e, w') => (Fail e, w')
    | (Crash, w') => (Panic, w')
    end.
Proof. reflexivity. Qed.

Lemma refreshPass_pending conn name projectID conf target nf w c resp :
  resource.Target conf = [target] →
  resource.ContinuousTargetOccurence conf = 1%nat →
  Clusters_Get conn (calls w) projectID name = (Some c, resp, None) →
  matlas.StateName c ≠ target →
  matlas.StateName c ∈ resource.Pending conf →
  refreshPass conf (resourceClusterRefreshFunc name projectID conn) nf 0 w
  = (Continue 0 0 (matlas.StateName c), afterGet w projectID name).
Proof.
  intros Ht Hc Hget Hne Hin. unfold refreshPass.
  rewrite (refresh_found _ _ _ _ _ _ Hget), Ht, Hc, scanTarget_single.
  rewrite decide_False by done. rewrite decide_True by done. reflexivity.
Qed.

Lemma refreshPass_target conn name projectID conf target nf w c resp :
  resource.Target conf = [target] →
  resource.ContinuousTargetOccurence conf = 1%nat →
  Clusters_Get conn (calls w) projectID name = (Some c, resp, None) →
  matlas.StateName c = target →
  refreshPass conf (resourceClusterRefreshFunc name projectID conn) nf 0 w
  = (Done (AnyClusterPtr c), afterGet w projectID name).
Proof.
  intros Ht Hc Hget Heq. unfold refreshPass.
  rewrite (refresh_found _ _ _ _ _ _ Hget), Ht, Hc, scanTarget_single.
  rewrite decide_True by done. reflexivity.
Qed.

(** C9. With target IDLE (the configurations of create and update), when
    three successive status reads report CREATING, CREATING and IDLE, and
    the timeout leaves room for three reads, the poll loop returns
    normally with the cluster of the third read, whose state is IDLE,
    after exactly three Gets. *)
Theorem creating_creating_idle conn name projectID d conf w c1 c2 c3 r1 r2 r3 :
  conf = createStateConf d ∨ conf = updateStateConf d →
  let get := CallGet projectID name in
  Clusters_Get conn (calls w) projectID name = (Some c1, r1, None) →
  Clusters_Get conn (calls w ++ [get]) projectID name = (Some c2, r2, None) →
  Clusters_Get conn (calls w ++ [get; get]) projectID name = (Some c3, r3, None) →
  matlas.StateName c1 = "CREATING" →
  matlas.StateName c2 = "CREATING" →
  matlas.StateName c3 = "IDLE" →
  (3 ≤ reads_within conf)%nat →
  WaitForState conf (resourceClusterRefreshFunc name projectID conn) w
  = (Return (AnyClusterPtr c3),
     {| data := data w; calls := calls w ++ [get; get; get] |}).
Proof.
  intros Hconf get H1 H2 H3 S1 S2 S3 Hreads.
  unfold WaitForState.
  destruct (reads_within conf) as [|[|[|reads]]] eqn:Hr; [lia..|].
  assert (resource.Target (withDefaults conf) = ["IDLE"] ∧
          resource.ContinuousTargetOccurence (withDefaults conf) = 1%nat ∧
          "CREATING" ∈ resource.Pending (withDefaults conf)) as (Ht & Hc & Hp).
  { destruct Hconf as [-> | ->]; repeat split; simpl; set_solver. }
  rewrite refreshLoop_S.
  rewrite (refreshPass_pending _ _ _ _ _ _ _ _ _ Ht Hc H1) by (rewrite S1; done).
  rewrite refreshLoop_S.
  rewrite (refreshPass_pending _ _ _ _ _ _ _ c2 r2 Ht Hc) by (rewrite ?S2; done).
  rewrite refreshLoop_S.
  rewrite (refreshPass_target _ _ _ _ _ _ _ c3 r3 Ht Hc);
    [| simpl; rewrite <- app_assoc; exact H3 | done].
  unfold afterGet. simpl. rewrite <- !app_assoc. reflexivity.
Qed.

(** ** The resource functions *)

(** C10. When the remote get of a read answers HTTP 404, the read returns
    without error and leaves the whole store, the identity included, as it
    was; its one effect is the Get it has issued. *)
Theorem read_absent_leaves_state conn d cs c resp e :
  Clusters_Get conn cs (projectID_of d) (clusterName_of d) = (c, Some resp, Some e) →
  matlas.StatusCode resp = 404 →
  resourceMongoDBAtlasClusterRead conn {| data := d; calls := cs |}
  = (Return tt, {| data := d;
                   calls := cs ++ [CallGet (projectID_of d) (clusterName_of d)] |}).
Proof.
  intros Hget Hcode.
  unfold resourceMongoDBAtlasClusterRead, bind, get_data, call. cbn [data calls].
  unfold projectID_of, clusterName_of in Hget. rewrite Hget.
  unfold StatusNotFound. rewrite decide_True by done. reflexivity.
Qed.

(** The expansions of create never fail. *)
Lemma expandBiConnector_no_error d : (expandBiConnector d).2 = None.
Proof.
  unfold expandBiConnector. destruct (GetOk d "bi_connector") as [[[]|] []]; reflexivity.
Qed.

Lemma expandReplicationSpecs_loop_no_error v : ∀ rSpecs,
  (expandReplicationSpecs_loop v rSpecs).2 = None.
Proof. induction v as [|spec v IH]; intros rSpecs; simpl; [reflexivity | apply IH]. Qed.

Lemma expandReplicationSpecs_no_error d : (expandReplicationSpecs d).2 = None.
Proof.
  unfold expandReplicationSpecs.
  destruct (GetOk d "replication_specs") as [[[]|] []];
    try reflexivity. apply expandReplicationSpecs_loop_no_error.
Qed.

(** Create, once the validation has passed: the remote call, the poll,
    the identity, the read. *)
Lemma create_valid conn d cs :
  createValid d = true →
  let projectID := get_string d "project_id" in
  let w1 := {| data := d; calls := cs ++ [CallCreate projectID (createRequest d)] |} in
  resourceMongoDBAtlasClusterCreate conn {| data := d; calls := cs |}
  = match Clusters_Create conn cs projectID (createRequest d) with
    | (_, _, Some err) => (Fail (Errorf errorCreate [Error err]), w1)
    | (cluster, _, None) =>
        match WaitForState (createStateConf d)
                (resourceClusterRefreshFunc (get_string d "name") projectID conn) w1 with
        | (Fail err, w') => (Fail (Errorf errorCreate [Error err]), w')
        | (Panic, w') => (Panic, w')
        | (Return _, w') =>
            match cluster with
            | None => (Panic, w')
            | Some cluster =>
                resourceMongoDBAtlasClusterRead conn
                  {| data := SetId d (encodeStateID
                                {[ "cluster_id" := matlas.ID cluster;
                                   "project_id" := projectID;
                                   "cluster_name" := matlas.Name cluster ]});
                     calls := calls w' |}
            end
        end
    end.
Proof.
  intros Hvalid projectID w1. unfold createValid in Hvalid.
  apply andb_true_iff in Hvalid as [Hv1 Hv2].
  apply negb_true_iff in Hv1, Hv2.
  unfold resourceMongoDBAtlasClusterCreate, bind at 1, get_data. cbn [data calls].
  rewrite Hv1, Hv2.
  pose proof (expandBiConnector_no_error d) as Hb.
  pose proof (expandReplicationSpecs_no_error d) as Hr.
  subst w1. unfold createRequest.
  destruct (expandBiConnector d) as [bi eb]. destruct (expandReplicationSpecs d) as [rs er].
  simpl in Hb, Hr. subst eb er. cbn [fst].
  unfold bind, call. cbn [data calls]. fold projectID.
  destruct (Clusters_Create conn cs projectID _) as [[cluster resp] [err|]]; [reflexivity|].
  destruct (WaitForState _ _ _) as [[res| |] w']; reflexivity.
Qed.

(** Create, when the validation has not passed. *)
Lemma create_invalid conn d cs :
  createValid d = false →
  ∃ msg, resourceMongoDBAtlasClusterCreate conn {| data := d; calls := cs |}
         = (Fail (errorString msg), {| data := d; calls := cs |}).
Proof.
  intros Hvalid. unfold createValid in Hvalid.
  unfold resourceMongoDBAtlasClusterCreate, bind at 1, get_data. cbn [data calls].
  destruct ((GetOk d "replication_specs").2 && negb (GetOk d "cluster_type").2);
    [eexists; reflexivity|].
  destruct ((GetOk d "replication_specs").2 && negb (GetOk d "num_shards").2);
    [eexists; reflexivity|]. discriminate.
Qed.

(** The poll loop leaves the store alone. *)
Lemma refresh_data conn name projectID w r w' :
  resourceClusterRefreshFunc name projectID conn w = (r, w') → data w' = data w.
Proof.
  unfold resourceClusterRefreshFunc, bind, call. cbn [data calls].
  destruct (Clusters_Get conn (calls w) projectID name) as [[c resp] [e|]].
  - destruct (gostrings.Contains (Error e) "reset by peer"); [intros [= <- <-]; reflexivity|].
    destruct c, resp; try destruct (decide _); intros [= <- <-]; reflexivity.
  - destruct c; intros [= <- <-]; reflexivity.
Qed.

Lemma refreshPass_data conf conn name projectID nf occ w p w' :
  refreshPass conf (resourceClusterRefreshFunc name projectID conn) nf occ w = (p, w') →
  data w' = data w.
Proof.
  unfold refreshPass.
  destruct (resourceClusterRefreshFunc name projectID conn w) as [r w1] eqn:Hr.
  apply refresh_data in Hr.
  destruct r as [[[res st] [e|]] | e |]; try (intros [= <- <-]; exact Hr).
  destruct res; repeat case_match; intros [= <- <-]; exact Hr.
Qed.

Lemma refreshLoop_data conf conn name projectID reads : ∀ nf occ last w r w',
  refreshLoop conf (resourceClusterRefreshFunc name projectID conn) reads nf occ last w
  = (r, w') → data w' = data w.
Proof.
  induction reads as [|reads IH]; intros nf occ last w r w'; cbn [refreshLoop].
  - intros [= <- <-]. reflexivity.
  - destruct (refreshPass _ _ nf occ w) as [p w1] eqn:Hp.
    apply refreshPass_data in Hp.
    destruct p; try (intros [= <- <-]; exact Hp).
    intros Hl. apply IH in Hl. congruence.
Qed.

Lemma WaitForState_data conf conn name projectID w r w' :
  WaitForState conf (resourceClusterRefreshFunc name projectID conn) w = (r, w') →
  data w' = data w.
Proof. apply refreshLoop_data. Qed.

(** C8. If the remote create call of a create fails, or the poll that
    follows it does not return normally, create does not return normally
    either and the store is left as it was: an identity that was unset is
    still unset. *)
Theorem create_failure_leaves_identity_unset conn d cs r w' :
  Id d = "" →
  resourceMongoDBAtlasClusterCreate conn {| data := d; calls := cs |} = (r, w') →
  let projectID := get_string d "project_id" in
  let w1 := {| data := d; calls := cs ++ [CallCreate projectID (createRequest d)] |} in
  (Clusters_Create conn cs projectID (createRequest d)).2 ≠ None ∨
  (∀ res wp, WaitForState (createStateConf d)
               (resourceClusterRefreshFunc (get_string d "name") projectID conn) w1
             ≠ (Return res, wp)) →
  r ≠ Return tt ∧ data w' = d ∧ Id (data w') = "".
Proof.
  intros Hid Hrun projectID w1 Hfails.
  destruct (createValid d) eqn:Hvalid.
  - rewrite create_valid in Hrun by done. fold projectID w1 in Hrun.
    destruct (Clusters_Create conn cs projectID (createRequest d))
      as [[cluster resp] [err|]].
    + injection Hrun as <- <-. auto.
    + destruct Hfails as [Hmut | Hpoll]; [done|].
      destruct (WaitForState _ _ w1) as [[res| |] wp] eqn:Hw.
      * exfalso. eapply Hpoll. reflexivity.
      * apply WaitForState_data in Hw. injection Hrun as <- <-.
        simpl in Hw. rewrite Hw. auto.
      * apply WaitForState_data in Hw. injection Hrun as <- <-.
        simpl in Hw. rewrite Hw. auto.
  - destruct (create_invalid conn d cs Hvalid) as [msg Hmsg].
    rewrite Hmsg in Hrun. injection Hrun as <- <-. auto.
Qed.


(** ** Which calls a function issues *)

Lemma silent_ret {A} (a : A) : silent (ret a).
Proof. intros w r w' [= <- <-]. reflexivity. Qed.

Lemma silent_fail {A} e : silent (@fail A e).
Proof. intros w r w' [= <- <-]. reflexivity. Qed.

Lemma silent_bind {A B} (m : M A) (k : A → M B) :
  silent m → (∀ a, silent (k a)) → silent (bind m k).
Proof.
  intros Hm Hk w r w'. unfold bind.
  destruct (m w) as [[a|e|] w1] eqn:Hmw; apply Hm in Hmw.
  - intros Hkw. apply Hk in Hkw. congruence.
  - intros [= <- <-]. exact Hmw.
  - intros [= <- <-]. exact Hmw.
Qed.

Lemma silent_set_or_return key v wrap : silent (set_or_return key v wrap).
Proof.
  intros w r w'. unfold set_or_return.
  destruct (Set' (data w) key v) as [d' [err|]]; intros [= <- <-]; reflexivity.
Qed.

Lemma silent_set_or_log key v : silent (set_or_log key v).
Proof. intros w r w' [= <- <-]. reflexivity. Qed.

Lemma silent_put_data d : silent (put_data d).
Proof. intros w r w' [= <- <-]. reflexivity. Qed.

Lemma silent_get_data : silent get_data.
Proof. intros w r w' [= <- <-]. reflexivity. Qed.

Create HintDb silent.
#[local] Hint Resolve silent_ret silent_fail silent_bind silent_set_or_return
  silent_set_or_log silent_put_data silent_get_data : silent.

Lemma silent_flattenProviderSettings settings : silent (flattenProviderSettings settings).
Proof. unfold flattenProviderSettings. auto 20 with silent. Qed.

Lemma silent_setCluster clusterName cluster : silent (setCluster clusterName cluster).
Proof.
  unfold setCluster.
  repeat (apply silent_bind; [|intros _]);
    try case_match; auto using silent_flattenProviderSettings with silent.
Qed.

(** A read issues one Get, whatever it does next. *)
Lemma read_calls conn w r w' :
  resourceMongoDBAtlasClusterRead conn w = (r, w') →
  calls w' = calls w ++ [CallGet (projectID_of (data w)) (clusterName_of (data w))].
Proof.
  unfold resourceMongoDBAtlasClusterRead, bind, get_data, call. cbn [data calls].
  fold (projectID_of (data w)) (clusterName_of (data w)).
  destruct (Clusters_Get conn (calls w) _ _) as [[cluster resp] [e|]].
  - destruct resp as [rp|]; [destruct (decide _)|]; intros [= <- <-]; reflexivity.
  - destruct cluster as [cluster|]; [|intros [= <- <-]; reflexivity].
    intros Hsets. apply silent_setCluster in Hsets. exact Hsets.
Qed.

(** The poll loop issues Gets only, one per pass. *)
Lemma refresh_calls conn name projectID w r w' :
  resourceClusterRefreshFunc name projectID conn w = (r, w') →
  calls w' = calls w ++ [CallGet projectID name].
Proof.
  unfold resourceClusterRefreshFunc, bind, call. cbn [data calls].
  repeat case_match; intros [= <- <-]; reflexivity.
Qed.

Lemma refreshPass_calls conf conn name projectID nf occ w p w' :
  refreshPass conf (resourceClusterRefreshFunc name projectID conn) nf occ w = (p, w') →
  calls w' = calls w ++ [CallGet projectID name].
Proof.
  unfold refreshPass.
  destruct (resourceClusterRefreshFunc name projectID conn w) as [r w1] eqn:Hr.
  apply refresh_calls in Hr.
  destruct r as [[[res st] [e|]] | e |]; try (intros [= <- <-]; exact Hr).
  destruct res; repeat case_match; intros [= <- <-]; exact Hr.
Qed.

Lemma refreshLoop_calls conf conn name projectID reads : ∀ nf occ last w r w',
  refreshLoop conf (resourceClusterRefreshFunc name projectID conn) reads nf occ last w
  = (r, w') →
  ∃ n, calls w' = calls w ++ replicate n (CallGet projectID name).
Proof.
  induction reads as [|reads IH]; intros nf occ last w r w'; cbn [refreshLoop].
  - intros [= <- <-]. exists 0%nat. simpl. by rewrite app_nil_r.
  - destruct (refreshPass _ _ nf occ w) as [p w1] eqn:Hp.
    apply refreshPass_calls in Hp.
    destruct p; try (intros [= <- <-]; exists 1%nat; exact Hp).
    intros Hl. apply IH in Hl as [n Hn]. exists (S n).
    rewrite Hn, Hp, <- app_assoc. reflexivity.
Qed.

(** The change test of update compares a pointer with a value; a test of
    value against value would find the zero request unchanged. *)
Lemma DeepEqual_pointer_value c c' :
  reflect.DeepEqual (AnyClusterPtr c) (AnyCluster c') = false.
Proof. reflexivity. Qed.

Lemma DeepEqual_zero_value :
  reflect.DeepEqual (AnyCluster matlas.Cluster_zero) (AnyCluster matlas.Cluster_zero) = true.
Proof. apply bool_decide_eq_true_2. reflexivity. Qed.

(** What [HasChange] gives on [replication_specs]: a change whenever the
    state or the plan holds a replication spec. *)
Lemma HasChange_replication_specs d :
  HasChange d "replication_specs"
  = negb (bool_decide (specsOf (state d) = []) && bool_decide (specsOf (planned d) = [])).
Proof.
  unfold HasChange, specsOf, typed.
  change (lookup_schema resourceMongoDBAtlasCluster "replication_specs")
    with (Some (attr TypeList)).
  destruct (state d !! "replication_specs") as [[]|];
    destruct (planned d !! "replication_specs") as [[]|]; reflexivity.
Qed.

(** A store whose plan is its state, free of NaN, has no change but in
    its replication specs. *)
Lemma HasChange_unchanged_but d :
  state d = planned d →
  map_Forall (λ key v, key ≠ "replication_specs" → value_eqb v v = true) (planned d) →
  ∀ key, key ≠ "replication_specs" → HasChange d key = false.
Proof.
  intros Hst Hself key Hkey. unfold HasChange, typed. rewrite Hst.
  destruct (lookup_schema resourceMongoDBAtlasCluster key) as [s|] eqn:Hs; [|reflexivity].
  destruct (planned d !! key) as [x|] eqn:Hx.
  - destruct (decide (type_of x = Type_ s)).
    + rewrite (Hself key x Hx Hkey). reflexivity.
    + destruct (Type_ s); reflexivity.
  - destruct (Type_ s); reflexivity.
Qed.

Lemma updateRequest_specsOnly d replicationSpecs :
  (∀ key, key ≠ "replication_specs" → HasChange d key = false) →
  updateRequest d replicationSpecs = specsOnly replicationSpecs.
Proof.
  intros Hsame. unfold updateRequest. rewrite !Hsame by done. reflexivity.
Qed.

Lemma update_calls conn d cs :
  ∃ r w' rest,
    resourceMongoDBAtlasClusterUpdate conn {| data := d; calls := cs |} = (r, w') ∧
    calls w' = cs ++ CallUpdate (projectID_of d) (clusterName_of d)
                       (updateRequest d (updateSpecs d)) :: rest.
Proof.
  assert ((if HasChange d "replication_specs" then expandReplicationSpecs d
           else ([], None)).2 = None) as Hspecs
    by (destruct (HasChange d "replication_specs");
        [apply expandReplicationSpecs_no_error | reflexivity]).
  unfold updateSpecs.
  unfold resourceMongoDBAtlasClusterUpdate, bind at 1, get_data. cbn [data calls].
  fold (projectID_of d) (clusterName_of d).
  destruct (if HasChange d "replication_specs" then _ else _) as [rs er].
  cbn [snd] in Hspecs. subst er. cbn [fst].
  change (reflect.DeepEqual (AnyClusterPtr _) (AnyCluster _)) with false.
  cbn [negb]. unfold bind, call. cbn [data calls].
  destruct (Clusters_Update conn cs _ _ _) as [[c resp] [err|]]; cbn [snd].
  - do 3 eexists. split; reflexivity.
  - unfold ret.
    destruct (WaitForState _ _ _) as [[res| |] w1] eqn:Hw;
      apply refreshLoop_calls in Hw as [n Hn]; cbn [calls] in Hn.
    + destruct (resourceMongoDBAtlasClusterRead conn w1) as [r w2] eqn:Hr.
      apply read_calls in Hr. do 3 eexists. split; [reflexivity|].
      rewrite Hr, Hn, <- !app_assoc. reflexivity.
    + do 3 eexists. split; [reflexivity|]. rewrite Hn, <- app_assoc. reflexivity.
    + do 3 eexists. split; [reflexivity|]. rewrite Hn, <- app_assoc. reflexivity.
Qed.

(** C1, as the code behaves. Take a store in which no attribute other
    than [replication_specs] counts as changed and whose state and plan
    hold the same replication specs. The request that the update builds
    carries nothing but replication specs: it is the zero cluster when the
    plan holds no spec, and it carries the expansion of every spec when
    the plan holds one, since two lists of specs are never deeply equal.
    Either way the update issues the remote Update call with that request:
    the test that is to skip the call compares a [*Cluster] with a
    [Cluster], which are never deeply equal either. *)
Theorem update_without_change_still_calls conn d cs :
  (∀ key, key ≠ "replication_specs" → HasChange d key = false) →
  specsOf (state d) = specsOf (planned d) →
  let request := updateRequest d (updateSpecs d) in
  request = specsOnly (updateSpecs d) ∧
  (specsOf (planned d) = [] → request = matlas.Cluster_zero) ∧
  (specsOf (planned d) ≠ [] →
   HasChange d "replication_specs" = true ∧
   updateSpecs d = (expandReplicationSpecs d).1) ∧
  ∃ r w' rest,
    resourceMongoDBAtlasClusterUpdate conn {| data := d; calls := cs |} = (r, w') ∧
    calls w' = cs ++ CallUpdate (projectID_of d) (clusterName_of d) request :: rest.
Proof.
  intros Hsame Hspecs request. subst request.
  pose proof (HasChange_replication_specs d) as Hchange. rewrite Hspecs in Hchange.
  split; [by apply updateRequest_specsOnly|]. split; [|split].
  - intros Hnone. rewrite (updateRequest_specsOnly d _ Hsame).
    unfold updateSpecs. rewrite Hchange, Hnone. reflexivity.
  - intros Hsome. rewrite bool_decide_eq_false_2 in Hchange by done.
    split; [exact Hchange|]. unfold updateSpecs. rewrite Hchange. reflexivity.
  - apply update_calls.
Qed.

(** ** The validation of a create *)

(** The plan of a configuration that leaves an attribute out. *)
Lemma schemaDefaults_num_shards config :
  config !! "num_shards" = None → schemaDefaults config !! "num_shards" = Some (VInt 1).
Proof.
  intros Hnone. unfold schemaDefaults.
  cbn [foldr resourceMongoDBAtlasCluster attr attr_default Default].
  rewrite Hnone. repeat case_match; by simplify_map_eq.
Qed.

Lemma schemaDefaults_cluster_type config :
  config !! "cluster_type" = None → schemaDefaults config !! "cluster_type" = None.
Proof.
  intros Hnone. unfold schemaDefaults.
  cbn [foldr resourceMongoDBAtlasCluster attr attr_default Default].
  repeat case_match; by simplify_map_eq.
Qed.

(** C5, as the code behaves. In a create whose configuration sets
    replication specs: when the configuration leaves [cluster_type] out,
    create returns the validation error with the store untouched and no
    call issued; when it leaves [num_shards] out, [num_shards] reads as 1,
    the [Default] of its schema, and so as set: with a cluster type in
    place the validation passes and the remote Create call is issued. *)
Theorem absent_num_shards_passes_validation conn config cs :
  let d := created config in
  let w := {| data := d; calls := cs |} in
  (GetOk d "replication_specs").2 = true →
  (config !! "cluster_type" = None →
   resourceMongoDBAtlasClusterCreate conn w
   = (Fail (errorString "`cluster_type` should be set when `replication_specs` is set"), w)) ∧
  (config !! "num_shards" = None →
   GetOk d "num_shards" = (Some (VInt 1), true) ∧
   ((GetOk d "cluster_type").2 = true →
    createValid d = true ∧
    ∃ r w' rest,
      resourceMongoDBAtlasClusterCreate conn w = (r, w') ∧
      calls w' = cs ++ CallCreate (get_string d "project_id") (createRequest d) :: rest)).
Proof.
  intros d w Hspecs. subst w. split.
  - intros Hnone.
    assert ((GetOk d "cluster_type").2 = false) as Htype.
    { unfold GetOk, Get, d, created. cbn [written planned]. rewrite lookup_empty.
      rewrite (schemaDefaults_cluster_type config Hnone). reflexivity. }
    unfold resourceMongoDBAtlasClusterCreate, bind, get_data. cbn [data calls].
    rewrite Hspecs, Htype. reflexivity.
  - intros Hnone.
    assert (GetOk d "num_shards" = (Some (VInt 1), true)) as Hshards.
    { unfold GetOk, Get, d, created. cbn [written planned]. rewrite lookup_empty.
      rewrite (schemaDefaults_num_shards config Hnone). reflexivity. }
    split; [exact Hshards|]. intros Htype.
    assert (createValid d = true) as Hvalid.
    { unfold createValid. rewrite Hspecs, Htype, Hshards. reflexivity. }
    split; [exact Hvalid|].
    rewrite (create_valid conn d cs Hvalid).
    destruct (Clusters_Create conn cs _ _) as [[cluster resp] [err|]].
    + do 3 eexists. split; reflexivity.
    + destruct (WaitForState _ _ _) as [[res| |] w'] eqn:Hw;
        apply refreshLoop_calls in Hw as [n Hn]; cbn [calls] in Hn.
      * destruct cluster as [cluster|].
        -- destruct (resourceMongoDBAtlasClusterRead conn _) as [r w2] eqn:Hr.
           apply read_calls in Hr. cbn [calls] in Hr.
           do 3 eexists. split; [reflexivity|].
           rewrite Hr, Hn, <- !app_assoc. reflexivity.
        -- do 3 eexists. split; [reflexivity|]. rewrite Hn, <- app_assoc. reflexivity.
      * do 3 eexists. split; [reflexivity|]. rewrite Hn, <- app_assoc. reflexivity.
      * do 3 eexists. split; [reflexivity|]. rewrite Hn, <- app_assoc. reflexivity.
Qed.

(** Import, once its identifier has split in two. *)
Lemma import_split conn d cs projectID name :
  gostrings.SplitN (Id d) "-" 2 = [projectID; name] →
  resourceMongoDBAtlasClusterImportState conn {| data := d; calls := cs |}
  = let w1 := {| data := d; calls := cs ++ [CallGet projectID name] |} in
    match Clusters_Get conn cs projectID name with
    | (_, _, Some err) =>
        (Fail (Errorf "couldn't import cluster %s in project %s, error: %s"
                 [name; projectID; Error err]), w1)
    | (None, _, None) => (Panic, w1)
    | (Some u, _, None) =>
        let d' := (Set' (Set' (SetId d (encodeStateID
                      {[ "cluster_id" := matlas.ID u;
                         "project_id" := projectID;
                         "cluster_name" := matlas.Name u ]}))
                    "project_id" (Some (VString (matlas.GroupID u)))).1
                    "name" (Some (VString (matlas.Name u)))).1 in
        (Return [d'], {| data := d'; calls := calls w1 |})
    end.
Proof.
  intros Hsplit.
  unfold resourceMongoDBAtlasClusterImportState, bind at 1, get_data. cbn [data calls].
  rewrite Hsplit. unfold bind at 1, call. cbn [data calls].
  destruct (Clusters_Get conn cs projectID name) as [[[u|] resp] [err|]]; reflexivity.
Qed.

(** C6. Import splits its identifier at the first hyphen: for a project
    id without a hyphen, the identifier [projectID-name] splits into that
    project id and that name, the one call import issues is the Get of
    that project and name, and a successful import records the project id
    in the identity. An identifier without any hyphen fails with the
    format error, before any call. *)
Theorem import_splits_at_first_hyphen conn d cs :
  (∀ projectID name,
     gostrings.Contains projectID "-" = false →
     Id d = projectID +:+ "-" +:+ name →
     gostrings.SplitN (Id d) "-" 2 = [projectID; name] ∧
     ∃ r w',
       resourceMongoDBAtlasClusterImportState conn {| data := d; calls := cs |} = (r, w') ∧
       calls w' = cs ++ [CallGet projectID name] ∧
       ∀ u resp d',
         Clusters_Get conn cs projectID name = (Some u, resp, None) →
         r = Return [d'] →
         Id d' = encodeStateID {[ "cluster_id" := matlas.ID u;
                                  "project_id" := projectID;
                                  "cluster_name" := matlas.Name u ]}) ∧
  (gostrings.Contains (Id d) "-" = false →
     resourceMongoDBAtlasClusterImportState conn {| data := d; calls := cs |}
     = (Fail importFormatError, {| data := d; calls := cs |})).
Proof.
  split.
  - intros projectID name Hp Hid.
    assert (gostrings.SplitN (Id d) "-" 2 = [projectID; name]) as Hsplit.
    { rewrite Hid. cbn [gostrings.SplitN]. rewrite (Cut_first _ _ Hp). reflexivity. }
    split; [exact Hsplit|].
    rewrite (import_split conn d cs projectID name Hsplit). cbv zeta.
    destruct (Clusters_Get conn cs projectID name) as [[[u|] resp] [err|]];
      do 2 eexists; (split; [reflexivity|]); (split; [reflexivity|]);
      intros u' resp' d' Hget Hr; simplify_eq.
    unfold Set'. repeat case_match; reflexivity.
  - intros Hnone.
    unfold resourceMongoDBAtlasClusterImportState, bind at 1, get_data. cbn [data calls].
    cbn [gostrings.SplitN]. rewrite (Cut_none _ Hnone). reflexivity.
Qed.

(** The writes of a read are all accepted, so they always succeed. *)
Lemma Set_accepts d key v : accepts key v = true → (Set' d key v).2 = None.
Proof.
  unfold accepts, Set'. destruct (lookup_schema _ key) as [s|]; [|discriminate].
  destruct v as [x|]; [|reflexivity]. intros Ht%bool_decide_eq_true.
  rewrite decide_True by done. reflexivity.
Qed.

Lemma set_or_return_accepts key v wrap w :
  accepts key v = true →
  set_or_return key v wrap w
  = (Return tt, {| data := (Set' (data w) key v).1; calls := calls w |}).
Proof.
  intros Hok. unfold set_or_return. pose proof (Set_accepts (data w) key v Hok) as Hs.
  destruct (Set' (data w) key v) as [d' e]. simpl in Hs. subst e. reflexivity.
Qed.

Lemma succeeds_ret : succeeds (ret tt).
Proof. intros w. eexists. reflexivity. Qed.

Lemma succeeds_bind (m : M unit) (k : unit → M unit) :
  succeeds m → succeeds (k tt) → succeeds (bind m k).
Proof.
  intros Hm Hk w. unfold bind. destruct (Hm w) as [w1 ->]. apply Hk.
Qed.

Lemma succeeds_set_or_return key v wrap :
  accepts key v = true → succeeds (set_or_return key v wrap).
Proof. intros Hok w. eexists. apply set_or_return_accepts, Hok. Qed.

Lemma succeeds_set_or_log key v : succeeds (set_or_log key v).
Proof. intros w. eexists. reflexivity. Qed.

Lemma succeeds_flattenProviderSettings settings : succeeds (flattenProviderSettings settings).
Proof.
  unfold flattenProviderSettings.
  repeat (apply succeeds_bind; [apply succeeds_set_or_log|]). apply succeeds_set_or_log.
Qed.

Lemma succeeds_setCluster clusterName cluster : succeeds (setCluster clusterName cluster).
Proof.
  unfold setCluster.
  repeat (apply succeeds_bind; [|]);
    try (apply succeeds_set_or_return);
    try (case_match; first [ apply succeeds_flattenProviderSettings
                           | apply succeeds_ret
                           | apply succeeds_set_or_return; reflexivity ]);
    try reflexivity;
    match goal with |- accepts _ (_ <$> ?o) = true => destruct o; reflexivity end.
Qed.



(** The four error formats, filled in, and what their texts name. *)
Lemma Sprintf_errorRead name cause :
  fmt.Sprintf errorRead [name; cause]
  = "error reading MongoDB Cluster (" +:+ name +:+ "): " +:+ cause +:+ "".
Proof. reflexivity. Qed.

Lemma Sprintf_errorDelete name cause :
  fmt.Sprintf errorDelete [name; cause]
  = "error deleting MongoDB Cluster (" +:+ name +:+ "): " +:+ cause +:+ "".
Proof. reflexivity. Qed.

Lemma Sprintf_errorUpdate name cause :
  fmt.Sprintf errorUpdate [name; cause]
  = "error updating MongoDB Cluster (" +:+ name +:+ "): " +:+ cause +:+ "".
Proof. reflexivity. Qed.

Lemma Sprintf_errorCreate cause :
  fmt.Sprintf errorCreate [cause] = "error creating MongoDB Cluster: " +:+ cause +:+ "".
Proof. reflexivity. Qed.

Lemma names_three format verb name cause pre mid :
  fmt.Sprintf format [name; cause] = pre +:+ name +:+ mid +:+ cause +:+ "" →
  gostrings.Contains pre verb = true →
  names (Errorf format [name; cause]) [verb; name; cause].
Proof.
  intros Hfmt Hverb. unfold names, Errorf, Error. rewrite Hfmt.
  repeat apply Forall_cons_2; [| | | apply Forall_nil_2].
  - apply Contains_app_l, Hverb.
  - apply Contains_app.
  - do 2 apply Contains_app_r. apply Contains_app.
Qed.

Lemma names_two format verb cause pre :
  fmt.Sprintf format [cause] = pre +:+ cause +:+ "" →
  gostrings.Contains pre verb = true →
  names (Errorf format [cause]) [verb; cause].
Proof.
  intros Hfmt Hverb. unfold names, Errorf, Error. rewrite Hfmt.
  repeat apply Forall_cons_2; [| | apply Forall_nil_2].
  - apply Contains_app_l, Hverb.
  - apply Contains_app.
Qed.

Lemma names_errorRead name cause :
  names (Errorf errorRead [name; cause]) ["reading"; name; cause].
Proof. by apply (names_three _ _ _ _ _ _ (Sprintf_errorRead name cause)). Qed.

Lemma names_errorDelete name cause :
  names (Errorf errorDelete [name; cause]) ["deleting"; name; cause].
Proof. by apply (names_three _ _ _ _ _ _ (Sprintf_errorDelete name cause)). Qed.

Lemma names_errorUpdate name cause :
  names (Errorf errorUpdate [name; cause]) ["updating"; name; cause].
Proof. by apply (names_three _ _ _ _ _ _ (Sprintf_errorUpdate name cause)). Qed.

Lemma names_errorCreate cause :
  names (Errorf errorCreate [cause]) ["creating"; cause].
Proof. by apply (names_two _ _ _ _ (Sprintf_errorCreate cause)). Qed.

(** ** The texts of errors *)

(** A read fails only when its Get does. *)
Lemma read_fails conn d cs e w' :
  resourceMongoDBAtlasClusterRead conn {| data := d; calls := cs |} = (Fail e, w') →
  ∃ cause, (Clusters_Get conn cs (projectID_of d) (clusterName_of d)).2 = Some cause ∧
           e = Errorf errorRead [clusterName_of d; Error cause].
Proof.
  unfold resourceMongoDBAtlasClusterRead, bind, get_data, call. cbn [data calls].
  fold (projectID_of d) (clusterName_of d).
  destruct (Clusters_Get conn cs _ _) as [[cluster resp] [cause|]]; cbn [snd].
  - destruct resp as [rp|]; [destruct (decide _)|]; intros [= <- <-]; eauto.
  - destruct cluster as [cluster|]; [|discriminate].
    intros Hsets.
    destruct (succeeds_setCluster (clusterName_of d) cluster
                {| data := d; calls := cs ++ [CallGet (projectID_of d) (clusterName_of d)] |})
      as [w2 Hok].
    rewrite Hok in Hsets. discriminate.
Qed.

(** A delete fails when its remote call does, or when its poll does. *)
Lemma delete_fails conn d cs e w' :
  resourceMongoDBAtlasClusterDelete conn {| data := d; calls := cs |} = (Fail e, w') →
  ∃ cause,
    ((Clusters_Delete conn cs (projectID_of d) (clusterName_of d)).2 = Some cause ∨
     WaitForState deleteStateConf
       (resourceClusterRefreshFunc (clusterName_of d) (projectID_of d) conn)
       {| data := d;
          calls := cs ++ [CallDelete (projectID_of d) (clusterName_of d)] |}
     = (Fail cause, w')) ∧
    e = Errorf errorDelete [clusterName_of d; Error cause].
Proof.
  unfold resourceMongoDBAtlasClusterDelete, bind, get_data, call. cbn [data calls].
  fold (projectID_of d) (clusterName_of d).
  destruct (Clusters_Delete conn cs _ _) as [resp [cause|]]; cbn [snd].
  - intros [= <- <-]. eauto.
  - destruct (WaitForState _ _ _) as [[res|cause|] w1]; intros [= <- <-]. eauto.
Qed.

(** An update whose remote call fails. *)
Lemma update_call_fails conn d cs cause :
  (if HasChange d "replication_specs" then expandReplicationSpecs d else ([], None)).2 = None →
  (Clusters_Update conn cs (projectID_of d) (clusterName_of d)
     (updateRequest d (updateSpecs d))).2 = Some cause →
  resourceMongoDBAtlasClusterUpdate conn {| data := d; calls := cs |}
  = (Fail (Errorf errorUpdate [clusterName_of d; Error cause]),
     {| data := d;
        calls := cs ++ [CallUpdate (projectID_of d) (clusterName_of d)
                          (updateRequest d (updateSpecs d))] |}).
Proof.
  unfold updateSpecs.
  unfold resourceMongoDBAtlasClusterUpdate, bind at 1, get_data. cbn [data calls].
  fold (projectID_of d) (clusterName_of d).
  destruct (if HasChange d "replication_specs" then _ else _) as [rs er]; cbn [fst snd].
  intros -> Hupd.
  change (reflect.DeepEqual (AnyClusterPtr _) (AnyCluster _)) with false.
  cbn [negb]. unfold bind, call. cbn [data calls]. rewrite Hupd. reflexivity.
Qed.

Lemma updateSpecs_no_error d :
  (if HasChange d "replication_specs" then expandReplicationSpecs d else ([], None)).2 = None.
Proof. destruct (HasChange d "replication_specs"); [apply expandReplicationSpecs_no_error | reflexivity]. Qed.

(** C7, amended. An error of read names the operation, the cluster name
    and the error of the failed Get; an error of delete names the
    operation, the cluster name and the error of the failed remote call or
    of the failed poll; when the remote call of an update fails, the error
    of update names the operation, the cluster name and that error; when
    the remote call or the poll of a create fails, the error of create
    names the operation and that error (its format has no place for the
    cluster name). *)
Theorem errors_name_operation_and_cause conn d cs :
  (∀ e w',
     resourceMongoDBAtlasClusterRead conn {| data := d; calls := cs |} = (Fail e, w') →
     ∃ cause,
       (Clusters_Get conn cs (projectID_of d) (clusterName_of d)).2 = Some cause ∧
       names e ["reading"; clusterName_of d; Error cause]) ∧
  (∀ e w',
     resourceMongoDBAtlasClusterDelete conn {| data := d; calls := cs |} = (Fail e, w') →
     ∃ cause,
       ((Clusters_Delete conn cs (projectID_of d) (clusterName_of d)).2 = Some cause ∨
        WaitForState deleteStateConf
          (resourceClusterRefreshFunc (clusterName_of d) (projectID_of d) conn)
          {| data := d;
             calls := cs ++ [CallDelete (projectID_of d) (clusterName_of d)] |}
        = (Fail cause, w')) ∧
       names e ["deleting"; clusterName_of d; Error cause]) ∧
  (∀ cause,
     (Clusters_Update conn cs (projectID_of d) (clusterName_of d)
        (updateRequest d (updateSpecs d))).2 = Some cause →
     ∃ e w',
       resourceMongoDBAtlasClusterUpdate conn {| data := d; calls := cs |} = (Fail e, w') ∧
       names e ["updating"; clusterName_of d; Error cause]) ∧
  (∀ cause,
     createValid d = true →
     let projectID := get_string d "project_id" in
     let w1 := {| data := d; calls := cs ++ [CallCreate projectID (createRequest d)] |} in
     (Clusters_Create conn cs projectID (createRequest d)).2 = Some cause ∨
     ((Clusters_Create conn cs projectID (createRequest d)).2 = None ∧
      ∃ wp, WaitForState (createStateConf d)
              (resourceClusterRefreshFunc (get_string d "name") projectID conn) w1
            = (Fail cause, wp)) →
     ∃ e w',
       resourceMongoDBAtlasClusterCreate conn {| data := d; calls := cs |} = (Fail e, w') ∧
       e = Errorf errorCreate [Error cause] ∧
       names e ["creating"; Error cause]).
Proof.
  repeat split.
  - intros e w' Hrun. apply read_fails in Hrun as (cause & Hget & ->).
    exists cause. split; [exact Hget | apply names_errorRead].
  - intros e w' Hrun. apply delete_fails in Hrun as (cause & Hsrc & ->).
    exists cause. split; [exact Hsrc | apply names_errorDelete].
  - intros cause Hupd. do 2 eexists.
    split; [apply (update_call_fails _ _ _ _ (updateSpecs_no_error d) Hupd)|].
    apply names_errorUpdate.
  - intros cause Hvalid projectID w1 Hsrc.
    rewrite (create_valid conn d cs Hvalid). fold projectID w1.
    destruct (Clusters_Create conn cs projectID (createRequest d))
      as [[cluster resp] err]; cbn [snd] in Hsrc.
    destruct Hsrc as [-> | [-> (wp & ->)]];
      do 2 eexists; (split; [reflexivity|]); (split; [reflexivity|]);
      apply names_errorCreate.
Qed.

(** ** Reads after writes *)

Lemma Get_Set_ne d key v k : key ≠ k → Get (Set' d key v).1 k = Get d k.
Proof.
  intros Hne. unfold Set'. destruct (lookup_schema _ key) as [s|]; [|reflexivity].
  destruct v as [x|]; [destruct (decide _); [|reflexivity]|];
    unfold Get; cbn [written planned fst]; rewrite lookup_insert_ne by done; reflexivity.
Qed.

Lemma Get_Set_eq d key v :
  accepts key v = true →
  Get (Set' d key v).1 key = typed resourceMongoDBAtlasCluster key (stored <$> v).
Proof.
  unfold accepts, Set'. destruct (lookup_schema _ key) as [s|] eqn:Hs; [|discriminate].
  destruct v as [x|].
  - intros Ht%bool_decide_eq_true. rewrite decide_True by done.
    unfold Get. cbn [written planned fst]. rewrite lookup_insert_eq. reflexivity.
  - intros _. unfold Get. cbn [written planned fst]. rewrite lookup_insert_eq. reflexivity.
Qed.

(** What a typed read returns. *)
Lemma Get_schema d key s :
  lookup_schema resourceMongoDBAtlasCluster key = Some s →
  ∃ v, Get d key = Some v ∧ type_of v = Type_ s.
Proof.
  intros Hs. unfold Get, typed. rewrite Hs.
  destruct (written d !! key) as [[x|]|]; [| |destruct (planned d !! key) as [x|]];
    try (destruct (decide (type_of x = Type_ s)));
    eexists; (split; [reflexivity|]); try done; by destruct (Type_ s).
Qed.

Lemma Get_string d key s :
  lookup_schema resourceMongoDBAtlasCluster key = Some s → Type_ s = TypeString →
  Get d key = Some (VString (get_string d key)).
Proof.
  intros Hs Ht. destruct (Get_schema d key s Hs) as (v & Hv & Hty).
  unfold get_string. rewrite Hv. rewrite Ht in Hty. by destruct v.
Qed.

Lemma Get_bool d key s :
  lookup_schema resourceMongoDBAtlasCluster key = Some s → Type_ s = TypeBool →
  Get d key = Some (VBool (get_bool d key)).
Proof.
  intros Hs Ht. destruct (Get_schema d key s Hs) as (v & Hv & Hty).
  unfold get_bool. rewrite Hv. rewrite Ht in Hty. by destruct v.
Qed.

Lemma Get_int d key s :
  lookup_schema resourceMongoDBAtlasCluster key = Some s → Type_ s = TypeInt →
  Get d key = Some (VInt (get_int d key)).
Proof.
  intros Hs Ht. destruct (Get_schema d key s Hs) as (v & Hv & Hty).
  unfold get_int. rewrite Hv. rewrite Ht in Hty. by destruct v.
Qed.

Lemma Get_float d key s :
  lookup_schema resourceMongoDBAtlasCluster key = Some s → Type_ s = TypeFloat →
  Get d key = Some (VFloat (get_float d key)).
Proof.
  intros Hs Ht. destruct (Get_schema d key s Hs) as (v & Hv & Hty).
  unfold get_float. rewrite Hv. rewrite Ht in Hty. by destruct v.
Qed.

(** An integer attribute that does not read as set reads as 0. *)
Lemma GetOk_int_unset d key s :
  lookup_schema resourceMongoDBAtlasCluster key = Some s → Type_ s = TypeInt →
  (GetOk d key).2 = false → Get d key = Some (VInt 0).
Proof.
  intros Hs Ht. unfold GetOk. rewrite (Get_int d key s Hs Ht). cbn [snd].
  unfold is_zero. cbn [type_of Zero]. intros Hz%negb_false_iff%bool_decide_eq_true.
  by rewrite Hz.
Qed.

(** Running a chain of writes, one write at a time. *)
Lemma bind_set_or_return key v wrap (k : unit → M unit) w :
  accepts key v = true →
  bind (set_or_return key v wrap) k w
  = k tt {| data := (Set' (data w) key v).1; calls := calls w |}.
Proof. intros Hok. unfold bind. rewrite set_or_return_accepts by done. reflexivity. Qed.

Lemma bind_set_or_log key v (k : unit → M unit) w :
  bind (set_or_log key v) k w
  = k tt {| data := (Set' (data w) key v).1; calls := calls w |}.
Proof. reflexivity. Qed.

Lemma bind_ret (k : unit → M unit) w : bind (ret tt) k w = k tt w.
Proof. reflexivity. Qed.

Lemma bind_bind {A B C} (m : M A) (k : A → M B) (k' : B → M C) w :
  bind (bind m k) k' w = bind m (λ a, bind (k a) k') w.
Proof. unfold bind. destruct (m w) as [[a|e|] w1]; reflexivity. Qed.

Lemma bind_set_if_some key (o : option Z) wrap (k : unit → M unit) w :
  (∀ n, accepts key (Some (VInt n)) = true) →
  bind (match o with
        | Some n => set_or_return key (Some (VInt n)) wrap
        | None => ret tt
        end) k w
  = k tt {| data := match o with
                    | Some n => (Set' (data w) key (Some (VInt n))).1
                    | None => data w
                    end;
            calls := calls w |}.
Proof.
  intros Hok. destruct o as [n|].
  - apply bind_set_or_return, Hok.
  - destruct w. reflexivity.
Qed.

Ltac read_back :=
  repeat first
    [ rewrite Get_Set_eq by reflexivity
    | rewrite Get_Set_ne by done ].

Ltac typed_read :=
  first [ eapply Get_string; reflexivity
        | eapply Get_bool; reflexivity
        | eapply Get_int; reflexivity
        | eapply Get_float; reflexivity ].

(** The writes of a read, run on the request of a create: what each
    attribute reads as afterwards. *)
Lemma round_trip_run d cs name :
  ∃ d',
    setCluster name (createRequest d) {| data := d; calls := cs |}
    = (Return tt, {| data := d'; calls := cs |}) ∧
    Forall (λ key, Get d' key = Get d key) scalarAttributes ∧
    Get d' "bi_connector" = Some (VMap (flattenBiConnector (expandBiConnector d).1)) ∧
    Get d' "replication_specs"
    = Some (VList (storedSpec <$> flattenReplicationSpecs (expandReplicationSpecs d).1)) ∧
    Get d' "mongo_db_major_version" = Some (VString "").
Proof.
  eexists. split.
  - unfold setCluster.
    change (matlas.NumShards (createRequest d))
      with (if (GetOk d "num_shards").2 then Some (get_int d "num_shards") else None).
    change (matlas.Cluster_ProviderSettings (createRequest d))
      with (Some (expandProviderSetting d)).
    unfold flattenProviderSettings.
    repeat first [ rewrite bind_set_or_return by reflexivity; cbn [data calls]
                 | rewrite bind_bind
                 | rewrite bind_set_or_log; cbn [data calls]
                 | rewrite bind_set_if_some by reflexivity; cbn [data calls] ].
    rewrite set_or_return_accepts
      by (destruct (matlas.ReplicationFactor (createRequest d)); reflexivity).
    cbn [data calls]. reflexivity.
  - change (matlas.ReplicationFactor (createRequest d))
      with (if (GetOk d "replication_factor").2
            then Some (get_int d "replication_factor") else None).
    destruct (GetOk d "num_shards").2 eqn:Hns;
      destruct (GetOk d "replication_factor").2 eqn:Hrf.
    all: split; [|split; [|split]; read_back; reflexivity].
    all: unfold scalarAttributes; repeat apply Forall_cons_2; try apply Forall_nil_2.
    all: read_back; try reflexivity.
    all: try (symmetry; typed_read).
    all: symmetry; eapply GetOk_int_unset; done.
Qed.

(** ** The replication topology *)

Lemma foldl_insert_regions regions : ∀ m : gmap string matlas.RegionsConfig,
  NoDup (region_name <$> regions) →
  (∀ region, region ∈ regions → m !! region_name region = None) →
  map_to_list
    (foldl (λ regionsConfig region,
              <[(expandRegion region).1 := (expandRegion region).2]> regionsConfig)
           m regions)
  ≡ₚ map_to_list m ++ (expandRegion <$> regions).
Proof.
  induction regions as [|region regions IH]; intros m Hnd Hfresh; simpl.
  - by rewrite app_nil_r.
  - apply NoDup_cons in Hnd as [Hnotin Hnd].
    rewrite IH.
    + rewrite map_to_list_insert by (apply Hfresh; left).
      rewrite <- Permutation_middle. reflexivity.
    + exact Hnd.
    + intros r Hr. rewrite lookup_insert_ne.
      * apply Hfresh. by right.
      * intros Heq. apply Hnotin. rewrite Heq. apply list_elem_of_fmap. eauto.
Qed.

(** The order of a set: [Set_List] sorts by hash code, so it returns the
    items it is given, each once, in an order that is the same however the
    items were ordered. *)
Lemma remove_dups_NoDup {A} `{EqDecision A} (l : list A) : NoDup l → remove_dups l ≡ₚ l.
Proof.
  intros Hnd. apply NoDup_Permutation; [apply NoDup_remove_dups | exact Hnd|].
  intros x. apply elem_of_remove_dups.
Qed.

Lemma Set_List_Permutation items : NoDup items → Set_List items ≡ₚ items.
Proof.
  intros Hnd. unfold Set_List. rewrite merge_sort_Permutation.
  by apply remove_dups_NoDup.
Qed.

#[local] Instance byCode_trans : Transitive byCode.
Proof. intros x y z. unfold byCode. lia. Qed.

#[local] Instance byCode_total : Total byCode.
Proof. intros x y. unfold byCode. lia. Qed.

#[local] Instance byCode_antisymm : AntiSymm (=) byCode.
Proof. intros x y Hxy Hyx. apply hashcode_inj. unfold byCode in *. lia. Qed.



Lemma flatten_expand_regions regions :
  NoDup (region_name <$> regions) →
  flattenRegionsConfig (expandRegionsConfig regions).1 ≡ₚ regions.
Proof.
  intros Hnd. unfold flattenRegionsConfig, expandRegionsConfig. cbn [fst].
  rewrite rangeOrder_Permutation.
  rewrite (foldl_insert_regions regions ∅ Hnd) by (intros; apply lookup_empty).
  rewrite map_to_list_empty, app_nil_l, <- list_fmap_compose.
  rewrite <- (list_fmap_id regions) at 2.
  apply Permutation_refl'. apply list_fmap_ext. intros i [] _. reflexivity.
Qed.

Lemma expandReplicationSpecs_loop_eq v : ∀ rSpecs,
  (expandReplicationSpecs_loop v rSpecs).1
  = rSpecs ++ ((λ spec,
       {| matlas.ReplicationSpec_ID := spec_id spec;
          matlas.ReplicationSpec_NumShards := Some (spec_num_shards spec);
          matlas.ZoneName := spec_zone_name spec;
          matlas.ReplicationSpec_RegionsConfig :=
            (expandRegionsConfig (spec_regions_config spec)).1 |}) <$> v).
Proof.
  induction v as [|spec v IH]; intros rSpecs; simpl.
  - by rewrite app_nil_r.
  - rewrite IH, <- app_assoc. reflexivity.
Qed.

Lemma flatten_expand_specs v :
  Forall2 sameZone v (flattenReplicationSpecs (expandReplicationSpecs_loop v []).1).
Proof.
  rewrite expandReplicationSpecs_loop_eq, app_nil_l.
  unfold flattenReplicationSpecs. rewrite <- list_fmap_compose.
  induction v as [|spec v IH]; simpl; constructor; [|exact IH].
  repeat split. apply flatten_expand_regions.
Qed.

Lemma round_trip_specs d v :
  Get d "replication_specs" = Some (VList v) →
  Forall2 sameZone v (flattenReplicationSpecs (expandReplicationSpecs d).1).
Proof.
  intros Hv. unfold expandReplicationSpecs, GetOk. rewrite Hv.
  destruct v as [|spec v].
  - constructor.
  - apply flatten_expand_specs.
Qed.

(** Storing a zone keeps it the same zone. *)
Lemma sameZone_stored spec spec' : sameZone spec spec' → sameZone spec (storedSpec spec').
Proof.
  intros (Hid & Hshards & Hzone & Hregions). repeat split; [done..|].
  intros Hnd. cbn [storedSpec spec_regions_config].
  rewrite Set_List_Permutation; [by apply Hregions|].
  rewrite (Hregions Hnd). by apply NoDup_fmap_1 in Hnd.
Qed.

Lemma round_trip_stored_specs d v :
  Get d "replication_specs" = Some (VList v) →
  Forall2 sameZone v (storedSpec <$> flattenReplicationSpecs (expandReplicationSpecs d).1).
Proof.
  intros Hv. apply Forall2_fmap_r.
  eapply Forall2_impl; [apply round_trip_specs, Hv|]. apply sameZone_stored.
Qed.

(** A [bi_connector] in canonical form survives expansion and
    flattening. *)
Lemma round_trip_bi_connector d b rp :
  rp ≠ "" →
  Get d "bi_connector"
  = Some (VMap {[ "enabled" := strconv.FormatBool b; "read_preference" := rp ]}) →
  flattenBiConnector (expandBiConnector d).1
  = {[ "enabled" := strconv.FormatBool b; "read_preference" := rp ]}.
Proof.
  intros Hrp Hv. unfold expandBiConnector, GetOk. rewrite Hv.
  assert (is_zero (VMap {[ "enabled" := strconv.FormatBool b; "read_preference" := rp ]})
          = false) as ->.
  { apply bool_decide_eq_false_2. intros Heq.
    pose proof (f_equal (λ v, match v with VMap m => m !! "enabled" | _ => None end) Heq)
      as Hl.
    cbv beta iota in Hl. cbn [type_of Zero] in Hl.
    rewrite lookup_insert_eq, lookup_empty in Hl. discriminate. }
  cbn [negb fst]. rewrite lookup_insert_eq.
  rewrite lookup_insert_ne, lookup_singleton_eq by done.
  unfold flattenBiConnector. cbn [matlas.Enabled matlas.ReadPreference cast_ToString default].
  rewrite decide_True by done.
  replace (cast_ToBool (Some (strconv.FormatBool b))) with b by (by destruct b).
  apply insert_insert_ne. done.
Qed.

(** C3, amended. When the remote API returns the very request a create
    builds from a store, reading it back into that store returns normally
    and reproduces each scalar attribute of [scalarAttributes] exactly;
    [bi_connector] comes back as the flattened form of its expansion, which
    is the configured map when that map holds the text of a boolean under
    [enabled] and a non-empty [read_preference]; each zone of
    [replication_specs] comes back with its id, shard count and name, and
    with its regions up to their order when their names are distinct. *)
Theorem round_trip_of_create_request conn d cs resp :
  Clusters_Get conn cs (projectID_of d) (clusterName_of d)
  = (Some (createRequest d), resp, None) →
  ∃ d',
    resourceMongoDBAtlasClusterRead conn {| data := d; calls := cs |}
    = (Return tt, {| data := d';
                     calls := cs ++ [CallGet (projectID_of d) (clusterName_of d)] |}) ∧
    Forall (λ key, Get d' key = Get d key) scalarAttributes ∧
    Get d' "bi_connector" = Some (VMap (flattenBiConnector (expandBiConnector d).1)) ∧
    (∀ b rp,
       rp ≠ "" →
       Get d "bi_connector"
       = Some (VMap {[ "enabled" := strconv.FormatBool b; "read_preference" := rp ]}) →
       Get d' "bi_connector" = Get d "bi_connector") ∧
    (∀ v,
       Get d "replication_specs" = Some (VList v) →
       ∃ v', Get d' "replication_specs" = Some (VList v') ∧ Forall2 sameZone v v').
Proof.
  intros Hget.
  destruct (round_trip_run d (cs ++ [CallGet (projectID_of d) (clusterName_of d)])
              (clusterName_of d)) as (d' & Hrun & Hscalar & Hbi & Hspecs & _).
  exists d'. split; [|split; [exact Hscalar | split; [exact Hbi | split]]].
  - unfold resourceMongoDBAtlasClusterRead, bind, get_data, call. cbn [data calls].
    fold (projectID_of d) (clusterName_of d). rewrite Hget. exact Hrun.
  - intros b rp Hrp Hv. rewrite Hbi, Hv, (round_trip_bi_connector d b rp Hrp Hv).
    reflexivity.
  - intros v Hv. eexists. split; [exact Hspecs|]. apply round_trip_stored_specs, Hv.
Qed.

End Properties.

(* ===================================================================== *)
(** * Further properties of the resource *)
(* ===================================================================== *)

Section Further.
Context `{Platform}.

(** ** More on the status poll loop *)

(** A state that is not among the targets leaves the scan of the targets
    empty-handed. *)
Lemma scanTarget_miss target s continuous found occ :
  s ∉ target →
  resource.scanTarget target s continuous found occ = (false, found, occ).
Proof.
  induction target as [|allowed rest IH]; intros Hs; simpl; [reflexivity|].
  rewrite decide_False by set_solver. apply IH. set_solver.
Qed.

(** X1. A read error that is neither a connection reset nor a 404 with a
    response ends the poll at once: whatever came before, [WaitForState]
    fails with that very error, right after the Get that met it. This
    holds for any poll configuration. *)
Theorem fatal_read_error_ends_the_poll conn name projectID conf w k nf occ last wk
    c resp e :
  afterPasses (withDefaults conf) (resourceClusterRefreshFunc name projectID conn)
    k 0 0 "" w = Some (nf, occ, last, wk) →
  (k < reads_within conf)%nat →
  Clusters_Get conn (calls wk) projectID name = (c, resp, Some e) →
  gostrings.Contains (Error e) "reset by peer" = false →
  (c = None ∧ resp = None) ∨ (∃ r, resp = Some r ∧ matlas.StatusCode r ≠ 404) →
  WaitForState conf (resourceClusterRefreshFunc name projectID conn) w
  = (Fail e, afterGet wk projectID name).
Proof.
  intros Hafter Hk Hget Hreset Hfatal.
  unfold WaitForState.
  replace (reads_within conf) with (k + S (reads_within conf - S k))%nat by lia.
  rewrite (refreshLoop_afterPasses _ _ _ _ _ _ _ _ _ _ _ _ Hafter).
  rewrite refreshLoop_S. unfold refreshPass.
  unfold resourceClusterRefreshFunc, bind, call. cbn [data calls].
  rewrite Hget. cbn. rewrite Hreset.
  destruct Hfatal as [[-> ->] | (r & -> & Hcode)].
  - reflexivity.
  - destruct c; rewrite decide_False by done; reflexivity.
Qed.

(** X2. A cluster reported in a state that is neither a target nor a
    pending state of the poll ends it with the unexpected-state error,
    which carries that state and the targets. *)
Theorem unexpected_state_ends_the_poll conn name projectID d conf w k nf occ last wk
    c resp :
  conf ∈ sourceConfs d →
  afterPasses (withDefaults conf) (resourceClusterRefreshFunc name projectID conn)
    k 0 0 "" w = Some (nf, occ, last, wk) →
  (k < reads_within conf)%nat →
  Clusters_Get conn (calls wk) projectID name = (Some c, resp, None) →
  matlas.StateName c ∉ resource.Target conf →
  matlas.StateName c ∉ resource.Pending conf →
  WaitForState conf (resourceClusterRefreshFunc name projectID conn) w
  = (Fail (resourceError (resource.UnexpectedStateError (matlas.StateName c)
                            (resource.Target conf))),
     afterGet wk projectID name).
Proof.
  intros Hconf Hafter Hk Hget Htarget Hpending.
  destruct (sourceConfs_shape d conf Hconf) as (target & Ht & Hn & Hc & Hp).
  unfold WaitForState.
  replace (reads_within conf) with (k + S (reads_within conf - S k))%nat by lia.
  rewrite (refreshLoop_afterPasses _ _ _ _ _ _ _ _ _ _ _ _ Hafter).
  rewrite refreshLoop_S. unfold refreshPass.
  rewrite (refresh_found _ _ _ _ _ _ Hget).
  cbn [resource.Target resource.Pending withDefaults].
  rewrite (scanTarget_miss _ _ _ _ _ Htarget).
  rewrite decide_False by done. rewrite bool_decide_eq_false_2 by done. reflexivity.
Qed.

(** A cluster that stays in one pending state keeps the loop going until
    the reads run out. *)
Lemma refreshLoop_stays_pending conn name projectID conf target s reads :
  ∀ nf last w,
  resource.Target conf = [target] →
  resource.ContinuousTargetOccurence conf = 1%nat →
  s ≠ target → s ∈ resource.Pending conf →
  (∀ h, ∃ c resp, Clusters_Get conn h projectID name = (Some c, resp, None) ∧
                   matlas.StateName c = s) →
  refreshLoop conf (resourceClusterRefreshFunc name projectID conn) reads nf 0 last w
  = (Fail (resourceError (resource.TimeoutError
             (match reads with O => last | S _ => s end)
             (resource.Timeout conf) (resource.Target conf))),
     {| data := data w; calls := calls w ++ replicate reads (CallGet projectID name) |}).
Proof.
  induction reads as [|reads IH]; intros nf last w Ht Hc Hne Hin Hstay.
  - simpl. rewrite app_nil_r. by destruct w.
  - destruct (Hstay (calls w)) as (c & resp & Hget & Hs).
    rewrite refreshLoop_S.
    rewrite (refreshPass_pending _ _ _ _ _ _ _ _ _ Ht Hc Hget) by (rewrite Hs; done).
    rewrite IH by done. rewrite Hs. unfold afterGet. cbn [data calls].
    rewrite <- app_assoc. destruct reads; reflexivity.
Qed.

(** X3. A cluster that stays in one pending state is read as often as the
    timeout allows, and the poll then fails with the timeout error that
    names that state; the store is untouched and every call is the Get of
    this cluster. *)
Theorem pending_forever_times_out conn name projectID d conf w s :
  conf ∈ sourceConfs d →
  s ∉ resource.Target conf →
  s ∈ resource.Pending conf →
  (∀ h, ∃ c resp, Clusters_Get conn h projectID name = (Some c, resp, None) ∧
                   matlas.StateName c = s) →
  (0 < reads_within conf)%nat →
  WaitForState conf (resourceClusterRefreshFunc name projectID conn) w
  = (Fail (resourceError (resource.TimeoutError s (resource.Timeout conf)
                            (resource.Target conf))),
     {| data := data w;
        calls := calls w ++ replicate (reads_within conf) (CallGet projectID name) |}).
Proof.
  intros Hconf Htarget Hpending Hstay Hreads.
  destruct (sourceConfs_shape d conf Hconf) as (target & Ht & Hn & Hc & Hp).
  unfold WaitForState.
  rewrite (refreshLoop_stays_pending conn name projectID (withDefaults conf) target s
             _ _ _ _ Ht Hc).
  - destruct (reads_within conf); [lia | reflexivity].
  - rewrite Ht in Htarget. intros ->. apply Htarget. constructor.
  - exact Hpending.
  - exact Hstay.
Qed.

(** The loop reads no more often than it is given reads. *)
Lemma refreshLoop_calls_bound conf conn name projectID reads : ∀ nf occ last w r w',
  refreshLoop conf (resourceClusterRefreshFunc name projectID conn) reads nf occ last w
  = (r, w') →
  ∃ n, (n ≤ reads)%nat ∧ calls w' = calls w ++ replicate n (CallGet projectID name).
Proof.
  induction reads as [|reads IH]; intros nf occ last w r w'; cbn [refreshLoop].
  - intros [= <- <-]. exists 0%nat. split; [lia|]. simpl. by rewrite app_nil_r.
  - destruct (refreshPass _ _ nf occ w) as [p w1] eqn:Hp.
    apply refreshPass_calls in Hp.
    destruct p; try (intros [= <- <-]; exists 1%nat; split; [lia | exact Hp]).
    intros Hl. apply IH in Hl as (m & Hm & Hcalls). exists (S m). split; [lia|].
    rewrite Hcalls, Hp, <- app_assoc. reflexivity.
Qed.

(** X4. Whatever the remote API answers, a poll leaves the store as it
    was and adds nothing but Gets of its own cluster to the calls, at most
    as many as fit into the timeout. *)
Theorem poll_only_reads conn name projectID conf w :
  let end_ := (WaitForState conf (resourceClusterRefreshFunc name projectID conn) w).2 in
  data end_ = data w ∧
  ∃ n, (n ≤ reads_within conf)%nat ∧
       calls end_ = calls w ++ replicate n (CallGet projectID name).
Proof.
  intros end_. subst end_.
  destruct (WaitForState conf _ w) as [r w'] eqn:Hrun. cbn [snd]. split.
  - exact (WaitForState_data _ _ _ _ _ _ _ Hrun).
  - exact (refreshLoop_calls_bound _ _ _ _ _ _ _ _ _ _ _ Hrun).
Qed.

(** ** What the resource functions leave alone *)

Lemma sameBut_written_refl d : sameBut_written d d.
Proof. repeat split. Qed.

Lemma sameBut_written_trans d1 d2 d3 :
  sameBut_written d1 d2 → sameBut_written d2 d3 → sameBut_written d1 d3.
Proof. unfold sameBut_written. intros (?&?&?&?) (?&?&?&?). repeat split; congruence. Qed.

Lemma sameBut_written_Set d key v : sameBut_written d (Set' d key v).1.
Proof.
  unfold Set'. destruct (lookup_schema _ key); [|apply sameBut_written_refl].
  destruct v; [destruct (decide _)|]; repeat split.
Qed.

Lemma writesOnly_ret {A} (a : A) : writesOnly (ret a).
Proof. intros w r w' [= <- <-]. apply sameBut_written_refl. Qed.

Lemma writesOnly_bind {A B} (m : M A) (k : A → M B) :
  writesOnly m → (∀ a, writesOnly (k a)) → writesOnly (bind m k).
Proof.
  intros Hm Hk w r w'. unfold bind.
  destruct (m w) as [[a|e|] w1] eqn:Hmw; apply Hm in Hmw.
  - intros Hkw. apply Hk in Hkw. eapply sameBut_written_trans; eauto.
  - intros [= <- <-]. exact Hmw.
  - intros [= <- <-]. exact Hmw.
Qed.

Lemma writesOnly_set_or_return key v wrap : writesOnly (set_or_return key v wrap).
Proof.
  intros w r w'. unfold set_or_return.
  pose proof (sameBut_written_Set (data w) key v) as Hs.
  destruct (Set' (data w) key v) as [d' [err|]]; intros [= <- <-].
  - apply sameBut_written_refl.
  - exact Hs.
Qed.

Lemma writesOnly_set_or_log key v : writesOnly (set_or_log key v).
Proof. intros w r w' [= <- <-]. apply sameBut_written_Set. Qed.

Lemma writesOnly_flattenProviderSettings settings :
  writesOnly (flattenProviderSettings settings).
Proof.
  unfold flattenProviderSettings.
  repeat (apply writesOnly_bind; [apply writesOnly_set_or_log | intros _]).
  apply writesOnly_set_or_log.
Qed.

Lemma writesOnly_setCluster clusterName cluster : writesOnly (setCluster clusterName cluster).
Proof.
  unfold setCluster.
  repeat (apply writesOnly_bind; [|intros _]);
    try case_match;
    first [ apply writesOnly_set_or_return | apply writesOnly_ret
          | apply writesOnly_flattenProviderSettings ].
Qed.

Lemma writesOnly_read conn : writesOnly (resourceMongoDBAtlasClusterRead conn).
Proof.
  intros w r w'.
  unfold resourceMongoDBAtlasClusterRead, bind, get_data, call. cbn [data calls].
  destruct (Clusters_Get conn (calls w) _ _) as [[cluster resp] [e|]].
  - destruct resp as [rp|]; [destruct (decide _)|]; intros [= <- <-];
      apply sameBut_written_refl.
  - destruct cluster as [cluster|]; [|intros [= <- <-]; apply sameBut_written_refl].
    intros Hsets. apply writesOnly_setCluster in Hsets. exact Hsets.
Qed.

(** X5. Read and Update change written attributes only: the identifier,
    the prior state, the plan and the timeouts of the store come out as
    they went in, whatever the outcome. *)
Theorem read_and_update_write_attributes_only conn w :
  sameBut_written (data w) (data (resourceMongoDBAtlasClusterRead conn w).2) ∧
  sameBut_written (data w) (data (resourceMongoDBAtlasClusterUpdate conn w).2).
Proof.
  split.
  - destruct (resourceMongoDBAtlasClusterRead conn w) as [r w'] eqn:Hrun.
    exact (writesOnly_read conn w r w' Hrun).
  - destruct (resourceMongoDBAtlasClusterUpdate conn w) as [r w'] eqn:Hrun. cbn [snd].
    revert Hrun.
    unfold resourceMongoDBAtlasClusterUpdate, bind at 1, get_data. cbn [data calls].
    destruct (if HasChange (data w) "replication_specs" then _ else _) as [rs [err|]].
    + intros [= <- <-]. apply sameBut_written_refl.
    + change (reflect.DeepEqual (AnyClusterPtr _) (AnyCluster _)) with false.
      cbn [negb]. unfold bind, call. cbn [data calls].
      destruct (Clusters_Update conn (calls w) _ _ _) as [[c resp] [err|]]; cbn [snd].
      * intros [= <- <-]. apply sameBut_written_refl.
      * unfold ret.
        destruct (WaitForState _ _ _) as [[res| |] w1] eqn:Hw;
          apply WaitForState_data in Hw; cbn [data] in Hw.
        -- intros Hr. apply writesOnly_read in Hr. rewrite Hw in Hr. exact Hr.
        -- intros [= <- <-]. rewrite Hw. apply sameBut_written_refl.
        -- intros [= <- <-]. rewrite Hw. apply sameBut_written_refl.
Qed.

(** Delete, step by step. *)
Lemma delete_run conn d cs :
  let w1 := {| data := d;
               calls := cs ++ [CallDelete (projectID_of d) (clusterName_of d)] |} in
  resourceMongoDBAtlasClusterDelete conn {| data := d; calls := cs |}
  = match (Clusters_Delete conn cs (projectID_of d) (clusterName_of d)).2 with
    | Some err => (Fail (Errorf errorDelete [clusterName_of d; Error err]), w1)
    | None =>
        match WaitForState deleteStateConf
                (resourceClusterRefreshFunc (clusterName_of d) (projectID_of d) conn) w1 with
        | (Fail err, w') => (Fail (Errorf errorDelete [clusterName_of d; Error err]), w')
        | (Panic, w') => (Panic, w')
        | (Return _, w') => (Return tt, w')
        end
    end.
Proof.
  unfold resourceMongoDBAtlasClusterDelete, bind, get_data, call. cbn [data calls].
  fold (projectID_of d) (clusterName_of d).
  destruct (Clusters_Delete conn cs _ _) as [resp [cause|]]; reflexivity.
Qed.

(** X6. Delete never touches the store. It returns normally exactly when
    the remote Delete call is accepted and the poll that follows returns;
    when the Delete call is refused, no other call is issued. *)
Theorem delete_keeps_the_store conn d cs :
  let run := resourceMongoDBAtlasClusterDelete conn {| data := d; calls := cs |} in
  let w1 := {| data := d;
               calls := cs ++ [CallDelete (projectID_of d) (clusterName_of d)] |} in
  data run.2 = d ∧
  (run.1 = Return tt ↔
     (Clusters_Delete conn cs (projectID_of d) (clusterName_of d)).2 = None ∧
     ∃ res, (WaitForState deleteStateConf
               (resourceClusterRefreshFunc (clusterName_of d) (projectID_of d) conn) w1).1
            = Return res) ∧
  ((Clusters_Delete conn cs (projectID_of d) (clusterName_of d)).2 ≠ None →
     calls run.2 = cs ++ [CallDelete (projectID_of d) (clusterName_of d)]).
Proof.
  intros run w1. subst run. rewrite delete_run. fold w1.
  destruct (Clusters_Delete conn cs _ _).2 as [err|] eqn:Hdel.
  - cbn [fst snd data calls]. split; [reflexivity|]. split; [|reflexivity].
    split; [discriminate | intros [? _]; discriminate].
  - destruct (WaitForState _ _ w1) as [[res| |] w'] eqn:Hw;
      pose proof (WaitForState_data _ _ _ _ _ _ _ Hw) as Hd; cbn [fst snd data] in *.
    + split; [exact Hd|]. split; [|done]. split; [eauto | reflexivity].
    + split; [exact Hd|]. split; [|done].
      split; [discriminate | intros [_ [? ?]]; discriminate].
    + split; [exact Hd|]. split; [|done].
      split; [discriminate | intros [_ [? ?]]; discriminate].
Qed.

(** X7. A read that fails has written nothing: the store is as before,
    the one call is its Get, that Get returned an error, and its response,
    if any, was not a 404. *)
Theorem read_failure_leaves_store conn d cs e w' :
  resourceMongoDBAtlasClusterRead conn {| data := d; calls := cs |} = (Fail e, w') →
  w' = {| data := d; calls := cs ++ [CallGet (projectID_of d) (clusterName_of d)] |} ∧
  ∃ cause, (Clusters_Get conn cs (projectID_of d) (clusterName_of d)).2 = Some cause ∧
    ∀ resp, (Clusters_Get conn cs (projectID_of d) (clusterName_of d)).1.2 = Some resp →
            matlas.StatusCode resp ≠ 404.
Proof.
  unfold resourceMongoDBAtlasClusterRead, bind, get_data, call. cbn [data calls].
  fold (projectID_of d) (clusterName_of d).
  destruct (Clusters_Get conn cs _ _) as [[cluster resp] [cause|]]; cbn [fst snd].
  - destruct resp as [rp|]; [destruct (decide _) as [|Hne]|]; intros [= <- <-];
      (split; [reflexivity|]); exists cause; (split; [reflexivity|]).
    + intros ? [= <-]. exact Hne.
    + intros ? [=].
  - destruct cluster as [cluster|]; [|discriminate].
    intros Hsets.
    destruct (succeeds_setCluster (clusterName_of d) cluster
                {| data := d; calls := cs ++ [CallGet (projectID_of d) (clusterName_of d)] |})
      as [w2 Hok].
    rewrite Hok in Hsets. discriminate.
Qed.

(** X8. Once the Create call is accepted and the poll returns, the
    identifier is set from the id and name the Create call returned and
    the project of the configuration, also when the closing read fails. *)
Theorem create_records_identity conn d cs cluster resp res wp :
  createValid d = true →
  let projectID := get_string d "project_id" in
  let w1 := {| data := d; calls := cs ++ [CallCreate projectID (createRequest d)] |} in
  Clusters_Create conn cs projectID (createRequest d) = (Some cluster, resp, None) →
  WaitForState (createStateConf d)
    (resourceClusterRefreshFunc (get_string d "name") projectID conn) w1 = (Return res, wp) →
  Id (data (resourceMongoDBAtlasClusterCreate conn {| data := d; calls := cs |}).2)
  = encodeStateID {[ "cluster_id" := matlas.ID cluster;
                     "project_id" := projectID;
                     "cluster_name" := matlas.Name cluster ]}.
Proof.
  intros Hvalid projectID w1 Hcreate Hpoll.
  rewrite (create_valid conn d cs Hvalid). fold projectID w1.
  rewrite Hcreate, Hpoll.
  destruct (resourceMongoDBAtlasClusterRead conn _) as [r w'] eqn:Hread.
  apply writesOnly_read in Hread as (Hid & _). cbn [snd]. unfold Id. rewrite Hid.
  reflexivity.
Qed.

(** ** The calls of the mutating functions *)

Lemma onlyGets_replicate n projectID name : onlyGets (replicate n (CallGet projectID name)).
Proof. apply Forall_replicate. eauto. Qed.

Lemma poll_calls conf conn name projectID w r w' :
  WaitForState conf (resourceClusterRefreshFunc name projectID conn) w = (r, w') →
  ∃ rest, calls w' = calls w ++ rest ∧ onlyGets rest.
Proof.
  intros Hrun. apply refreshLoop_calls in Hrun as [n Hn].
  eexists. split; [exact Hn | apply onlyGets_replicate].
Qed.

Lemma read_onlyGets conn w r w' :
  resourceMongoDBAtlasClusterRead conn w = (r, w') →
  ∃ rest, calls w' = calls w ++ rest ∧ onlyGets rest.
Proof.
  intros Hrun. apply read_calls in Hrun. eexists. split; [exact Hrun|].
  apply Forall_singleton. eauto.
Qed.

Lemma onlyGets_app l1 l2 : onlyGets l1 → onlyGets l2 → onlyGets (l1 ++ l2).
Proof. apply Forall_app_2. Qed.

(** X9. The call protocol: an update starts with its Update call, a
    delete with its Delete call, a create of a valid configuration with
    its Create call, each followed by Gets only; a create of an invalid
    configuration issues no call. *)
Theorem one_mutation_then_reads conn d cs :
  let w := {| data := d; calls := cs |} in
  (∃ rest,
     calls (resourceMongoDBAtlasClusterUpdate conn w).2
     = cs ++ CallUpdate (projectID_of d) (clusterName_of d)
               (updateRequest d (updateSpecs d)) :: rest ∧
     onlyGets rest) ∧
  (∃ rest,
     calls (resourceMongoDBAtlasClusterDelete conn w).2
     = cs ++ CallDelete (projectID_of d) (clusterName_of d) :: rest ∧
     onlyGets rest) ∧
  (if createValid d
   then ∃ rest,
          calls (resourceMongoDBAtlasClusterCreate conn w).2
          = cs ++ CallCreate (get_string d "project_id") (createRequest d) :: rest ∧
          onlyGets rest
   else calls (resourceMongoDBAtlasClusterCreate conn w).2 = cs).
Proof.
  intros w. subst w. split; [|split].
  - pose proof (updateSpecs_no_error d) as Hspecs. unfold updateSpecs.
    unfold resourceMongoDBAtlasClusterUpdate, bind at 1, get_data. cbn [data calls].
    fold (projectID_of d) (clusterName_of d).
    destruct (if HasChange d "replication_specs" then _ else _) as [rs er].
    cbn [snd] in Hspecs. subst er. cbn [fst].
    change (reflect.DeepEqual (AnyClusterPtr _) (AnyCluster _)) with false.
    cbn [negb]. unfold bind, call. cbn [data calls].
    destruct (Clusters_Update conn cs _ _ _) as [[c resp] [err|]]; cbn [snd].
    + exists []. split; [reflexivity | constructor].
    + unfold ret.
      destruct (WaitForState _ _ _) as [[res| |] w1] eqn:Hw;
        apply poll_calls in Hw as (rest & Hcalls & Hgets); cbn [calls] in Hcalls.
      * destruct (resourceMongoDBAtlasClusterRead conn w1) as [r w2] eqn:Hr.
        apply read_onlyGets in Hr as (rest' & Hcalls' & Hgets').
        exists (rest ++ rest'). cbn [snd]. split; [|by apply onlyGets_app].
        rewrite Hcalls', Hcalls, <- !app_assoc. reflexivity.
      * exists rest. cbn [snd]. split; [|exact Hgets].
        rewrite Hcalls, <- app_assoc. reflexivity.
      * exists rest. cbn [snd]. split; [|exact Hgets].
        rewrite Hcalls, <- app_assoc. reflexivity.
  - rewrite delete_run.
    destruct (Clusters_Delete conn cs _ _).2 as [err|].
    + exists []. split; [reflexivity | constructor].
    + destruct (WaitForState _ _ _) as [[res| |] w1] eqn:Hw;
        apply poll_calls in Hw as (rest & Hcalls & Hgets); cbn [calls] in Hcalls;
        exists rest; cbn [snd]; (split; [|exact Hgets]);
        rewrite Hcalls, <- app_assoc; reflexivity.
  - destruct (createValid d) eqn:Hvalid.
    + rewrite (create_valid conn d cs Hvalid).
      destruct (Clusters_Create conn cs _ _) as [[cluster resp] [err|]].
      * exists []. split; [reflexivity | constructor].
      * destruct (WaitForState _ _ _) as [[res| |] w1] eqn:Hw;
          apply poll_calls in Hw as (rest & Hcalls & Hgets); cbn [calls] in Hcalls.
        -- destruct cluster as [cluster|].
           ++ destruct (resourceMongoDBAtlasClusterRead conn _) as [r w2] eqn:Hr.
              apply read_onlyGets in Hr as (rest' & Hcalls' & Hgets').
              cbn [calls] in Hcalls'.
              exists (rest ++ rest'). cbn [snd]. split; [|by apply onlyGets_app].
              rewrite Hcalls', Hcalls, <- !app_assoc. reflexivity.
           ++ exists rest. cbn [snd]. split; [|exact Hgets].
              rewrite Hcalls, <- app_assoc. reflexivity.
        -- exists rest. cbn [snd]. split; [|exact Hgets].
           rewrite Hcalls, <- app_assoc. reflexivity.
        -- exists rest. cbn [snd]. split; [|exact Hgets].
           rewrite Hcalls, <- app_assoc. reflexivity.
    + destruct (create_invalid conn d cs Hvalid) as [msg ->]. reflexivity.
Qed.

(** ** What a read records *)

Ltac accepted :=
  first [ reflexivity
        | match goal with |- accepts _ (_ <$> ?o) = true => destruct o; reflexivity end ].

Ltac run_writes :=
  repeat first [ rewrite bind_set_or_return by accepted; cbn [data calls]
               | rewrite bind_bind
               | rewrite bind_set_or_log; cbn [data calls]
               | rewrite bind_ret ].

Ltac reread :=
  repeat first [ rewrite Get_Set_eq by accepted
               | rewrite Get_Set_ne by done ].

(** The regions of a flattened map, whatever the order of the range. *)
Lemma flattenRegionsConfig_Permutation regionsConfig :
  flattenRegionsConfig regionsConfig ≡ₚ flattenRegion <$> map_to_list regionsConfig.
Proof.
  unfold flattenRegionsConfig. rewrite rangeOrder_Permutation.
  apply Permutation_refl'. apply list_fmap_ext. intros i [] _. reflexivity.
Qed.

Lemma flattenRegionsConfig_names regionsConfig :
  region_name <$> flattenRegionsConfig regionsConfig ≡ₚ (map_to_list regionsConfig).*1.
Proof.
  rewrite flattenRegionsConfig_Permutation, <- list_fmap_compose. reflexivity.
Qed.



(** The attributes a successful read computes from the remote cluster. *)
Lemma setCluster_records d cs name cluster :
  ∃ d',
    setCluster name cluster {| data := d; calls := cs |}
    = (Return tt, {| data := d'; calls := cs |}) ∧
    Get d' "cluster_id" = Some (VString (matlas.ID cluster)) ∧
    Get d' "state_name" = Some (VString (matlas.StateName cluster)) ∧
    Get d' "mongo_db_version" = Some (VString (matlas.MongoDBVersion cluster)) ∧
    Get d' "mongo_uri" = Some (VString (matlas.MongoURI cluster)) ∧
    Get d' "mongo_uri_updated" = Some (VString (matlas.MongoURIUpdated cluster)) ∧
    Get d' "mongo_uri_with_options" = Some (VString (matlas.MongoURIWithOptions cluster)) ∧
    Get d' "srv_address" = Some (VString (matlas.SrvAddress cluster)) ∧
    Get d' "paused" = Some (VBool (default false (matlas.Paused cluster))) ∧
    Get d' "cluster_type" = Some (VString (matlas.ClusterType cluster)) ∧
    Get d' "encryption_at_rest_provider"
    = Some (VString (matlas.EncryptionAtRestProvider cluster)) ∧
    Get d' "backup_enabled" = Some (VBool (default false (matlas.BackupEnabled cluster))) ∧
    Get d' "replication_factor"
    = Some (VInt (default 0 (matlas.ReplicationFactor cluster))) ∧
    Get d' "bi_connector"
    = Some (VMap (flattenBiConnector (matlas.Cluster_BiConnector cluster))) ∧
    Get d' "replication_specs"
    = Some (VList (storedSpec <$> flattenReplicationSpecs (matlas.ReplicationSpecs cluster))) ∧
    Get d' "project_id" = Get d "project_id" ∧
    Get d' "name" = Get d "name" ∧
    Get d' "num_shards"
    = match matlas.NumShards cluster with
      | Some n => Some (VInt n)
      | None => Get d "num_shards"
      end ∧
    (matlas.Cluster_ProviderSettings cluster = None →
     Forall (λ key, Get d' key = Get d key)
       [ "backing_provider_name"; "provider_disk_iops"; "provider_disk_type_name";
         "provider_encrypt_ebs_volume"; "provider_instance_size_name"; "provider_name";
         "provider_region_name"; "provider_volume_type" ]).
Proof.
  unfold setCluster, flattenProviderSettings.
  destruct (matlas.NumShards cluster) as [n|];
    destruct (matlas.Cluster_ProviderSettings cluster) as [settings|].
  all: eexists; split;
    [ run_writes;
      rewrite set_or_return_accepts by accepted; cbn [data calls]; reflexivity |].
  all: repeat split; try discriminate; reread; try reflexivity.
  all: try (match goal with
            | |- typed _ _ (_ <$> (_ <$> ?o)) = _ => destruct o; reflexivity
            end).
  all: intros _; repeat apply Forall_cons_2; try apply Forall_nil_2; reread; reflexivity.
Qed.

Lemma read_found conn d cs cluster resp :
  Clusters_Get conn cs (projectID_of d) (clusterName_of d) = (Some cluster, resp, None) →
  resourceMongoDBAtlasClusterRead conn {| data := d; calls := cs |}
  = setCluster (clusterName_of d) cluster
      {| data := d; calls := cs ++ [CallGet (projectID_of d) (clusterName_of d)] |}.
Proof.
  intros Hget.
  unfold resourceMongoDBAtlasClusterRead, bind, get_data, call. cbn [data calls].
  fold (projectID_of d) (clusterName_of d). rewrite Hget. reflexivity.
Qed.


(** X11. What a successful read keeps: [project_id] and [name] always,
    [num_shards] when the remote cluster reports none, and the eight
    provider attributes when it reports no provider settings. *)
Theorem read_keeps_unreported_attributes conn d cs cluster resp :
  Clusters_Get conn cs (projectID_of d) (clusterName_of d) = (Some cluster, resp, None) →
  let d' := data (resourceMongoDBAtlasClusterRead conn {| data := d; calls := cs |}).2 in
  Get d' "project_id" = Get d "project_id" ∧
  Get d' "name" = Get d "name" ∧
  (matlas.NumShards cluster = None → Get d' "num_shards" = Get d "num_shards") ∧
  (matlas.Cluster_ProviderSettings cluster = None →
   Forall (λ key, Get d' key = Get d key)
     [ "backing_provider_name"; "provider_disk_iops"; "provider_disk_type_name";
       "provider_encrypt_ebs_volume"; "provider_instance_size_name"; "provider_name";
       "provider_region_name"; "provider_volume_type" ]).
Proof.
  intros Hget d'. subst d'. rewrite (read_found _ _ _ _ _ Hget).
  destruct (setCluster_records d (cs ++ [CallGet (projectID_of d) (clusterName_of d)])
              (clusterName_of d) cluster)
    as (d' & -> & _ & _ & _ & _ & _ & _ & _ & _ & _ & _ & _ & _ & _ & _
        & Hp & Hn & Hs & Hprov).
  cbn [snd data]. split; [exact Hp|]. split; [exact Hn|]. split; [|exact Hprov].
  intros Hnone. rewrite Hs, Hnone. reflexivity.
Qed.

(** ** The translators, from the remote side *)

(** X12. Every entry of a flattened BI connector is either [enabled],
    holding the text of the boolean, for a connector whose flag is not
    nil, or [read_preference], holding a non-empty preference. *)
Theorem flattenBiConnector_entries biConnector key text :
  flattenBiConnector biConnector !! key = Some text →
  (key = "enabled" ∧
   ∃ enabled, matlas.Enabled biConnector = Some enabled ∧
              text = strconv.FormatBool enabled) ∨
  (key = "read_preference" ∧ text = matlas.ReadPreference biConnector ∧ text ≠ "").
Proof.
  unfold flattenBiConnector.
  destruct (matlas.Enabled biConnector) as [enabled|];
    destruct (decide (matlas.ReadPreference biConnector ≠ "")) as [Hrp|Hrp];
    intros Hl.
  - apply lookup_insert_Some in Hl as [[<- <-] | [_ Hl]]; [right; done|].
    apply lookup_insert_Some in Hl as [[<- <-] | [_ Hl]]; [left; eauto|].
    by rewrite lookup_empty in Hl.
  - apply lookup_insert_Some in Hl as [[<- <-] | [_ Hl]]; [left; eauto|].
    by rewrite lookup_empty in Hl.
  - apply lookup_insert_Some in Hl as [[<- <-] | [_ Hl]]; [right; done|].
    by rewrite lookup_empty in Hl.
  - by rewrite lookup_empty in Hl.
Qed.

(** X13. Expanding a stored BI connector that was flattened from the
    remote one gives the remote one back, provided its flag is not nil or
    it is the zero connector. *)
Theorem expand_flattened_bi_connector d biConnector :
  Get d "bi_connector" = Some (VMap (flattenBiConnector biConnector)) →
  matlas.Enabled biConnector ≠ None ∨ biConnector = matlas.BiConnector_zero →
  expandBiConnector d = (biConnector, None).
Proof.
  intros Hget Hshape. unfold expandBiConnector, GetOk. rewrite Hget.
  destruct biConnector as [[enabled|] rp]; cbn [matlas.Enabled] in Hshape.
  - unfold flattenBiConnector. cbn [matlas.Enabled matlas.ReadPreference].
    destruct (decide (rp ≠ "")) as [Hrp|Hrp].
    + assert (is_zero (VMap (<["read_preference" := rp]>
                (<["enabled" := strconv.FormatBool enabled]> ∅))) = false) as ->.
      { apply bool_decide_eq_false_2. intros Heq.
        pose proof (f_equal (λ v, match v with VMap m => m !! "enabled" | _ => None end) Heq)
          as Hl.
        cbv beta iota in Hl. cbn [type_of Zero] in Hl.
        rewrite lookup_insert_ne, lookup_insert_eq, lookup_empty in Hl by done.
        discriminate. }
      cbn [negb]. rewrite lookup_insert_ne, !lookup_insert_eq by done.
      cbn [cast_ToString default]. by destruct enabled.
    + assert (rp = "") as -> by (by destruct (decide (rp = "")); [|exfalso; auto]).
      assert (is_zero (VMap (<["enabled" := strconv.FormatBool enabled]> ∅)) = false) as ->.
      { apply bool_decide_eq_false_2. intros Heq.
        pose proof (f_equal (λ v, match v with VMap m => m !! "enabled" | _ => None end) Heq)
          as Hl.
        cbv beta iota in Hl. cbn [type_of Zero] in Hl.
        rewrite lookup_insert_eq, lookup_empty in Hl. discriminate. }
      cbn [negb]. rewrite lookup_insert_eq, lookup_insert_ne, lookup_empty by done.
      cbn [cast_ToString default]. by destruct enabled.
  - destruct Hshape as [Hne | Hzero]; [done|]. injection Hzero as ->. reflexivity.
Qed.

(** X14. Expanding the provider settings right after they were flattened
    into the store gives them back with the texts unchanged and the two
    pointers no longer nil: a nil [DiskIOPS] becomes 0 and a nil
    [EncryptEBSVolume] becomes false. *)
Theorem expand_flattened_provider_settings settings w :
  expandProviderSetting (data (flattenProviderSettings settings w).2)
  = {| matlas.BackingProviderName := matlas.BackingProviderName settings;
       matlas.DiskIOPS := Some (default 0 (matlas.DiskIOPS settings));
       matlas.DiskTypeName := matlas.DiskTypeName settings;
       matlas.EncryptEBSVolume := Some (default false (matlas.EncryptEBSVolume settings));
       matlas.InstanceSizeName := matlas.InstanceSizeName settings;
       matlas.ProviderName := matlas.ProviderName settings;
       matlas.RegionName := matlas.RegionName settings;
       matlas.VolumeType := matlas.VolumeType settings |}.
Proof.
  unfold flattenProviderSettings, bind, set_or_log. cbn [fst snd data calls].
  unfold expandProviderSetting, get_string, get_int, get_bool.
  repeat first
    [ rewrite Get_Set_eq
        by first [ reflexivity
                 | match goal with
                   | |- accepts _ (_ <$> ?o) = true => destruct o; reflexivity
                   end ]
    | rewrite Get_Set_ne by done ].
  destruct (matlas.DiskIOPS settings), (matlas.EncryptEBSVolume settings); reflexivity.
Qed.

(** ** The replication topology, from both sides *)

Lemma expandRegionsConfig_snoc regions region :
  (expandRegionsConfig (regions ++ [region])).1
  = <[region_name region := (expandRegion region).2]> (expandRegionsConfig regions).1.
Proof. unfold expandRegionsConfig. cbn [fst]. rewrite foldl_app. reflexivity. Qed.

Lemma expandRegionsConfig_lookup_None regions name :
  name ∉ region_name <$> regions → (expandRegionsConfig regions).1 !! name = None.
Proof.
  induction regions as [|region regions IH] using rev_ind; intros Hname.
  - apply lookup_empty.
  - rewrite expandRegionsConfig_snoc. rewrite fmap_app in Hname.
    apply not_elem_of_app in Hname as [Hname Hregion].
    rewrite lookup_insert_ne.
    + apply IH, Hname.
    + intros Heq. apply Hregion. rewrite <- Heq. constructor.
Qed.

Lemma expandRegionsConfig_lookup_last before region after :
  region_name region ∉ region_name <$> after →
  (expandRegionsConfig (before ++ region :: after)).1 !! region_name region
  = Some (expandRegion region).2.
Proof.
  intros Hlast.
  induction after as [|r after IH] using rev_ind.
  - rewrite expandRegionsConfig_snoc. apply lookup_insert_eq.
  - rewrite fmap_app in Hlast. apply not_elem_of_app in Hlast as [Hafter Hr].
    replace (before ++ region :: after ++ [r]) with ((before ++ region :: after) ++ [r])
      by (by rewrite <- app_assoc).
    rewrite expandRegionsConfig_snoc, lookup_insert_ne.
    + apply IH, Hafter.
    + intros Heq. apply Hr. rewrite <- Heq. constructor.
Qed.

(** X15. [expandRegionsConfig] never fails and keys the regions by name:
    a name that no region carries is absent from the map, and the entry
    under a name holds the four counters of the last region of that
    name. *)
Theorem expandRegionsConfig_by_name regions name :
  (expandRegionsConfig regions).2 = None ∧
  (name ∉ region_name <$> regions → (expandRegionsConfig regions).1 !! name = None) ∧
  ∀ before region after,
    regions = before ++ region :: after → region_name region = name →
    name ∉ region_name <$> after →
    (expandRegionsConfig regions).1 !! name
    = Some {| matlas.AnalyticsNodes := Some (analytics_nodes region);
              matlas.ElectableNodes := Some (electable_nodes region);
              matlas.Priority := Some (priority region);
              matlas.ReadOnlyNodes := Some (read_only_nodes region) |}.
Proof.
  split; [reflexivity|]. split; [apply expandRegionsConfig_lookup_None|].
  intros before region after -> <- Hlast.
  by apply expandRegionsConfig_lookup_last.
Qed.

(** X16. [flattenRegionsConfig] yields one region per entry of the map:
    the names are distinct, there are as many regions as entries, and a
    name occurs exactly when the map has it. *)
Theorem flattenRegionsConfig_one_per_name (regionsConfig : gmap string matlas.RegionsConfig) :
  NoDup (region_name <$> flattenRegionsConfig regionsConfig) ∧
  length (flattenRegionsConfig regionsConfig) = size regionsConfig ∧
  ∀ name, name ∈ region_name <$> flattenRegionsConfig regionsConfig ↔
          is_Some (regionsConfig !! name).
Proof.
  pose proof (flattenRegionsConfig_names regionsConfig) as Hnames.
  split; [rewrite Hnames; apply NoDup_fst_map_to_list|]. split.
  - apply Permutation_length in Hnames. rewrite !length_fmap in Hnames.
    rewrite Hnames. apply length_map_to_list.
  - intros name. rewrite Hnames, list_elem_of_fmap. split.
    + intros [[k v] [-> Hin]]. apply elem_of_map_to_list in Hin. eauto.
    + intros [v Hv]. exists (name, v). split; [done|]. by apply elem_of_map_to_list.
Qed.

(** Regions of distinct names expand to the same map in any order. *)
Lemma expandRegionsConfig_lookup_elem regions region :
  NoDup (region_name <$> regions) → region ∈ regions →
  (expandRegionsConfig regions).1 !! region_name region = Some (expandRegion region).2.
Proof.
  intros Hnd Hin. apply list_elem_of_split in Hin as (before & after & ->).
  apply expandRegionsConfig_lookup_last.
  rewrite fmap_app, fmap_cons in Hnd. apply NoDup_app in Hnd as (_ & _ & Hnd).
  by apply NoDup_cons in Hnd as [Hlast _].
Qed.

Lemma expandRegionsConfig_Permutation regions regions' :
  NoDup (region_name <$> regions) → regions ≡ₚ regions' →
  expandRegionsConfig regions = expandRegionsConfig regions'.
Proof.
  intros Hnd Hperm.
  assert (NoDup (region_name <$> regions')) as Hnd' by (by rewrite <- Hperm).
  rewrite (surjective_pairing (expandRegionsConfig regions)),
          (surjective_pairing (expandRegionsConfig regions')).
  f_equal. apply map_eq. intros name.
  destruct (decide (name ∈ region_name <$> regions)) as [Hin | Hout].
  - apply list_elem_of_fmap in Hin as [region [-> Hin]].
    rewrite (expandRegionsConfig_lookup_elem regions region Hnd Hin).
    rewrite Hperm in Hin.
    by rewrite (expandRegionsConfig_lookup_elem regions' region Hnd' Hin).
  - rewrite (expandRegionsConfig_lookup_None regions name Hout).
    rewrite Hperm in Hout.
    by rewrite (expandRegionsConfig_lookup_None regions' name Hout).
Qed.

Lemma expand_flattened_regions regionsConfig :
  map_Forall (λ _ regionConfig, regionComplete regionConfig) regionsConfig →
  expandRegionsConfig (flattenRegionsConfig regionsConfig) = (regionsConfig, None).
Proof.
  intros Hcomplete.
  pose proof (flattenRegionsConfig_one_per_name regionsConfig) as [Hnd _].
  rewrite (surjective_pairing (expandRegionsConfig _)). f_equal.
  apply map_eq. intros name.
  destruct (regionsConfig !! name) as [regionConfig|] eqn:Hname.
  - assert (flattenRegion (name, regionConfig) ∈ flattenRegionsConfig regionsConfig) as Hin.
    { rewrite flattenRegionsConfig_Permutation. apply list_elem_of_fmap.
      exists (name, regionConfig). split; [done|]. by apply elem_of_map_to_list. }
    pose proof (expandRegionsConfig_lookup_elem _ _ Hnd Hin) as Hlook.
    cbn [flattenRegion region_name fst] in Hlook. rewrite Hlook.
    apply Hcomplete in Hname as (Ha & He & Hp & Hr).
    destruct regionConfig as [[a|] [e|] [p|] [r|]]; cbn in *; congruence.
  - apply expandRegionsConfig_lookup_None.
    rewrite flattenRegionsConfig_names. intros Hin.
    apply list_elem_of_fmap in Hin as [[k v] [-> Hin]].
    apply elem_of_map_to_list in Hin. cbn in Hname. congruence.
Qed.

Lemma expand_held_specs_loop v rSpecs :
  Forall2 holdsZone v rSpecs → Forall specComplete rSpecs →
  ∀ acc, expandReplicationSpecs_loop v acc = (acc ++ rSpecs, None).
Proof.
  induction 1 as [|spec rSpec v rSpecs (Hid & Hshards & Hzone & Hregions) _ IH];
    intros Hcomplete acc.
  - by rewrite app_nil_r.
  - apply Forall_cons in Hcomplete as [[Hsome Hcounters] Hcomplete].
    cbn [expandReplicationSpecs_loop].
    assert (NoDup (region_name <$> spec_regions_config spec)) as Hnd.
    { rewrite Hregions.
      apply (flattenRegionsConfig_one_per_name (matlas.ReplicationSpec_RegionsConfig rSpec)). }
    rewrite (expandRegionsConfig_Permutation _ _ Hnd Hregions).
    rewrite (expand_flattened_regions _ Hcounters).
    rewrite (IH Hcomplete), <- app_assoc. do 2 f_equal. cbn [app]. f_equal.
    rewrite Hid, Hshards, Hzone.
    destruct rSpec as [rid [shards|] zone regions]; cbn in *; congruence.
Qed.

(** X17. Expanding the replication specs of a store that holds the remote
    ones, with the regions of each zone in whatever order the store lists
    them, gives the remote ones back, with no error, when every spec
    carries its shard count and every region its four counters. *)
Theorem expand_flattened_replication_specs d v rSpecs :
  Forall specComplete rSpecs →
  Get d "replication_specs" = Some (VList v) →
  Forall2 holdsZone v rSpecs →
  expandReplicationSpecs d = (rSpecs, None).
Proof.
  intros Hcomplete Hget Hholds. unfold expandReplicationSpecs, GetOk. rewrite Hget.
  destruct Hholds as [|spec rSpec v rSpecs Hzone Hholds]; [reflexivity|].
  change (negb (is_zero (VList (spec :: v)))) with true.
  apply (expand_held_specs_loop (spec :: v) (rSpec :: rSpecs)); [|exact Hcomplete].
  by constructor.
Qed.

(** ** Import *)

Lemma HasPrefix_hyphen s :
  gostrings.HasPrefix s "-" = true → ∃ s', s = String "-"%char s'.
Proof.
  destruct s as [|a s]; [discriminate|]. simpl.
  destruct (decide (a = "-"%char)) as [->|]; [eauto | discriminate].
Qed.

Lemma Cut_Some s : ∀ before after,
  gostrings.Cut s "-" = Some (before, after) →
  s = before +:+ "-" +:+ after ∧ gostrings.Contains before "-" = false.
Proof.
  induction s as [|a s IH]; intros before after; [discriminate|].
  cbn [gostrings.Cut].
  destruct (gostrings.HasPrefix (String a s) "-") eqn:Hp.
  - apply HasPrefix_hyphen in Hp as [s' [= -> ->]].
    intros [= <- <-]. split; reflexivity.
  - destruct (gostrings.Cut s "-") as [[b' a']|] eqn:Hcut; [|discriminate].
    intros [= <- <-]. destruct (IH _ _ eq_refl) as [-> Hb]. split; [reflexivity|].
    rewrite Contains_unfold, Hb, orb_false_r.
    cbn [gostrings.HasPrefix] in Hp |- *. exact Hp.
Qed.

Lemma Cut_None s : gostrings.Cut s "-" = None → gostrings.Contains s "-" = false.
Proof.
  induction s as [|a s IH]; [reflexivity|].
  cbn [gostrings.Cut].
  destruct (gostrings.HasPrefix (String a s) "-") eqn:Hp; [discriminate|].
  destruct (gostrings.Cut s "-") as [[b' a']|] eqn:Hcut; [discriminate|].
  intros _. rewrite Contains_unfold, Hp, (IH eq_refl). reflexivity.
Qed.

Lemma SplitN_two s :
  (gostrings.Contains s "-" = false ∧ gostrings.SplitN s "-" 2 = [s]) ∨
  ∃ projectID name,
    s = projectID +:+ "-" +:+ name ∧ gostrings.Contains projectID "-" = false ∧
    gostrings.SplitN s "-" 2 = [projectID; name].
Proof.
  cbn [gostrings.SplitN].
  destruct (gostrings.Cut s "-") as [[before after]|] eqn:Hcut.
  - right. apply Cut_Some in Hcut as [-> Hb]. eauto.
  - left. apply Cut_None in Hcut. done.
Qed.

(** X18. Every outcome of an import: either the identifier has no hyphen,
    and the import fails with the format error before any call and with
    the store untouched; or the identifier is [projectID-name] with a
    hyphen-free project id, the one call is the Get of that project and
    name, and the store is either the single one returned or
    unchanged. *)
Theorem import_reads_at_most_once conn d cs r w' :
  resourceMongoDBAtlasClusterImportState conn {| data := d; calls := cs |} = (r, w') →
  (gostrings.Contains (Id d) "-" = false ∧ r = Fail importFormatError ∧
   w' = {| data := d; calls := cs |}) ∨
  ∃ projectID name,
    Id d = projectID +:+ "-" +:+ name ∧ gostrings.Contains projectID "-" = false ∧
    calls w' = cs ++ [CallGet projectID name] ∧
    ((∃ stored, r = Return [stored] ∧ data w' = stored) ∨ data w' = d).
Proof.
  intros Hrun.
  destruct (SplitN_two (Id d)) as [[Hnone Hsplit] | (projectID & name & Hid & Hfree & Hsplit)].
  - left. split; [exact Hnone|].
    unfold resourceMongoDBAtlasClusterImportState, bind at 1, get_data in Hrun.
    cbn [data calls] in Hrun. rewrite Hsplit in Hrun.
    injection Hrun as <- <-. done.
  - right. exists projectID, name. split; [exact Hid|]. split; [exact Hfree|].
    rewrite (import_split conn d cs projectID name Hsplit) in Hrun. cbv zeta in Hrun.
    destruct (Clusters_Get conn cs projectID name) as [[[u|] resp] [err|]];
      injection Hrun as <- <-; cbn [data calls]; eauto.
Qed.

(** X19. An import whose Get fails leaves the store as it was and fails
    with an error that names the import, the cluster name, the project
    and the cause. *)
Theorem import_failure_names_the_cluster conn d cs projectID name cluster resp cause :
  gostrings.SplitN (Id d) "-" 2 = [projectID; name] →
  Clusters_Get conn cs projectID name = (cluster, resp, Some cause) →
  ∃ e,
    resourceMongoDBAtlasClusterImportState conn {| data := d; calls := cs |}
    = (Fail e, {| data := d; calls := cs ++ [CallGet projectID name] |}) ∧
    names e ["import"; name; projectID; Error cause].
Proof.
  intros Hsplit Hget. rewrite (import_split conn d cs projectID name Hsplit), Hget.
  cbv zeta. cbn [calls].
  exists (Errorf "couldn't import cluster %s in project %s, error: %s"
            [name; projectID; Error cause]).
  split; [by destruct cluster|].
  unfold names, Errorf. generalize (Error cause). intros text. cbn [Error].
  change (fmt.Sprintf "couldn't import cluster %s in project %s, error: %s"
            [name; projectID; text])
    with ("couldn't import cluster " +:+ name +:+ " in project " +:+ projectID +:+
          ", error: " +:+ text +:+ "").
  repeat apply Forall_cons_2; [| | | | apply Forall_nil_2].
  - apply Contains_app_l. reflexivity.
  - apply Contains_app.
  - do 2 apply Contains_app_r. apply Contains_app.
  - do 4 apply Contains_app_r. apply Contains_app.
Qed.

(** X20. A successful import sets the identifier from the project id
    typed by the user and the id and name of the remote cluster, records
    [project_id] from the remote cluster's group id and [name] from its
    name, and leaves every other attribute as it was. *)
Theorem import_records_remote_names conn d cs projectID name u resp :
  gostrings.SplitN (Id d) "-" 2 = [projectID; name] →
  Clusters_Get conn cs projectID name = (Some u, resp, None) →
  ∃ stored,
    resourceMongoDBAtlasClusterImportState conn {| data := d; calls := cs |}
    = (Return [stored], {| data := stored; calls := cs ++ [CallGet projectID name] |}) ∧
    Id stored = encodeStateID {[ "cluster_id" := matlas.ID u;
                                 "project_id" := projectID;
                                 "cluster_name" := matlas.Name u ]} ∧
    Get stored "project_id" = Some (VString (matlas.GroupID u)) ∧
    Get stored "name" = Some (VString (matlas.Name u)) ∧
    ∀ key, key ≠ "project_id" → key ≠ "name" → Get stored key = Get d key.
Proof.
  intros Hsplit Hget. rewrite (import_split conn d cs projectID name Hsplit), Hget.
  cbv zeta. eexists. split; [reflexivity|].
  split; [reflexivity|]. split; [|split].
  - rewrite Get_Set_ne by done. by rewrite Get_Set_eq.
  - by rewrite Get_Set_eq.
  - intros key Hp Hn. rewrite !Get_Set_ne by done. reflexivity.
Qed.

(** ** The provider settings of an update *)

Lemma expandProviderSetting_not_zero d :
  reflect.DeepEqual (AnyProviderSettings (expandProviderSetting d))
                    (AnyProviderSettings matlas.ProviderSettings_zero) = false.
Proof. apply bool_decide_eq_false_2. discriminate. Qed.

(** X21. An update sends the provider settings all or none: when one of
    the eight provider attributes changed, the request carries the
    expansion of all of them, otherwise it carries no provider settings
    at all. *)
Theorem update_sends_all_provider_settings_or_none d replicationSpecs :
  matlas.Cluster_ProviderSettings (updateRequest d replicationSpecs)
  = if existsb (HasChange d) providerAttributes
    then Some (expandProviderSetting d) else None.
Proof.
  unfold updateRequest, providerAttributes.
  cbn [matlas.Cluster_ProviderSettings existsb].
  rewrite !orb_false_r.
  assert (∀ changed : bool,
    (if negb (reflect.DeepEqual
                (AnyProviderSettings
                   (if changed then expandProviderSetting d
                    else matlas.ProviderSettings_zero))
                (AnyProviderSettings matlas.ProviderSettings_zero))
     then Some (if changed then expandProviderSetting d
                else matlas.ProviderSettings_zero)
     else None)
    = if changed then Some (expandProviderSetting d) else None) as ->.
  { intros [|]; [by rewrite expandProviderSetting_not_zero | reflexivity]. }
  destruct (HasChange d "provider_disk_iops"),
           (HasChange d "provider_encrypt_ebs_volume"),
           (HasChange d "backing_provider_name"),
           (HasChange d "provider_disk_type_name"),
           (HasChange d "provider_instance_size_name"),
           (HasChange d "provider_name"),
           (HasChange d "provider_region_name"),
           (HasChange d "provider_volume_type"); reflexivity.
Qed.

End Further.

(* ===================================================================== *)
(** * The properties on concrete inputs *)
(* ===================================================================== *)

#[local] Existing Instance demo.platform.

(** C1 on two recorded clusters whose configuration did not change, one
    without and one with replication specs. *)
Lemma update_without_change_still_calls_witness :
  let plain := demo.recorded_cluster in
  let zoned := demo.wide_cluster in
  (∀ key, key ≠ "replication_specs" → HasChange plain key = false) ∧
  (∀ key, key ≠ "replication_specs" → HasChange zoned key = false) ∧
  specsOf (state zoned) = specsOf (planned zoned) ∧
  HasChange zoned "replication_specs" = true ∧
  (∃ r w' rest,
     resourceMongoDBAtlasClusterUpdate demo.creating (demo.world plain) = (r, w') ∧
     calls w' = [] ++ CallUpdate "abc123" "my-cluster" matlas.Cluster_zero :: rest) ∧
  (∃ r w' rest,
     resourceMongoDBAtlasClusterUpdate demo.creating (demo.world zoned) = (r, w') ∧
     calls w' = [] ++ CallUpdate "abc123" "my-cluster" (specsOnly [demo.wide_zone]) :: rest).
Proof.
  intros plain zoned.
  assert (∀ key, key ≠ "replication_specs" → HasChange plain key = false) as Hplain.
  { apply HasChange_unchanged_but; [reflexivity|].
    unfold plain, demo.recorded_cluster, demo.recorded, demo.config. cbn [planned].
    repeat (apply map_Forall_insert_2; [reflexivity|]).
    apply map_Forall_empty. }
  assert (∀ key, key ≠ "replication_specs" → HasChange zoned key = false) as Hzoned.
  { apply HasChange_unchanged_but; [reflexivity|].
    unfold zoned, demo.wide_cluster, demo.recorded, demo.config. cbn [planned].
    apply map_Forall_insert_2; [done|].
    repeat (apply map_Forall_insert_2; [reflexivity|]).
    apply map_Forall_empty. }
  assert (specsOf (state zoned) = specsOf (planned zoned)) as Hsame by reflexivity.
  pose proof (update_without_change_still_calls demo.creating plain [] Hplain eq_refl)
    as (_ & Hempty & _ & Hcall).
  pose proof (update_without_change_still_calls demo.creating zoned [] Hzoned Hsame)
    as (Hrequest & _ & Hspecs & Hcall').
  assert (specsOf (planned zoned) ≠ []) as Hsome by (vm_compute; discriminate).
  destruct (Hspecs Hsome) as [Hchange Hexpand].
  split; [exact Hplain|]. split; [exact Hzoned|]. split; [exact Hsame|].
  split; [exact Hchange|]. split.
  - rewrite (Hempty eq_refl) in Hcall. exact Hcall.
  - rewrite Hrequest, Hexpand in Hcall'.
    assert ((expandReplicationSpecs zoned).1 = [demo.wide_zone]) as Hzone
      by (vm_compute; reflexivity).
    rewrite Hzone in Hcall'. exact Hcall'.
Defined.

(** C2 on the poll after a delete, against a connection that is reset at
    every read. *)
Lemma reset_reads_end_the_poll_witness :
  let d := demo.recorded_cluster in
  (∀ h, ∃ c resp e,
     Clusters_Get demo.resetting h "abc123" "my-cluster" = (c, resp, Some e) ∧
     gostrings.Contains (Error e) "reset by peer" = true) ∧
  (21 < reads_within deleteStateConf)%nat ∧
  WaitForState deleteStateConf
    (resourceClusterRefreshFunc "my-cluster" "abc123" demo.resetting)
    (demo.world d)
  = (Fail (resourceError (resource.NotFoundError 21)),
     {| data := d; calls := replicate 21 (CallGet "abc123" "my-cluster") |}).
Proof.
  assert (∀ h, ∃ c resp e,
     Clusters_Get demo.resetting h "abc123" "my-cluster" = (c, resp, Some e) ∧
     gostrings.Contains (Error e) "reset by peer" = true) as Hreset.
  { intros h. do 3 eexists. split; reflexivity. }
  assert (21 < reads_within deleteStateConf)%nat as Hreads
    by (vm_compute; lia).
  split; [exact Hreset|]. split; [exact Hreads|].
  apply (reset_reads_end_the_poll demo.resetting "my-cluster" "abc123"
           demo.recorded_cluster deleteStateConf (demo.world demo.recorded_cluster)).
  - unfold sourceConfs. repeat constructor.
  - exact Hreset.
  - exact Hreads.
Defined.

(** C3, amended, on the recorded cluster and a remote API that returns its
    create request. *)
Lemma round_trip_of_create_request_witness :
  let d := demo.recorded_cluster in
  let conn := demo.returning (createRequest d) in
  Clusters_Get conn [] (projectID_of d) (clusterName_of d)
  = (Some (createRequest d), Some {| matlas.StatusCode := 200 |}, None) ∧
  ∃ d',
    resourceMongoDBAtlasClusterRead conn (demo.world d)
    = (Return tt, {| data := d';
                     calls := [CallGet (projectID_of d) (clusterName_of d)] |}) ∧
    Forall (λ key, Get d' key = Get d key) scalarAttributes.
Proof.
  intros d conn. split; [reflexivity|].
  destruct (round_trip_of_create_request conn d [] _ eq_refl)
    as (d' & Hrun & Hscalar & _).
  exists d'. split; [exact Hrun | exact Hscalar].
Defined.

(** C3 as stated fails: a [bi_connector] that sets a read preference only
    comes back with [enabled] added. *)
Lemma round_trip_rewrites_bi_connector :
  let d := demo.recorded demo.bi_config "abc123/my-cluster/5d1b" in
  ∃ d',
    resourceMongoDBAtlasClusterRead (demo.returning (createRequest d)) (demo.world d)
    = (Return tt, {| data := d'; calls := [CallGet "abc123" "my-cluster"] |}) ∧
    Get d "bi_connector" = Some (VMap {[ "read_preference" := "secondary" ]}) ∧
    Get d' "bi_connector"
    = Some (VMap {[ "enabled" := "false"; "read_preference" := "secondary" ]}) ∧
    Get d' "bi_connector" ≠ Get d "bi_connector".
Proof.
  intros d.
  destruct (round_trip_run d [CallGet "abc123" "my-cluster"] "my-cluster")
    as (d' & Hrun & _ & Hbi & _).
  assert (Get d "bi_connector" = Some (VMap {[ "read_preference" := "secondary" ]})) as Hd
    by (vm_compute; reflexivity).
  assert (Get d' "bi_connector"
          = Some (VMap {[ "enabled" := "false"; "read_preference" := "secondary" ]})) as Hd'.
  { rewrite Hbi. vm_compute. reflexivity. }
  exists d'. split; [exact Hrun|]. split; [exact Hd|]. split; [exact Hd'|].
  rewrite Hd, Hd'. intros Heq.
  pose proof (f_equal (λ v, match v with
                            | Some (VMap m) => m !! "enabled"
                            | _ => None
                            end) Heq) as Hl.
  vm_compute in Hl. discriminate.
Qed.

(** The read takes [mongo_db_major_version] from the full version of the
    remote cluster: the major version 4.0 of the configuration does not
    come back from its own create request. *)
Lemma round_trip_major_version :
  let d := demo.recorded_cluster in
  ∃ d',
    resourceMongoDBAtlasClusterRead (demo.returning (createRequest d)) (demo.world d)
    = (Return tt, {| data := d'; calls := [CallGet "abc123" "my-cluster"] |}) ∧
    Get d "mongo_db_major_version" = Some (VString "4.0") ∧
    Get d' "mongo_db_major_version" = Some (VString "").
Proof.
  intros d.
  destruct (round_trip_run d [CallGet "abc123" "my-cluster"] "my-cluster")
    as (d' & Hrun & _ & _ & _ & Hmajor).
  exists d'. split; [exact Hrun|]. split; [vm_compute; reflexivity | exact Hmajor].
Qed.

(** C4 on the poll after a delete: DELETING at the first read, no cluster
    at the second. *)
Lemma not_found_succeeds_iff_deleting_witness :
  let d := demo.recorded_cluster in
  let refresh := resourceClusterRefreshFunc "my-cluster" "abc123" demo.deleting in
  let w1 := {| data := d; calls := [CallGet "abc123" "my-cluster"] |} in
  afterPasses (withDefaults deleteStateConf) refresh 1 0 0 "" (demo.world d)
  = Some (0%nat, 0%nat, "DELETING", w1) ∧
  (1 < reads_within deleteStateConf)%nat ∧
  Clusters_Get demo.deleting (calls w1) "abc123" "my-cluster" = demo.notFound ∧
  WaitForState deleteStateConf refresh (demo.world d)
  = (Return (AnyInt 42),
     {| data := d; calls := [CallGet "abc123" "my-cluster"; CallGet "abc123" "my-cluster"] |}).
Proof.
  intros d refresh w1.
  assert (afterPasses (withDefaults deleteStateConf) refresh 1 0 0 ""
            (demo.world d) = Some (0%nat, 0%nat, "DELETING", w1)) as Hafter
    by (vm_compute; reflexivity).
  assert (1 < reads_within deleteStateConf)%nat as Hreads
    by (vm_compute; lia).
  split; [exact Hafter|]. split; [exact Hreads|]. split; [reflexivity|].
  refine (proj1 (not_found_succeeds_iff_deleting demo.deleting
                   "my-cluster" "abc123" d deleteStateConf (demo.world d) 1 0 0 "DELETING" w1
                   None {| matlas.StatusCode := 404 |} (errorString "404 CLUSTER_NOT_FOUND")
                   _ Hafter Hreads eq_refl eq_refl eq_refl) eq_refl).
  unfold sourceConfs. repeat constructor.
Defined.

(** C5 on a configuration with a replication topology and no cluster
    type, and on one with the topology of the documentation's multi-region
    example and a cluster type, and without [num_shards]. *)
Lemma absent_num_shards_passes_validation_witness :
  let d := created demo.unsharded_config in
  let untyped := created demo.zoned_config in
  (GetOk untyped "replication_specs").2 = true ∧
  demo.zoned_config !! "cluster_type" = None ∧
  resourceMongoDBAtlasClusterCreate demo.refusing (demo.world untyped)
  = (Fail (errorString "`cluster_type` should be set when `replication_specs` is set"),
     demo.world untyped) ∧
  (GetOk d "replication_specs").2 = true ∧
  demo.unsharded_config !! "num_shards" = None ∧
  (GetOk d "cluster_type").2 = true ∧
  GetOk d "num_shards" = (Some (VInt 1), true) ∧
  createValid d = true ∧
  ∃ r w' rest,
    resourceMongoDBAtlasClusterCreate demo.refusing (demo.world d) = (r, w') ∧
    calls w' = [] ++ CallCreate "abc123" (createRequest d) :: rest.
Proof.
  intros d untyped.
  assert ((GetOk untyped "replication_specs").2 = true) as Hzoned
    by (vm_compute; reflexivity).
  assert (demo.zoned_config !! "cluster_type" = None) as Huntyped
    by (vm_compute; reflexivity).
  split; [exact Hzoned|]. split; [exact Huntyped|].
  split; [exact (proj1 (absent_num_shards_passes_validation demo.refusing
                          demo.zoned_config [] Hzoned) Huntyped)|].
  assert ((GetOk d "replication_specs").2 = true) as Hspecs by (vm_compute; reflexivity).
  assert (demo.unsharded_config !! "num_shards" = None) as Hnone
    by (vm_compute; reflexivity).
  assert ((GetOk d "cluster_type").2 = true) as Htype by (vm_compute; reflexivity).
  destruct (proj2 (absent_num_shards_passes_validation demo.refusing
                     demo.unsharded_config [] Hspecs) Hnone) as [Hshards Hpass].
  destruct (Hpass Htype) as [Hvalid Hcall].
  split; [exact Hspecs|]. split; [exact Hnone|]. split; [exact Htype|].
  split; [exact Hshards|]. split; [exact Hvalid|]. exact Hcall.
Defined.

(** C6 on the identifiers [abc123-my-cluster] and [nohyphen]. *)
Lemma import_splits_at_first_hyphen_witness :
  gostrings.Contains "abc123" "-" = false ∧
  gostrings.Contains "nohyphen" "-" = false ∧
  gostrings.SplitN "abc123-my-cluster" "-" 2 = ["abc123"; "my-cluster"] ∧
  (∃ r w',
     resourceMongoDBAtlasClusterImportState (demo.returning (demo.clusterIn "IDLE"))
       (demo.world (demo.imported "abc123-my-cluster")) = (r, w') ∧
     calls w' = [CallGet "abc123" "my-cluster"]) ∧
  resourceMongoDBAtlasClusterImportState (demo.returning (demo.clusterIn "IDLE"))
    (demo.world (demo.imported "nohyphen"))
  = (Fail importFormatError, demo.world (demo.imported "nohyphen")).
Proof.
  split; [reflexivity|]. split; [reflexivity|].
  pose proof (proj1 (import_splits_at_first_hyphen (demo.returning (demo.clusterIn "IDLE"))
                       (demo.imported "abc123-my-cluster") [])
                "abc123" "my-cluster" eq_refl eq_refl) as [Hsplit (r & w' & Hrun & Hcalls & _)].
  split; [exact Hsplit|]. split; [exists r, w'; split; [exact Hrun | exact Hcalls]|].
  exact (proj2 (import_splits_at_first_hyphen (demo.returning (demo.clusterIn "IDLE"))
                  (demo.imported "nohyphen") []) eq_refl).
Defined.

(** C7, amended, on an update whose remote call is refused. *)
Lemma errors_name_operation_and_cause_witness :
  let d := demo.recorded_cluster in
  (Clusters_Update demo.refusing [] (projectID_of d) (clusterName_of d)
     (updateRequest d (updateSpecs d))).2 = Some (errorString "quota exceeded") ∧
  ∃ e w',
    resourceMongoDBAtlasClusterUpdate demo.refusing (demo.world d) = (Fail e, w') ∧
    names e ["updating"; clusterName_of d; "quota exceeded"].
Proof.
  intros d. split; [reflexivity|].
  exact (proj1 (proj2 (proj2 (errors_name_operation_and_cause demo.refusing d [])))
           (errorString "quota exceeded") eq_refl).
Defined.

(** C7 as stated fails: the error of a refused create does not name the
    cluster. *)
Lemma create_error_omits_cluster_name :
  ∃ e w',
    resourceMongoDBAtlasClusterCreate demo.refusing (demo.world demo.planned_cluster)
    = (Fail e, w') ∧
    get_string demo.planned_cluster "name" = "my-cluster" ∧
    Error e = "error creating MongoDB Cluster: quota exceeded" ∧
    gostrings.Contains (Error e) "my-cluster" = false.
Proof. do 2 eexists. repeat split; vm_compute; reflexivity. Qed.

(** An update whose poll fails reports it under the text of create. *)
Lemma update_poll_failure_text :
  ∃ e w',
    resourceMongoDBAtlasClusterUpdate demo.gone (demo.world demo.recorded_cluster)
    = (Fail e, w') ∧
    Error e = "error creating MongoDB Cluster: unexpected state 'DELETED'".
Proof. do 2 eexists. split; vm_compute; reflexivity. Qed.

(** C8 on a create whose remote call is refused. *)
Lemma create_failure_leaves_identity_unset_witness :
  let d := demo.planned_cluster in
  let r := Fail (Errorf errorCreate ["quota exceeded"]) in
  let w' := {| data := d; calls := [CallCreate "abc123" (createRequest d)] |} in
  Id d = "" ∧
  resourceMongoDBAtlasClusterCreate demo.refusing (demo.world d) = (r, w') ∧
  (Clusters_Create demo.refusing [] "abc123" (createRequest d)).2 ≠ None ∧
  r ≠ Return tt ∧ data w' = d ∧ Id (data w') = "".
Proof.
  intros d r w'.
  assert (resourceMongoDBAtlasClusterCreate demo.refusing (demo.world d)
          = (r, w')) as Hrun by (vm_compute; reflexivity).
  split; [reflexivity|]. split; [exact Hrun|]. split; [discriminate|].
  apply (create_failure_leaves_identity_unset demo.refusing d [] r w'
           eq_refl Hrun).
  left. discriminate.
Defined.

(** C9 on the poll after a create. *)
Lemma creating_creating_idle_witness :
  let d := demo.planned_cluster in
  (3 ≤ reads_within (createStateConf d))%nat ∧
  WaitForState (createStateConf d)
    (resourceClusterRefreshFunc "my-cluster" "abc123" demo.creating)
    (demo.world d)
  = (Return (AnyClusterPtr (demo.clusterIn "IDLE")),
     {| data := d;
        calls := [CallGet "abc123" "my-cluster"; CallGet "abc123" "my-cluster";
                  CallGet "abc123" "my-cluster"] |}).
Proof.
  assert (3 ≤ reads_within (createStateConf demo.planned_cluster))%nat
    as Hreads by (vm_compute; lia).
  split; [exact Hreads|].
  exact (creating_creating_idle demo.creating "my-cluster" "abc123"
           demo.planned_cluster (createStateConf demo.planned_cluster)
           (demo.world demo.planned_cluster)
           (demo.clusterIn "CREATING") (demo.clusterIn "CREATING") (demo.clusterIn "IDLE")
           _ _ _ (or_introl eq_refl) eq_refl eq_refl eq_refl eq_refl eq_refl eq_refl Hreads).
Defined.

(** C10 on a recorded cluster that is gone from the remote API. *)
Lemma read_absent_leaves_state_witness :
  let d := demo.recorded_cluster in
  Clusters_Get demo.gone [] "abc123" "my-cluster" = demo.notFound ∧
  resourceMongoDBAtlasClusterRead demo.gone (demo.world d)
  = (Return tt, {| data := d; calls := [CallGet "abc123" "my-cluster"] |}).
Proof.
  split; [reflexivity|].
  exact (read_absent_leaves_state demo.gone demo.recorded_cluster []
           None {| matlas.StatusCode := 404 |} (errorString "404 CLUSTER_NOT_FOUND")
           eq_refl eq_refl).
Defined.

(** ** The further properties on concrete inputs *)

(** X1 on the poll after a delete, against a remote API that refuses the
    first read. *)
Lemma fatal_read_error_ends_the_poll_witness :
  let d := demo.recorded_cluster in
  (0 < reads_within deleteStateConf)%nat ∧
  Clusters_Get demo.unreadable [] "abc123" "my-cluster" = demo.refused "internal error" ∧
  WaitForState deleteStateConf
    (resourceClusterRefreshFunc "my-cluster" "abc123" demo.unreadable) (demo.world d)
  = (Fail (errorString "internal error"),
     {| data := d; calls := [CallGet "abc123" "my-cluster"] |}).
Proof.
  intros d.
  assert (0 < reads_within deleteStateConf)%nat as Hreads by (vm_compute; lia).
  split; [exact Hreads|]. split; [reflexivity|].
  refine (fatal_read_error_ends_the_poll demo.unreadable "my-cluster" "abc123"
            deleteStateConf (demo.world d) 0 0 0 "" (demo.world d)
            None (Some {| matlas.StatusCode := 400 |}) (errorString "internal error")
            eq_refl Hreads eq_refl eq_refl _).
  right. eexists. split; [reflexivity|]. cbn. lia.
Defined.

(** X2 on the poll after a create, against a remote API that reports the
    cluster as DELETED. *)
Lemma unexpected_state_ends_the_poll_witness :
  let d := demo.planned_cluster in
  let conn := demo.returning (demo.clusterIn "DELETED") in
  (0 < reads_within (createStateConf d))%nat ∧
  ("DELETED" ∉ resource.Target (createStateConf d)) ∧
  ("DELETED" ∉ resource.Pending (createStateConf d)) ∧
  WaitForState (createStateConf d)
    (resourceClusterRefreshFunc "my-cluster" "abc123" conn) (demo.world d)
  = (Fail (resourceError (resource.UnexpectedStateError "DELETED" ["IDLE"])),
     {| data := d; calls := [CallGet "abc123" "my-cluster"] |}).
Proof.
  intros d conn.
  assert (0 < reads_within (createStateConf d))%nat as Hreads by (vm_compute; lia).
  assert ("DELETED" ∉ resource.Target (createStateConf d)) as Htarget
    by (apply (bool_decide_unpack _); vm_compute; exact I).
  assert ("DELETED" ∉ resource.Pending (createStateConf d)) as Hpending
    by (apply (bool_decide_unpack _); vm_compute; exact I).
  split; [exact Hreads|]. split; [exact Htarget|]. split; [exact Hpending|].
  refine (unexpected_state_ends_the_poll conn "my-cluster" "abc123" d
            (createStateConf d) (demo.world d) 0 0 0 "" (demo.world d)
            (demo.clusterIn "DELETED") (Some {| matlas.StatusCode := 200 |})
            _ eq_refl Hreads eq_refl Htarget Hpending).
  unfold sourceConfs. repeat constructor.
Defined.

(** X3 on the poll after a create, against a remote API that reports the
    cluster as CREATING for ever. *)
Lemma pending_forever_times_out_witness :
  let d := demo.planned_cluster in
  let conn := demo.returning (demo.clusterIn "CREATING") in
  let conf := createStateConf d in
  (0 < reads_within conf)%nat ∧
  WaitForState conf (resourceClusterRefreshFunc "my-cluster" "abc123" conn) (demo.world d)
  = (Fail (resourceError (resource.TimeoutError "CREATING" (resource.Timeout conf) ["IDLE"])),
     {| data := d;
        calls := [] ++ replicate (reads_within conf) (CallGet "abc123" "my-cluster") |}).
Proof.
  intros d conn conf.
  assert (0 < reads_within conf)%nat as Hreads by (vm_compute; lia).
  split; [exact Hreads|].
  refine (pending_forever_times_out conn "my-cluster" "abc123" d conf (demo.world d)
            "CREATING" _ _ _ _ Hreads).
  - unfold sourceConfs. repeat constructor.
  - apply (bool_decide_unpack _); vm_compute; exact I.
  - repeat constructor.
  - intros h. do 2 eexists. split; reflexivity.
Defined.

(** X7 on a recorded cluster whose read the remote API refuses. *)
Lemma read_failure_leaves_store_witness :
  let d := demo.recorded_cluster in
  let e := Errorf errorRead ["my-cluster"; "internal error"] in
  let w' := {| data := d; calls := [CallGet "abc123" "my-cluster"] |} in
  resourceMongoDBAtlasClusterRead demo.unreadable (demo.world d) = (Fail e, w') ∧
  w' = {| data := d; calls := [] ++ [CallGet (projectID_of d) (clusterName_of d)] |}.
Proof.
  intros d e w'.
  assert (resourceMongoDBAtlasClusterRead demo.unreadable (demo.world d) = (Fail e, w'))
    as Hrun by (vm_compute; reflexivity).
  split; [exact Hrun|].
  exact (proj1 (read_failure_leaves_store demo.unreadable d [] e w' Hrun)).
Defined.

(** X8 on a create whose poll sees CREATING twice and then IDLE. *)
Lemma create_records_identity_witness :
  let d := demo.planned_cluster in
  createValid d = true ∧
  Clusters_Create demo.creating [] "abc123" (createRequest d)
  = demo.ok (demo.clusterIn "CREATING") ∧
  Id (data (resourceMongoDBAtlasClusterCreate demo.creating (demo.world d)).2)
  = "abc123/my-cluster/5d1b".
Proof.
  intros d.
  assert (createValid d = true) as Hvalid by (vm_compute; reflexivity).
  split; [exact Hvalid|]. split; [reflexivity|].
  refine (create_records_identity demo.creating d [] (demo.clusterIn "CREATING")
            (Some {| matlas.StatusCode := 200 |})
            (AnyClusterPtr (demo.clusterIn "IDLE"))
            {| data := d;
               calls := [CallCreate "abc123" (createRequest d);
                         CallGet "abc123" "my-cluster"; CallGet "abc123" "my-cluster";
                         CallGet "abc123" "my-cluster"] |}
            Hvalid eq_refl _).
  vm_compute; reflexivity.
Defined.

(** X9 on the update of a recorded cluster that holds replication
    specs: the call carries them. *)
Lemma one_mutation_then_reads_witness :
  let d := demo.wide_cluster in
  updateRequest d (updateSpecs d) = specsOnly [demo.wide_zone] ∧
  ∃ rest,
    calls (resourceMongoDBAtlasClusterUpdate demo.creating (demo.world d)).2
    = [] ++ CallUpdate "abc123" "my-cluster" (specsOnly [demo.wide_zone]) :: rest ∧
    onlyGets rest.
Proof.
  intros d.
  assert (updateRequest d (updateSpecs d) = specsOnly [demo.wide_zone]) as Hrequest
    by (vm_compute; reflexivity).
  split; [exact Hrequest|].
  destruct (proj1 (one_mutation_then_reads demo.creating d [])) as (rest & Hcalls & Hgets).
  exists rest. split; [|exact Hgets].
  rewrite Hrequest in Hcalls. exact Hcalls.
Defined.


(** X11 on the same read: the remote cluster reports no provider
    settings. *)
Lemma read_keeps_unreported_attributes_witness :
  let d := demo.recorded_cluster in
  let conn := demo.returning (demo.clusterIn "IDLE") in
  let d' := data (resourceMongoDBAtlasClusterRead conn (demo.world d)).2 in
  Clusters_Get conn [] (projectID_of d) (clusterName_of d) = demo.ok (demo.clusterIn "IDLE") ∧
  Get d' "project_id" = Get d "project_id" ∧
  Get d' "name" = Get d "name" ∧
  Get d' "provider_name" = Some (VString "AWS").
Proof.
  intros d conn d'.
  split; [reflexivity|].
  destruct (read_keeps_unreported_attributes conn d [] (demo.clusterIn "IDLE")
              (Some {| matlas.StatusCode := 200 |}) eq_refl)
    as (Hproject & Hname & _ & Hprovider).
  split; [exact Hproject|]. split; [exact Hname|].
  pose proof (Hprovider eq_refl) as Hkeys.
  rewrite !Forall_cons in Hkeys.
  destruct Hkeys as (_ & _ & _ & _ & _ & Hp & _).
  etrans; [exact Hp | vm_compute; reflexivity].
Defined.

(** X12 on the flag of an enabled BI connector. *)
Lemma flattenBiConnector_entries_witness :
  flattenBiConnector demo.connector !! "enabled" = Some "true" ∧
  ((("enabled" : string) = "enabled" ∧
    ∃ enabled, matlas.Enabled demo.connector = Some enabled ∧
               "true" = strconv.FormatBool enabled) ∨
   (("enabled" : string) = "read_preference" ∧
    "true" = matlas.ReadPreference demo.connector ∧ ("true" : string) ≠ "")).
Proof.
  assert (flattenBiConnector demo.connector !! "enabled" = Some "true") as Hl
    by (vm_compute; reflexivity).
  split; [exact Hl|].
  exact (flattenBiConnector_entries demo.connector "enabled" "true" Hl).
Defined.

(** X13 on a recorded cluster that holds the flattened connector. *)
Lemma expand_flattened_bi_connector_witness :
  Get demo.connected_cluster "bi_connector"
  = Some (VMap (flattenBiConnector demo.connector)) ∧
  expandBiConnector demo.connected_cluster = (demo.connector, None).
Proof.
  assert (Get demo.connected_cluster "bi_connector"
          = Some (VMap (flattenBiConnector demo.connector))) as Hget
    by (vm_compute; reflexivity).
  split; [exact Hget|].
  apply (expand_flattened_bi_connector demo.connected_cluster demo.connector Hget).
  left. discriminate.
Defined.

(** X17 on a recorded cluster whose store lists the three regions in an
    order that is neither the order of the range nor that of the set. *)
Lemma expand_flattened_replication_specs_witness :
  Forall specComplete [demo.wide_zone] ∧
  Get demo.wide_cluster "replication_specs" = Some (VList demo.wide_specs) ∧
  Forall2 holdsZone demo.wide_specs [demo.wide_zone] ∧
  flattenReplicationSpecs [demo.wide_zone] ≠ demo.wide_specs ∧
  storedSpec <$> demo.wide_specs ≠ demo.wide_specs ∧
  expandReplicationSpecs demo.wide_cluster = ([demo.wide_zone], None).
Proof.
  assert (Forall specComplete [demo.wide_zone]) as Hcomplete.
  { apply Forall_singleton. split; [discriminate|].
    unfold demo.wide_zone. cbn [matlas.ReplicationSpec_RegionsConfig].
    repeat (apply map_Forall_insert_2; [repeat split; discriminate|]).
    apply map_Forall_empty. }
  assert (Get demo.wide_cluster "replication_specs" = Some (VList demo.wide_specs)) as Hget
    by (vm_compute; reflexivity).
  assert (Forall2 holdsZone demo.wide_specs [demo.wide_zone]) as Hholds.
  { constructor; [|constructor]. repeat split.
    apply (bool_decide_unpack _). vm_compute. exact I. }
  split; [exact Hcomplete|]. split; [exact Hget|]. split; [exact Hholds|].
  split; [|split].
  1, 2: intros Heq;
    apply (f_equal (fmap (λ spec, region_name <$> spec_regions_config spec))) in Heq;
    vm_compute in Heq; discriminate.
  exact (expand_flattened_replication_specs demo.wide_cluster demo.wide_specs
           [demo.wide_zone] Hcomplete Hget Hholds).
Defined.

(** X18 on an import whose read the remote API refuses. *)
Lemma import_reads_at_most_once_witness :
  let d := demo.imported "abc123-my-cluster" in
  let r := Fail (Errorf "couldn't import cluster %s in project %s, error: %s"
                   ["my-cluster"; "abc123"; "internal error"]) in
  let w' := {| data := d; calls := [CallGet "abc123" "my-cluster"] |} in
  resourceMongoDBAtlasClusterImportState demo.unreadable (demo.world d) = (r, w') ∧
  ((gostrings.Contains (Id d) "-" = false ∧ r = Fail importFormatError ∧
    w' = {| data := d; calls := [] |}) ∨
   ∃ projectID name,
     Id d = projectID +:+ "-" +:+ name ∧ gostrings.Contains projectID "-" = false ∧
     calls w' = [] ++ [CallGet projectID name] ∧
     ((∃ stored, r = Return [stored] ∧ data w' = stored) ∨ data w' = d)).
Proof.
  intros d r w'.
  assert (resourceMongoDBAtlasClusterImportState demo.unreadable (demo.world d) = (r, w'))
    as Hrun by (vm_compute; reflexivity).
  split; [exact Hrun|].
  exact (import_reads_at_most_once demo.unreadable d [] r w' Hrun).
Defined.

(** X19 on the same import. *)
Lemma import_failure_names_the_cluster_witness :
  let d := demo.imported "abc123-my-cluster" in
  gostrings.SplitN (Id d) "-" 2 = ["abc123"; "my-cluster"] ∧
  Clusters_Get demo.unreadable [] "abc123" "my-cluster" = demo.refused "internal error" ∧
  ∃ e,
    resourceMongoDBAtlasClusterImportState demo.unreadable (demo.world d)
    = (Fail e, {| data := d; calls := [] ++ [CallGet "abc123" "my-cluster"] |}) ∧
    names e ["import"; "my-cluster"; "abc123"; "internal error"].
Proof.
  intros d. split; [reflexivity|]. split; [reflexivity|].
  exact (import_failure_names_the_cluster demo.unreadable d [] "abc123" "my-cluster"
           None (Some {| matlas.StatusCode := 400 |}) (errorString "internal error")
           eq_refl eq_refl).
Defined.

(** X20 on an import of a cluster that the remote API reports as IDLE. *)
Lemma import_records_remote_names_witness :
  let d := demo.imported "abc123-my-cluster" in
  let conn := demo.returning (demo.clusterIn "IDLE") in
  gostrings.SplitN (Id d) "-" 2 = ["abc123"; "my-cluster"] ∧
  Clusters_Get conn [] "abc123" "my-cluster" = demo.ok (demo.clusterIn "IDLE") ∧
  ∃ stored,
    resourceMongoDBAtlasClusterImportState conn (demo.world d)
    = (Return [stored], {| data := stored; calls := [] ++ [CallGet "abc123" "my-cluster"] |}) ∧
    Id stored = "abc123/my-cluster/5d1b" ∧
    Get stored "project_id" = Some (VString "abc123") ∧
    Get stored "name" = Some (VString "my-cluster").
Proof.
  intros d conn. split; [reflexivity|]. split; [reflexivity|].
  destruct (import_records_remote_names conn d [] "abc123" "my-cluster"
              (demo.clusterIn "IDLE") (Some {| matlas.StatusCode := 200 |})
              eq_refl eq_refl)
    as (stored & Hrun & Hid & Hproject & Hname & _).
  exists stored. split; [exact Hrun|]. split; [|split; [exact Hproject | exact Hname]].
  rewrite Hid. vm_compute; reflexivity.
Defined.
